(** * Facebook auto-reply webhook: shallow embedding and verified properties

    The repository holds two near-duplicate Express servers:
    - [server.js], the single-tenant bot (one implicit page, [data/config.json]);
    - the multi-tenant bot (pages kept in [data/pages.json]).

    Both are embedded below, function by function, over a small model of the
    JavaScript values and library calls they use.  Handlers are computations
    in a state-and-exception monad that also records, in order, every effect
    the outside world can observe (HTTP responses, console lines, file
    accesses, outbound requests). *)

From Stdlib Require Import ZArith String Ascii DecimalString Lia.
From stdpp Require Import base strings list gmap.

(** ** JavaScript values

    Request bodies, query parameters, stored configuration fields and
    upstream API answers are JSON-shaped values.  [JUndefined] stands for
    an absent property.  Numbers are integer valued: the programs only
    test them for truthiness and identity and print them.  [JNum n] is the
    Number that the integer literal [n] denotes, which is the double
    nearest to [n]. *)

#[local] Unset Elimination Schemes.
Inductive jsval : Type :=
| JUndefined
| JNull
| JBool (b : bool)
| JNum (n : Z)
| JStr (s : string)
| JArr (items : list jsval)
| JObj (fields : list (string * jsval)).
#[local] Set Elimination Schemes.

(** A thrown JavaScript error: [error.message] and, for a failed HTTP call
    that got an answer, [error.response.data] ([JUndefined] otherwise). *)
Record exn : Type := mkExn { message : string; response_data : jsval }.

Inductive result (A : Type) : Type :=
| Ok (a : A)
| Throw (e : exn).
Arguments Ok {A} a.
Arguments Throw {A} e.

Definition TypeError (msg : string) : exn :=
  {| message := msg; response_data := JUndefined |}.

Definition bind_r {A B : Type} (r : result A) (k : A -> result B) : result B :=
  match r with
  | Ok a => k a
  | Throw e => Throw e
  end.

Notation "'let+' x ':=' r 'in' k" := (bind_r r (fun x => k))
  (at level 10, x name, r at level 100, k at level 200).

(** ** Numbers

    A finite double of integer value is held as that integer, and
    [INFINITY] stands for the infinite one. *)

Definition INFINITY : Z := 2 ^ 1024.

(** The double nearest to a natural number, ties to the even mantissa. *)
Definition nearest_double (n : Z) : Z :=
  let b := Z.log2 n in
  if (b <=? 52)%Z then n
  else
    let shift := (b - 52)%Z in
    let q := Z.shiftr n shift in
    let r := (n - Z.shiftl q shift)%Z in
    let half := Z.shiftl 1 (shift - 1) in
    let q' := if (half <? r)%Z || ((r =? half)%Z && Z.odd q) then (q + 1)%Z else q in
    Z.min (Z.shiftl q' shift) INFINITY.

(** The value of the Number [n] denotes. *)
Definition number_value (n : Z) : Z := (Z.sgn n * nearest_double (Z.abs n))%Z.

Definition decimal_digits (n : Z) : string := NilZero.string_of_int (Z.to_int n).

(** Whether the real number [v] is read as the double [x], above [2^53]:
    it lies between the midpoints to the neighbours of [x], the midpoints
    included when the mantissa of [x] is even. *)
Definition rounds_to (x v : Z) : bool :=
  let shift := (Z.log2 x - 52)%Z in
  let m := Z.shiftr x shift in
  let gap := Z.shiftl 1 shift in
  let up := (4 * x + 2 * gap)%Z in
  let down := if (m =? 2 ^ 52)%Z then (4 * x - gap)%Z else (4 * x - 2 * gap)%Z in
  if Z.even m then (down <=? 4 * v)%Z && (4 * v <=? up)%Z
  else (down <? 4 * v)%Z && (4 * v <? up)%Z.

(** The number with the fewest significant digits that is read as [x],
    the closest to [x] when there are two; [p] is the power of ten of the
    leading digit of [x]. *)
Fixpoint shortest (fuel : nat) (p x : Z) : Z :=
  match fuel with
  | O => x
  | S fuel' =>
      let low := (x / p * p)%Z in
      let high := (low + p)%Z in
      match rounds_to x low, rounds_to x high with
      | true, true =>
          if (x - low <? high - x)%Z then low
          else if (high - x <? x - low)%Z then high
          else if Z.even (x / p) then low else high
      | true, false => low
      | false, true => high
      | false, false => shortest fuel' (p / 10)%Z x
      end
  end.

Fixpoint strip_zeros (digits : list ascii) : list ascii :=
  match digits with
  | [] => []
  | c :: rest =>
      match strip_zeros rest with
      | [] => if Ascii.eqb c "0" then [] else [c]
      | kept => c :: kept
      end
  end.

(** Up to 21 digits are written out; beyond, the exponent form. *)
Definition render (v : Z) : string :=
  let digits := decimal_digits v in
  let n := String.length digits in
  if (n <=? 21)%nat then digits
  else
    match strip_zeros (list_ascii_of_string digits) with
    | [] => digits
    | [d] => String d ("e+" +:+ decimal_digits (Z.of_nat n - 1))
    | d :: rest =>
        String d ("." +:+ string_of_list_ascii rest
                  +:+ "e+" +:+ decimal_digits (Z.of_nat n - 1))
    end.

(** Number::toString in radix 10, for the Number [n] denotes. *)
Definition number_to_string (n : Z) : string :=
  let x := Z.abs (number_value n) in
  let sign := if (n <? 0)%Z then "-" else "" in
  if (INFINITY <=? x)%Z then sign +:+ "Infinity"
  else if (x <=? 2 ^ 53)%Z then sign +:+ decimal_digits x
  else
    let digits := String.length (decimal_digits x) in
    sign +:+ render (shortest digits (10 ^ (Z.of_nat digits - 1)) x).

(** ToBoolean. *)
Definition truthy (v : jsval) : bool :=
  match v with
  | JUndefined | JNull => false
  | JBool b => b
  | JNum n => negb (n =? 0)%Z
  | JStr s => negb (String.eqb s "")
  | JArr _ | JObj _ => true
  end.

(** [a === b] for two values of independent origin (two separate
    [JSON.parse] results, a query parameter, a literal): primitives are
    compared by value, arrays and objects are never the same reference. *)
Definition strict_eq (a b : jsval) : bool :=
  match a, b with
  | JUndefined, JUndefined => true
  | JNull, JNull => true
  | JBool x, JBool y => Bool.eqb x y
  | JNum x, JNum y => (number_value x =? number_value y)%Z
  | JStr x, JStr y => String.eqb x y
  | _, _ => false
  end.

(** [a || b]. *)
Definition js_or (a b : jsval) : jsval := if truthy a then a else b.

(** ** Strings

    A [string] is a JavaScript string over the repertoire of Windows-1252:
    ASCII, Latin-1 from U+00A0 on, and the characters that code page has
    in place of the C1 controls (the fallback reply in the source files
    ends in four such characters).  Each code unit is held in one [ascii],
    as its byte in Windows-1252; [code_unit] gives the unit. *)

Definition code_unit (c : ascii) : N :=
  match N_of_ascii c with
  | 128 => 8364 | 130 => 8218 | 131 => 402 | 132 => 8222 | 133 => 8230
  | 134 => 8224 | 135 => 8225 | 136 => 710 | 137 => 8240 | 138 => 352
  | 139 => 8249 | 140 => 338 | 142 => 381
  | 145 => 8216 | 146 => 8217 | 147 => 8220 | 148 => 8221 | 149 => 8226
  | 150 => 8211 | 151 => 8212 | 152 => 732 | 153 => 8482 | 154 => 353
  | 155 => 8250 | 156 => 339 | 158 => 382 | 159 => 376
  | n => n
  end%N.

(** [Array.prototype.join]. *)
Fixpoint join (sep : string) (parts : list string) : string :=
  match parts with
  | [] => ""
  | [p] => p
  | p :: rest => p +:+ sep +:+ join sep rest
  end.

(** ToString. *)
Fixpoint ToString (v : jsval) : string :=
  match v with
  | JUndefined => "undefined"
  | JNull => "null"
  | JBool true => "true"
  | JBool false => "false"
  | JNum n => number_to_string n
  | JStr s => s
  | JArr items =>
      join "," (List.map (fun x => match x with
                                   | JUndefined | JNull => ""
                                   | _ => ToString x
                                   end) items)
  | JObj _ => "[object Object]"
  end.

(** [s.startsWith(p)]. *)
Fixpoint startsWith (p s : string) : bool :=
  match p, s with
  | EmptyString, _ => true
  | String a p', String b s' => Ascii.eqb a b && startsWith p' s'
  | String _ _, EmptyString => false
  end.

(** [s.includes(t)]. *)
Fixpoint includes (s t : string) : bool :=
  startsWith t s ||
  match s with
  | EmptyString => false
  | String _ s' => includes s' t
  end.

(** [s.endsWith(suffix)]. *)
Fixpoint endsWith (suffix s : string) : bool :=
  String.eqb s suffix ||
  match s with
  | EmptyString => false
  | String _ s' => endsWith suffix s'
  end.

(** [s.split(sep)] for a one-character separator. *)
Fixpoint split (sep : ascii) (s : string) : list string :=
  match s with
  | EmptyString => [EmptyString]
  | String c s' =>
      if Ascii.eqb c sep then EmptyString :: split sep s'
      else match split sep s' with
           | w :: ws => String c w :: ws
           | [] => [String c EmptyString]
           end
  end.

Fixpoint drop_chars (n : nat) (s : string) : string :=
  match n, s with
  | O, _ => s
  | S n', String _ s' => drop_chars n' s'
  | S _, EmptyString => EmptyString
  end.

(** [s.replace(pat, '')] with a string pattern: only the first occurrence
    is removed. *)
Fixpoint remove_first (pat s : string) : string :=
  if startsWith pat s then drop_chars (String.length pat) s
  else match s with
       | EmptyString => EmptyString
       | String c s' => String c (remove_first pat s')
       end.

Fixpoint string_filter (keep : ascii -> bool) (s : string) : string :=
  match s with
  | EmptyString => EmptyString
  | String c s' =>
      if keep c then String c (string_filter keep s') else string_filter keep s'
  end.

Fixpoint string_map (f : ascii -> ascii) (s : string) : string :=
  match s with
  | EmptyString => EmptyString
  | String c s' => String (f c) (string_map f s')
  end.

Fixpoint string_forallb (p : ascii -> bool) (s : string) : bool :=
  match s with
  | EmptyString => true
  | String c s' => p c && string_forallb p s'
  end.

Definition in_range (lo hi : nat) (c : ascii) : bool :=
  (lo <=? nat_of_ascii c) && (nat_of_ascii c <=? hi).

(** Lower-casing of one code unit: [A-Z]; the Latin-1 capitals
    U+00C0..U+00DE except the multiplication sign U+00D7; and, of the
    other characters of Windows-1252, U+0160, U+0152 and U+017D (bytes
    138, 140, 142), whose small letters follow them at a distance of 16
    bytes, and U+0178 (byte 159), whose small letter is U+00FF. *)
Definition lower_unit (c : ascii) : ascii :=
  let n := nat_of_ascii c in
  if in_range 65 90 c || (in_range 192 222 c && negb (n =? 215))
  then ascii_of_nat (n + 32)
  else if (n =? 138) || (n =? 140) || (n =? 142) then ascii_of_nat (n + 16)
  else if n =? 159 then ascii_of_nat 255
  else c.

(** [s.toLowerCase()]. *)
Definition toLowerCase (s : string) : string := string_map lower_unit s.

(** The class [[a-zA-Z0-9-_]] of the knowledge-name regular expression. *)
Definition safe_char (c : ascii) : bool :=
  in_range 97 122 c || in_range 65 90 c || in_range 48 57 c
  || Ascii.eqb c "-" || Ascii.eqb c "_".

(** [name.replace(/[^a-zA-Z0-9-_]/g, '')]. *)
Definition sanitize (name : string) : string := string_filter safe_char name.

(** ** Property access and method calls on JSON values *)

Definition assoc (k : string) (fields : list (string * jsval)) : jsval :=
  match List.find (fun kv => String.eqb (fst kv) k) fields with
  | Some kv => snd kv
  | None => JUndefined
  end.

(** [v.k] or [v[k]].  Reading a property of [undefined] or [null] throws;
    a JSON object yields its own property; an array or a string yields its
    first element for the index ["0"] (the only index these programs read).
    None of the property names read by the programs is defined on the
    prototypes of arrays, strings, numbers or booleans, so every other
    read yields [undefined]. *)
Definition get (v : jsval) (k : string) : result jsval :=
  match v with
  | JUndefined =>
      Throw (TypeError ("Cannot read properties of undefined (reading '" +:+ k +:+ "')"))
  | JNull =>
      Throw (TypeError ("Cannot read properties of null (reading '" +:+ k +:+ "')"))
  | JObj fields => Ok (assoc k fields)
  | JArr items =>
      Ok (if String.eqb k "0" then List.hd JUndefined items else JUndefined)
  | JStr s =>
      Ok (if String.eqb k "0"
          then match s with
               | String c _ => JStr (String c EmptyString)
               | EmptyString => JUndefined
               end
          else JUndefined)
  | JBool _ | JNum _ => Ok JUndefined
  end.

(** [v?.k]. *)
Definition get_opt (v : jsval) (k : string) : jsval :=
  match get v k with
  | Ok x => x
  | Throw _ => JUndefined
  end.

(** [v.startsWith(p)]: only strings have the method; a JSON object can at
    most hold a non-callable property of that name, and reading the method
    off [undefined] or [null] throws. *)
Definition call_startsWith (expr : string) (v : jsval) (p : string) : result bool :=
  match v with
  | JStr s => Ok (startsWith p s)
  | JUndefined =>
      Throw (TypeError "Cannot read properties of undefined (reading 'startsWith')")
  | JNull =>
      Throw (TypeError "Cannot read properties of null (reading 'startsWith')")
  | _ => Throw (TypeError (expr +:+ ".startsWith is not a function"))
  end.

(** [v?.includes(x)]: [undefined] for a nullish receiver, substring search
    on a string (the argument is converted with ToString), membership on an
    array, and a [TypeError] on anything else. *)
Definition call_includes_opt (expr : string) (v x : jsval) : result jsval :=
  match v with
  | JUndefined | JNull => Ok JUndefined
  | JStr s => Ok (JBool (includes s (ToString x)))
  | JArr items => Ok (JBool (existsb (strict_eq x) items))
  | _ => Throw (TypeError (expr +:+ ".includes is not a function"))
  end.

(** [for (const x of v)]: arrays and strings are iterable. *)
Definition iterate (expr : string) (v : jsval) : result (list jsval) :=
  match v with
  | JArr items => Ok items
  | JStr s => Ok (List.map (fun c => JStr (String c EmptyString)) (list_ascii_of_string s))
  | _ => Throw (TypeError (expr +:+ " is not iterable"))
  end.

(** [v.toLowerCase()]. *)
Definition call_toLowerCase (expr : string) (v : jsval) : result string :=
  match v with
  | JStr s => Ok (toLowerCase s)
  | JUndefined =>
      Throw (TypeError "Cannot read properties of undefined (reading 'toLowerCase')")
  | JNull =>
      Throw (TypeError "Cannot read properties of null (reading 'toLowerCase')")
  | _ => Throw (TypeError (expr +:+ ".toLowerCase is not a function"))
  end.

(** [v.replace(/[^a-zA-Z0-9-_]/g, '')]. *)
Definition call_sanitize (expr : string) (v : jsval) : result string :=
  match v with
  | JStr s => Ok (sanitize s)
  | JUndefined =>
      Throw (TypeError "Cannot read properties of undefined (reading 'replace')")
  | JNull =>
      Throw (TypeError "Cannot read properties of null (reading 'replace')")
  | _ => Throw (TypeError (expr +:+ ".replace is not a function"))
  end.

(** ** Files

    Absolute POSIX paths are kept resolved, as their list of segments. *)

Definition path : Type := list string.

Inductive node : Type :=
| File (content : string)
| Dir.

Definition path_step (stack : path) (seg : string) : path :=
  if String.eqb seg "" || String.eqb seg "." then stack
  else if String.eqb seg ".." then removelast stack
  else stack ++ [seg].

(** [path.join(base, rel)] for a resolved absolute [base]. *)
Definition path_join (base : path) (rel : string) : path :=
  fold_left path_step (split "/" rel) base.

Definition dirname_of (p : path) : path := removelast p.

Fixpoint child_name (dir p : path) : option string :=
  match dir, p with
  | [], [name] => Some name
  | d :: dir', s :: p' => if String.eqb d s then child_name dir' p' else None
  | _, _ => None
  end.

Definition ENOENT (p : path) : exn :=
  TypeError ("ENOENT: no such file or directory, '/" +:+ join "/" p +:+ "'").
Definition EISDIR (p : path) : exn :=
  TypeError ("EISDIR: illegal operation on a directory, '/" +:+ join "/" p +:+ "'").
Definition ENOTDIR (p : path) : exn :=
  TypeError ("ENOTDIR: not a directory, '/" +:+ join "/" p +:+ "'").

(** [strcmp] on the UTF-8 bytes of two names: the order of their code
    units, a prefix before its extensions. *)
Fixpoint name_leb (a b : string) : bool :=
  match a, b with
  | EmptyString, _ => true
  | String _ _, EmptyString => false
  | String x a', String y b' =>
      if (code_unit x <? code_unit y)%N then true
      else if (code_unit x =? code_unit y)%N then name_leb a' b'
      else false
  end.

Fixpoint insert_name (name : string) (sorted : list string) : list string :=
  match sorted with
  | [] => [name]
  | first :: rest =>
      if name_leb name first then name :: sorted
      else first :: insert_name name rest
  end.

Definition sort_names (names : list string) : list string :=
  fold_right insert_name [] names.

(** [fs.readdirSync]: the names of the entries, sorted (libuv's [scandir]
    compares them with [strcmp]). *)
Definition readdirSync (fs : gmap path node) (dir : path) : result (list string) :=
  match fs !! dir with
  | Some Dir =>
      Ok (sort_names (omap (fun kv => child_name dir (fst kv)) (map_to_list fs)))
  | Some (File _) => Throw (ENOTDIR dir)
  | None => Throw (ENOENT dir)
  end.

(** [fs.readFileSync(p, 'utf8')]. *)
Definition readFileSync (fs : gmap path node) (p : path) : result string :=
  match fs !! p with
  | Some (File content) => Ok content
  | Some Dir => Throw (EISDIR p)
  | None => Throw (ENOENT p)
  end.

(** [fs.writeFileSync(p, content)] for a string [content]. *)
Definition writeFileSync (fs : gmap path node) (p : path) (content : string)
  : result (gmap path node) :=
  match fs !! p with
  | Some Dir => Throw (EISDIR p)
  | _ =>
      match fs !! dirname_of p with
      | Some Dir => Ok (<[p := File content]> fs)
      | _ => Throw (ENOENT p)
      end
  end.

(** ** Observable effects, the world, and the handler monad *)

(** The JSON body of the request to the chat-completion endpoint, with the
    [Authorization] header and the timeout of the call. *)
Record CompletionRequest : Type := {
  cr_model : jsval;
  cr_system : string;
  cr_user : jsval;
  cr_max_tokens : Z;
  cr_authorization : string;
  cr_timeout : Z
}.

(** The request to the message-send endpoint. *)
Record SendRequest : Type := {
  sr_recipient : jsval;
  sr_text : jsval;
  sr_access_token : jsval
}.

(** The outcome of an [axios.post]: the promise resolves with
    [response.data], or rejects with an error. *)
Inductive axios_outcome : Type :=
| Resolved (data : jsval)
| Rejected (e : exn).

Inductive event : Type :=
| EvRespond (status : Z) (body : jsval)
| EvLog (type : string) (data : jsval)
| EvConsole (line : string)
| EvConsoleError (label : string) (e : exn)
| EvReadStore (file : string)
| EvWriteStore (file : string)
| EvReadDir (dir : path)
| EvReadFile (p : path)
| EvWriteFile (p : path) (content : string)
| EvCompletionRequest (req : CompletionRequest)
| EvSendRequest (req : SendRequest).

Record LogEntry : Type := {
  timestamp : string;
  type : string;
  data : jsval
}.

(** The state a handler runs in.  [store] is the parsed content of the JSON
    files under [data/], whose shape differs between the two servers; [fs]
    holds the other files and the directories; [dirname] is [__dirname].
    [clock], [completion_api] and [graph_api] stand for the outside world:
    they are consulted with the number of consultations made so far. *)
Record world (St : Type) : Type := {
  store : St;
  fs : gmap path node;
  dirname : path;
  messageLog : list LogEntry;
  ticks : nat;
  clock : nat -> string;
  completion_api : nat -> CompletionRequest -> axios_outcome;
  graph_api : nat -> SendRequest -> axios_outcome
}.
Arguments store {St} w.
Arguments fs {St} w.
Arguments dirname {St} w.
Arguments messageLog {St} w.
Arguments ticks {St} w.
Arguments clock {St} w.
Arguments completion_api {St} w.
Arguments graph_api {St} w.

Definition set_store {St : Type} (s : St) (w : world St) : world St :=
  {| store := s; fs := fs w; dirname := dirname w; messageLog := messageLog w;
     ticks := ticks w; clock := clock w; completion_api := completion_api w;
     graph_api := graph_api w |}.

Definition set_fs {St : Type} (f : gmap path node) (w : world St) : world St :=
  {| store := store w; fs := f; dirname := dirname w; messageLog := messageLog w;
     ticks := ticks w; clock := clock w; completion_api := completion_api w;
     graph_api := graph_api w |}.

Definition set_messageLog {St : Type} (l : list LogEntry) (w : world St) : world St :=
  {| store := store w; fs := fs w; dirname := dirname w; messageLog := l;
     ticks := ticks w; clock := clock w; completion_api := completion_api w;
     graph_api := graph_api w |}.

Definition tick {St : Type} (w : world St) : world St :=
  {| store := store w; fs := fs w; dirname := dirname w; messageLog := messageLog w;
     ticks := S (ticks w); clock := clock w; completion_api := completion_api w;
     graph_api := graph_api w |}.

(** A computation returns or throws, leaves a new world, and emits the
    events it caused, oldest first.  Effects made before a throw stay. *)
Definition M (St A : Type) : Type := world St -> result A * world St * list event.

Definition ret {St A : Type} (a : A) : M St A := fun w => (Ok a, w, []).

Definition bind {St A B : Type} (m : M St A) (k : A -> M St B) : M St B :=
  fun w =>
    match m w with
    | (Ok a, w1, t1) =>
        match k a w1 with
        | (r, w2, t2) => (r, w2, t1 ++ t2)
        end
    | (Throw e, w1, t1) => (Throw e, w1, t1)
    end.

Notation "'let*' x ':=' m 'in' k" := (bind m (fun x => k))
  (at level 10, x name, m at level 100, k at level 200).
Notation "m ';;' k" := (bind m (fun _ => k))
  (at level 100, k at level 200, right associativity).

Definition throw {St A : Type} (e : exn) : M St A := fun w => (Throw e, w, []).

Definition lift {St A : Type} (r : result A) : M St A := fun w => (r, w, []).

Definition emit {St : Type} (ev : event) : M St unit := fun w => (Ok tt, w, [ev]).

Definition ask {St : Type} : M St (world St) := fun w => (Ok w, w, []).

Definition update {St : Type} (f : world St -> world St) : M St unit :=
  fun w => (Ok tt, f w, []).

(** [try { body } catch (error) { handler }]. *)
Definition try_catch {St A : Type} (body : M St A) (handler : exn -> M St A) : M St A :=
  fun w =>
    match body w with
    | (Ok a, w1, t1) => (Ok a, w1, t1)
    | (Throw e, w1, t1) =>
        match handler e w1 with
        | (r, w2, t2) => (r, w2, t1 ++ t2)
        end
    end.

(** [for (const x of items) { body }]. *)
Fixpoint for_each {St A : Type} (items : list A) (body : A -> M St unit) : M St unit :=
  match items with
  | [] => ret tt
  | x :: rest => body x ;; for_each rest body
  end.

(** [items.find(pred)] with a predicate that may throw. *)
Fixpoint find_r {A : Type} (pred : A -> result bool) (items : list A) : result (option A) :=
  match items with
  | [] => Ok None
  | x :: rest =>
      match pred x with
      | Ok true => Ok (Some x)
      | Ok false => find_r pred rest
      | Throw e => Throw e
      end
  end.

Definition responses (t : list event) : list (Z * jsval) :=
  omap (fun ev => match ev with
                  | EvRespond status body => Some (status, body)
                  | _ => None
                  end) t.


(** ** Code shared by the two servers *)

Definition DATA_DIR {St : Type} (w : world St) : path := path_join (dirname w) "data".
Definition KNOWLEDGE_DIR {St : Type} (w : world St) : path := path_join (DATA_DIR w) "knowledge".

(** [messageLog.unshift(entry); if (messageLog.length > 100) messageLog.pop();] *)
Definition push_entry (entry : LogEntry) (log : list LogEntry) : list LogEntry :=
  let log1 := entry :: log in
  if 100 <? length log1 then removelast log1 else log1.

Definition logMessage {St : Type} (type : string) (data : jsval) : M St unit :=
  let* w := ask in
  let entry := {| timestamp := clock w (ticks w); type := type; data := data |} in
  update (fun w => set_messageLog (push_entry entry (messageLog w)) (tick w)) ;;
  emit (EvLog type data).

Record KbFile : Type := { name : string; content : string }.

(** The body of the loop of [loadKnowledgeFiles]; the files pushed before a
    failed read stay in [files]. *)
Fixpoint read_md_files {St : Type} (dir : path) (dirFiles : list string) (files : list KbFile)
  : M St (list KbFile * option exn) :=
  match dirFiles with
  | [] => ret (files, None)
  | file :: rest =>
      if endsWith ".md" file then
        let* w := ask in
        emit (EvReadFile (path_join dir file)) ;;
        match readFileSync (fs w) (path_join dir file) with
        | Ok content =>
            read_md_files dir rest
              (files ++ [{| name := remove_first ".md" file; content := content |}])
        | Throw e => ret (files, Some e)
        end
      else read_md_files dir rest files
  end.

Definition loadKnowledgeFiles {St : Type} : M St (list KbFile) :=
  let* w := ask in
  emit (EvReadDir (KNOWLEDGE_DIR w)) ;;
  match readdirSync (fs w) (KNOWLEDGE_DIR w) with
  | Ok dirFiles =>
      let* r := read_md_files (KNOWLEDGE_DIR w) dirFiles [] in
      match snd r with
      | None => ret (fst r)
      | Some e => emit (EvConsoleError "Load KB error:" e) ;; ret (fst r)
      end
  | Throw e => emit (EvConsoleError "Load KB error:" e) ;; ret []
  end.

Definition nl : string := String "010" EmptyString.

(** ["\n\n---\n\n"]. *)
Definition KB_SEPARATOR : string := nl +:+ nl +:+ "---" +:+ nl +:+ nl.

(** The test of the [if] in the loop of [searchKnowledge]. *)
Definition is_relevant (lowerContent lowerQuery : string) : bool :=
  includes lowerContent lowerQuery
  || existsb (fun word => (3 <? String.length word) && includes lowerContent word)
             (split " " lowerQuery).

Fixpoint search_loop (query : jsval) (kbFiles : list KbFile) (relevant : list string)
  : result (list string) :=
  match kbFiles with
  | [] => Ok relevant
  | file :: rest =>
      let lowerContent := toLowerCase (content file) in
      match call_toLowerCase "query" query with
      | Ok lowerQuery =>
          if is_relevant lowerContent lowerQuery
          then search_loop query rest (relevant ++ [content file])
          else search_loop query rest relevant
      | Throw e => Throw e
      end
  end.

Definition searchKnowledge {St : Type} (query : jsval) : M St string :=
  let* kbFiles := loadKnowledgeFiles in
  let* relevant := lift (search_loop query kbFiles []) in
  ret (join KB_SEPARATOR relevant).

(** The parsed state of a JSON file under [data/]. *)
Inductive json_file (A : Type) : Type :=
| Missing
| Corrupt (e : exn)
| Parsed (a : A).
Arguments Missing {A}.
Arguments Corrupt {A} e.
Arguments Parsed {A} a.

(** [res.status(code).send(body)] and [res.status(code).json(body)]. *)
Definition respond {St : Type} (code : Z) (body : jsval) : M St unit :=
  emit (EvRespond code body).

(** The reason phrases Express takes from the [statuses] package. *)
Definition status_message (code : Z) : string :=
  if (code =? 200)%Z then "OK"
  else if (code =? 400)%Z then "Bad Request"
  else if (code =? 403)%Z then "Forbidden"
  else if (code =? 404)%Z then "Not Found"
  else if (code =? 500)%Z then "Internal Server Error"
  else NilZero.string_of_int (Z.to_int code).

(** [res.sendStatus(code)]: Express sets the status and sends its reason
    phrase as the text body ([res.sendStatus(403)] is
    [res.status(403).send('Forbidden')]). *)
Definition sendStatus {St : Type} (code : Z) : M St unit :=
  respond code (JStr (status_message code)).

(** The template literal of [generateAIResponse]. *)
Definition systemPrompt (kbContext : string) : string :=
  "You are a helpful customer support bot for a Facebook Page. " +:+ nl
  +:+ (if negb (String.eqb kbContext "")
       then "Use the following knowledge base to answer questions:" +:+ nl +:+ nl
            +:+ kbContext +:+ nl +:+ nl
       else "")
  +:+ nl +:+ "Guidelines:" +:+ nl
  +:+ "- Be friendly and helpful" +:+ nl
  +:+ "- Keep responses concise" +:+ nl
  +:+ "- If you don't know something, say you'll get back to the user" +:+ nl
  +:+ "- Don't make up information" +:+ nl
  +:+ "- Always be polite and professional".

Definition DEFAULT_MODEL : jsval := JStr "openai/gpt-5.2".

Definition completion_request (model apiKey : jsval) (kbContext : string)
    (userMessage : jsval) : CompletionRequest :=
  {| cr_model := model;
     cr_system := systemPrompt kbContext;
     cr_user := userMessage;
     cr_max_tokens := 500;
     cr_authorization := "Bearer " +:+ ToString apiKey;
     cr_timeout := 30000 |}.

(** [await axios.post('https://openrouter.ai/api/v1/chat/completions', ...)],
    yielding [response.data]. *)
Definition post_completion {St : Type} (req : CompletionRequest) : M St jsval :=
  emit (EvCompletionRequest req) ;;
  let* w := ask in
  update tick ;;
  match completion_api w (ticks w) req with
  | Resolved d => ret d
  | Rejected e => throw e
  end.

(** [await axios.post('https://graph.facebook.com/v18.0/me/messages', ...)]. *)
Definition post_message {St : Type} (req : SendRequest) : M St jsval :=
  emit (EvSendRequest req) ;;
  let* w := ask in
  update tick ;;
  match graph_api w (ticks w) req with
  | Resolved d => ret d
  | Rejected e => throw e
  end.

(** The [try] block of [generateAIResponse] after the request is built, and
    its [catch] block. *)
Definition completion_call {St : Type} (req : CompletionRequest) : M St jsval :=
  try_catch
    (let* d := post_completion req in
     let* choices := lift (get d "choices") in
     let* first := lift (get choices "0") in
     ret (JObj [("response",
                 js_or (get_opt (get_opt first "message") "content")
                       (JStr "No response generated"))]))
    (fun error =>
       emit (EvConsoleError "AI Error:" error) ;;
       ret (JObj [("error",
                   js_or (get_opt (get_opt (response_data error) "error") "message")
                         (JStr (message error)))])).

(** The reply sent when the completion failed.  In the source files it
    ends in the four characters U+00F0, U+0178, U+02DC and U+0160 (the
    bytes of an emoji read as Windows-1252). *)
Definition FALLBACK_REPLY : string :=
  "Thanks for your message! We'll get back to you soon. "
  +:+ String "240" (String "159" (String "152" (String "138" EmptyString))).

(** The [try]/[catch] of [sendAutoReply]. *)
Definition deliver {St : Type} (senderId replyText pageAccessToken : jsval) : M St unit :=
  try_catch
    (post_message {| sr_recipient := senderId; sr_text := replyText;
                     sr_access_token := pageAccessToken |} ;;
     logMessage "SENT" (JObj [("senderId", senderId); ("reply", replyText)]))
    (fun error =>
       logMessage "ERROR"
         (JObj [("msg", js_or (response_data error) (JStr (message error)))])).

(** [POST /api/knowledge], the same in both servers.  [fs.writeFileSync]
    rejects data that is not a string before it opens the file. *)
Definition post_knowledge {St : Type} (body : jsval) : M St unit :=
  let* name := lift (get body "name") in
  let* content := lift (get body "content") in
  if negb (truthy name) then
    respond 400 (JObj [("error", JStr "Name required")])
  else
    let* safeName := lift (call_sanitize "name" name) in
    let* w := ask in
    let filePath := path_join (KNOWLEDGE_DIR w) (safeName +:+ ".md") in
    match js_or content (JStr "") with
    | JStr text =>
        emit (EvWriteFile filePath text) ;;
        let* fs' := lift (writeFileSync (fs w) filePath text) in
        update (set_fs fs') ;;
        respond 200 (JObj [("success", JBool true)])
    | _ =>
        throw (TypeError "The data argument must be of type string or an instance of Buffer, TypedArray, or DataView.")
    end.

(** ** The single-tenant server ([server.js]) *)

Module Single.

(** The content of [data/config.json]. *)
Record Config : Type := {
  verifyToken : jsval;
  pageAccessToken : jsval;
  openrouterKey : jsval;
  aiModel : jsval
}.

Definition Store : Type := json_file Config.

Definition default_config : Config :=
  {| verifyToken := JStr ""; pageAccessToken := JStr "";
     openrouterKey := JStr ""; aiModel := JStr "openai/gpt-5.2" |}.

Definition loadConfig : M Store Config :=
  emit (EvReadStore "config.json") ;;
  let* w := ask in
  match store w with
  | Parsed config => ret config
  | Corrupt e => emit (EvConsoleError "Load config error:" e) ;; ret default_config
  | Missing => ret default_config
  end.

Definition saveConfig (config : Config) : M Store unit :=
  emit (EvWriteStore "config.json") ;;
  update (set_store (Parsed config)).

Definition with_verifyToken (v : jsval) (c : Config) : Config :=
  {| verifyToken := v; pageAccessToken := pageAccessToken c;
     openrouterKey := openrouterKey c; aiModel := aiModel c |}.
Definition with_pageAccessToken (v : jsval) (c : Config) : Config :=
  {| verifyToken := verifyToken c; pageAccessToken := v;
     openrouterKey := openrouterKey c; aiModel := aiModel c |}.
Definition with_openrouterKey (v : jsval) (c : Config) : Config :=
  {| verifyToken := verifyToken c; pageAccessToken := pageAccessToken c;
     openrouterKey := v; aiModel := aiModel c |}.
Definition with_aiModel (v : jsval) (c : Config) : Config :=
  {| verifyToken := verifyToken c; pageAccessToken := pageAccessToken c;
     openrouterKey := openrouterKey c; aiModel := v |}.

(** The four assignments of [POST /api/config] to [currentConfig]. *)
Definition merge_config (newConfig : jsval) (currentConfig : Config) : result Config :=
  let+ vt := get newConfig "verifyToken" in
  let+ masked := call_startsWith "newConfig.verifyToken" vt "***" in
  let currentConfig :=
    if masked then currentConfig else with_verifyToken vt currentConfig in
  let+ pat := get newConfig "pageAccessToken" in
  let+ masked := call_startsWith "newConfig.pageAccessToken" pat "***" in
  let currentConfig :=
    if masked then currentConfig else with_pageAccessToken pat currentConfig in
  let+ key := get newConfig "openrouterKey" in
  let+ masked := call_startsWith "newConfig.openrouterKey" key "***" in
  let currentConfig :=
    if masked then currentConfig else with_openrouterKey key currentConfig in
  let+ model := get newConfig "aiModel" in
  Ok (with_aiModel model currentConfig).

(** [POST /api/config]. *)
Definition post_config (body : jsval) : M Store unit :=
  let* currentConfig := loadConfig in
  let* merged := lift (merge_config body currentConfig) in
  saveConfig merged ;;
  respond 200 (JObj [("success", JBool true)]).

Definition generateAIResponse (userMessage : jsval) (kbContext : string)
  : M Store jsval :=
  let* config := loadConfig in
  if negb (truthy (openrouterKey config)) then
    ret (JObj [("error", JStr "OpenRouter API key not configured")])
  else
    completion_call
      (completion_request (js_or (aiModel config) DEFAULT_MODEL)
                          (openrouterKey config) kbContext userMessage).

Definition sendAutoReply (senderId replyText pageAccessToken : jsval)
  : M Store unit :=
  let* unusable :=
    if negb (truthy pageAccessToken) then ret true
    else if strict_eq pageAccessToken (JStr "YOUR_PAGE_ACCESS_TOKEN") then ret true
    else lift (call_startsWith "pageAccessToken" pageAccessToken "***") in
  if (unusable : bool) then
    logMessage "ERROR" (JObj [("msg", JStr "PAGE_ACCESS_TOKEN not configured")])
  else deliver senderId replyText pageAccessToken.

(** [GET /webhook]. *)
Definition get_webhook (mode token challenge : jsval) : M Store unit :=
  let* config := loadConfig in
  logMessage "VERIFY"
    (JObj [("mode", mode);
           ("tokenMatch", JBool (strict_eq token (verifyToken config)))]) ;;
  if strict_eq mode (JStr "subscribe") && strict_eq token (verifyToken config) then
    emit (EvConsole "WEBHOOK_VERIFIED") ;;
    respond 200 challenge
  else
    emit (EvConsole "VERIFICATION_FAILED") ;;
    sendStatus 403.

(** The body of the inner loop of [POST /webhook]. *)
Definition handle_messaging (config : Config) (messaging : jsval) : M Store unit :=
  let* sender := lift (get messaging "sender") in
  let* senderId := lift (get sender "id") in
  let* message := lift (get messaging "message") in
  if truthy message && truthy (get_opt message "text") then
    let userText := get_opt message "text" in
    logMessage "MESSAGE" (JObj [("senderId", senderId); ("text", userText)]) ;;
    let* kbContext := searchKnowledge userText in
    let* aiResult := generateAIResponse userText kbContext in
    if truthy (get_opt aiResult "response") then
      sendAutoReply senderId (get_opt aiResult "response") (pageAccessToken config)
    else if truthy (get_opt aiResult "error") then
      sendAutoReply senderId (JStr FALLBACK_REPLY) (pageAccessToken config) ;;
      logMessage "ERROR" (JObj [("msg", get_opt aiResult "error")])
    else ret tt
  else ret tt.

Definition handle_entry (config : Config) (entry : jsval) : M Store unit :=
  let* messagings := lift (get entry "messaging") in
  let* items := lift (iterate "entry.messaging" messagings) in
  for_each items (handle_messaging config).

(** [POST /webhook]. *)
Definition post_webhook (body : jsval) : M Store unit :=
  let* config := loadConfig in
  logMessage "RECEIVED" body ;;
  respond 200 (JStr "OK") ;;
  let* object := lift (get body "object") in
  if strict_eq object (JStr "page") then
    let* entries := lift (get body "entry") in
    let* items := lift (iterate "body.entry" entries) in
    for_each items (handle_entry config)
  else ret tt.

End Single.

(** ** The multi-tenant server *)

Module Multi.

(** One element of [data/pages.json]. *)
Record Page : Type := {
  id : jsval;
  name : jsval;
  verifyToken : jsval;
  pageAccessToken : jsval;
  openrouterKey : jsval;
  aiModel : jsval;
  knowledgeBase : jsval;
  enabled : jsval;
  createdAt : jsval
}.

(** The content of [data/config.json]; [config_openrouterKey] is its
    [openrouterKey] property. *)
Record GlobalConfig : Type := {
  defaultAiModel : jsval;
  config_openrouterKey : jsval
}.

Record Store : Type := {
  pages_json : json_file (list Page);
  config_json : json_file GlobalConfig
}.

Definition loadPages : M Store (list Page) :=
  emit (EvReadStore "pages.json") ;;
  let* w := ask in
  match pages_json (store w) with
  | Parsed pages => ret pages
  | Corrupt e => emit (EvConsoleError "Load pages error:" e) ;; ret []
  | Missing => ret []
  end.

Definition savePages (pages : list Page) : M Store unit :=
  emit (EvWriteStore "pages.json") ;;
  update (fun w => set_store {| pages_json := Parsed pages;
                                config_json := config_json (store w) |} w).

Definition loadGlobalConfig : M Store GlobalConfig :=
  emit (EvReadStore "config.json") ;;
  let* w := ask in
  match config_json (store w) with
  | Parsed config => ret config
  | Corrupt e =>
      emit (EvConsoleError "Load config error:" e) ;;
      ret {| defaultAiModel := JStr "openai/gpt-5.2"; config_openrouterKey := JStr "" |}
  | Missing =>
      ret {| defaultAiModel := JStr "openai/gpt-5.2"; config_openrouterKey := JStr "" |}
  end.

Definition with_name (v : jsval) (p : Page) : Page :=
  {| id := id p; name := v; verifyToken := verifyToken p;
     pageAccessToken := pageAccessToken p; openrouterKey := openrouterKey p;
     aiModel := aiModel p; knowledgeBase := knowledgeBase p;
     enabled := enabled p; createdAt := createdAt p |}.
Definition with_verifyToken (v : jsval) (p : Page) : Page :=
  {| id := id p; name := name p; verifyToken := v;
     pageAccessToken := pageAccessToken p; openrouterKey := openrouterKey p;
     aiModel := aiModel p; knowledgeBase := knowledgeBase p;
     enabled := enabled p; createdAt := createdAt p |}.
Definition with_pageAccessToken (v : jsval) (p : Page) : Page :=
  {| id := id p; name := name p; verifyToken := verifyToken p;
     pageAccessToken := v; openrouterKey := openrouterKey p;
     aiModel := aiModel p; knowledgeBase := knowledgeBase p;
     enabled := enabled p; createdAt := createdAt p |}.
Definition with_openrouterKey (v : jsval) (p : Page) : Page :=
  {| id := id p; name := name p; verifyToken := verifyToken p;
     pageAccessToken := pageAccessToken p; openrouterKey := v;
     aiModel := aiModel p; knowledgeBase := knowledgeBase p;
     enabled := enabled p; createdAt := createdAt p |}.
Definition with_aiModel (v : jsval) (p : Page) : Page :=
  {| id := id p; name := name p; verifyToken := verifyToken p;
     pageAccessToken := pageAccessToken p; openrouterKey := openrouterKey p;
     aiModel := v; knowledgeBase := knowledgeBase p;
     enabled := enabled p; createdAt := createdAt p |}.
Definition with_knowledgeBase (v : jsval) (p : Page) : Page :=
  {| id := id p; name := name p; verifyToken := verifyToken p;
     pageAccessToken := pageAccessToken p; openrouterKey := openrouterKey p;
     aiModel := aiModel p; knowledgeBase := v;
     enabled := enabled p; createdAt := createdAt p |}.
Definition with_enabled (v : jsval) (p : Page) : Page :=
  {| id := id p; name := name p; verifyToken := verifyToken p;
     pageAccessToken := pageAccessToken p; openrouterKey := openrouterKey p;
     aiModel := aiModel p; knowledgeBase := knowledgeBase p;
     enabled := v; createdAt := createdAt p |}.

(** [pages.findIndex(pred)]; [None] is [-1]. *)
Fixpoint findIndex (pred : Page -> bool) (pages : list Page) : option nat :=
  match pages with
  | [] => None
  | p :: rest =>
      if pred p then Some 0
      else match findIndex pred rest with
           | Some i => Some (S i)
           | None => None
           end
  end.

(** [if (v && !v.startsWith('***')) page.field = v]. *)
Definition assign_secret (expr : string) (set : jsval -> Page -> Page)
    (v : jsval) (page : Page) : result Page :=
  if truthy v then
    let+ masked := call_startsWith expr v "***" in
    Ok (if negb masked then set v page else page)
  else Ok page.

(** The seven conditional assignments of [PUT /api/pages/:id] to
    [pages[index]]. *)
Definition update_page
    (name verifyToken pageAccessToken openrouterKey aiModel knowledgeBase enabled : jsval)
    (page : Page) : result Page :=
  let page := if truthy name then with_name name page else page in
  let+ page := assign_secret "verifyToken" with_verifyToken verifyToken page in
  let+ page := assign_secret "pageAccessToken" with_pageAccessToken pageAccessToken page in
  let+ page := assign_secret "openrouterKey" with_openrouterKey openrouterKey page in
  let page := if truthy aiModel then with_aiModel aiModel page else page in
  let page := if truthy knowledgeBase then with_knowledgeBase knowledgeBase page else page in
  let page := if negb (strict_eq enabled JUndefined) then with_enabled enabled page else page in
  Ok page.

(** [PUT /api/pages/:id]. *)
Definition put_page (id_param : string) (body : jsval) : M Store unit :=
  let* name := lift (get body "name") in
  let* verifyToken := lift (get body "verifyToken") in
  let* pageAccessToken := lift (get body "pageAccessToken") in
  let* openrouterKey := lift (get body "openrouterKey") in
  let* aiModel := lift (get body "aiModel") in
  let* knowledgeBase := lift (get body "knowledgeBase") in
  let* enabled := lift (get body "enabled") in
  let* pages := loadPages in
  match findIndex (fun p => strict_eq (id p) (JStr id_param)) pages with
  | None => respond 404 (JObj [("error", JStr "Page not found")])
  | Some index =>
      match pages !! index with
      | None =>
          (* not reached: [findIndex] yields a position of [pages] *)
          throw (TypeError "Cannot set properties of undefined")
      | Some page =>
          let* page' := lift (update_page name verifyToken pageAccessToken
                                openrouterKey aiModel knowledgeBase enabled page) in
          savePages (<[index := page']> pages) ;;
          respond 200 (JObj [("success", JBool true)])
      end
  end.

Definition generateAIResponse (userMessage : jsval) (kbContext : string)
    (pageId : jsval) : M Store jsval :=
  let* config := loadGlobalConfig in
  let* pages := loadPages in
  let page := List.find (fun p => strict_eq (id p) pageId) pages in
  let apiKey := js_or (match page with
                       | Some p => openrouterKey p
                       | None => JUndefined
                       end) (config_openrouterKey config) in
  let model := js_or (js_or (match page with
                             | Some p => aiModel p
                             | None => JUndefined
                             end) (defaultAiModel config)) DEFAULT_MODEL in
  if negb (truthy apiKey) then
    ret (JObj [("error", JStr "OpenRouter API key not configured for this page")])
  else
    completion_call (completion_request model apiKey kbContext userMessage).

Definition sendAutoReply (senderId replyText pageAccessToken : jsval)
  : M Store unit :=
  if negb (truthy pageAccessToken) then
    logMessage "ERROR" (JObj [("msg", JStr "PAGE_ACCESS_TOKEN not configured")])
  else deliver senderId replyText pageAccessToken.

(** [GET /webhook]. *)
Definition get_webhook (mode token challenge : jsval) : M Store unit :=
  let* pages := loadPages in
  let validToken := existsb (fun p => strict_eq (verifyToken p) token) pages in
  logMessage "VERIFY" (JObj [("mode", mode); ("tokenMatch", JBool validToken)]) ;;
  if strict_eq mode (JStr "subscribe") && validToken then
    emit (EvConsole "WEBHOOK_VERIFIED") ;;
    respond 200 challenge
  else
    emit (EvConsole "VERIFICATION_FAILED") ;;
    sendStatus 403.

(** The body of the inner loop of [POST /webhook]. *)
Definition handle_messaging (pageConfig : Page) (messaging : jsval) : M Store unit :=
  let* sender := lift (get messaging "sender") in
  let* senderId := lift (get sender "id") in
  let* message := lift (get messaging "message") in
  if truthy message && truthy (get_opt message "text") then
    let userText := get_opt message "text" in
    logMessage "MESSAGE"
      (JObj [("page", name pageConfig); ("senderId", senderId); ("text", userText)]) ;;
    let* kbContext := searchKnowledge userText in
    let* aiResult := generateAIResponse userText kbContext (id pageConfig) in
    if truthy (get_opt aiResult "response") then
      sendAutoReply senderId (get_opt aiResult "response") (pageAccessToken pageConfig)
    else if truthy (get_opt aiResult "error") then
      sendAutoReply senderId (JStr FALLBACK_REPLY) (pageAccessToken pageConfig) ;;
      logMessage "ERROR" (JObj [("msg", get_opt aiResult "error")])
    else ret tt
  else ret tt.

(** The predicate of [pages.find] in [POST /webhook]:
    [p.id === pageId || p.pageAccessToken?.includes(pageId)]. *)
Definition owns (pageId : jsval) (p : Page) : result bool :=
  if strict_eq (id p) pageId then Ok true
  else
    let+ found := call_includes_opt "p.pageAccessToken" (pageAccessToken p) pageId in
    Ok (truthy found).

(** The body of the outer loop of [POST /webhook]. *)
Definition handle_entry (entry : jsval) : M Store unit :=
  let* pageId := lift (get entry "id") in
  let* pages := loadPages in
  let* pageConfig := lift (find_r (owns pageId) pages) in
  match pageConfig with
  | None =>
      logMessage "ERROR"
        (JObj [("msg", JStr ("Page not configured: " +:+ ToString pageId))])
  | Some pageConfig =>
      if negb (truthy (enabled pageConfig)) then
        logMessage "SKIP"
          (JObj [("msg", JStr ("Page disabled: " +:+ ToString (name pageConfig)))])
      else
        let* messagings := lift (get entry "messaging") in
        let* items := lift (iterate "entry.messaging" messagings) in
        for_each items (handle_messaging pageConfig)
  end.

(** [POST /webhook]. *)
Definition post_webhook (body : jsval) : M Store unit :=
  logMessage "RECEIVED" body ;;
  respond 200 (JStr "OK") ;;
  let* object := lift (get body "object") in
  if strict_eq object (JStr "page") then
    let* entries := lift (get body "entry") in
    let* items := lift (iterate "body.entry" entries) in
    for_each items handle_entry
  else ret tt.

End Multi.

(** ** Notions used in the statements *)

Definition value {St A : Type} (x : result A * world St * list event) : result A :=
  fst (fst x).
Definition after {St A : Type} (x : result A * world St * list event) : world St :=
  snd (fst x).
Definition trace {St A : Type} (x : result A * world St * list event) : list event :=
  snd x.

(** A run continued after the events [t0] already emitted. *)
Definition continued {St A : Type} (t0 : list event)
    (x : result A * world St * list event) : result A * world St * list event :=
  (value x, after x, t0 ++ trace x).

(** What [loadPages] and [loadConfig] see in a world. *)
Definition stored_pages (w : world Multi.Store) : list Multi.Page :=
  match Multi.pages_json (store w) with
  | Parsed pages => pages
  | _ => []
  end.

Definition stored_global (w : world Multi.Store) : Multi.GlobalConfig :=
  match Multi.config_json (store w) with
  | Parsed config => config
  | _ => {| Multi.defaultAiModel := JStr "openai/gpt-5.2";
            Multi.config_openrouterKey := JStr "" |}
  end.

Definition stored_config (w : world Single.Store) : Single.Config :=
  match store w with
  | Parsed config => config
  | _ => Single.default_config
  end.

(** The three secret fields of a page configuration. *)
Inductive secret : Type := VerifyToken | PageAccessToken | OpenrouterKey.

Definition secret_key (f : secret) : string :=
  match f with
  | VerifyToken => "verifyToken"
  | PageAccessToken => "pageAccessToken"
  | OpenrouterKey => "openrouterKey"
  end.

Definition page_secret (f : secret) (p : Multi.Page) : jsval :=
  match f with
  | VerifyToken => Multi.verifyToken p
  | PageAccessToken => Multi.pageAccessToken p
  | OpenrouterKey => Multi.openrouterKey p
  end.

Definition config_secret (f : secret) (c : Single.Config) : jsval :=
  match f with
  | VerifyToken => Single.verifyToken c
  | PageAccessToken => Single.pageAccessToken c
  | OpenrouterKey => Single.openrouterKey c
  end.

(** A value that begins with the mask marker. *)
Definition masked (v : jsval) : bool :=
  match v with
  | JStr s => startsWith "***" s
  | _ => false
  end.

(** The fields of a page that [PUT /api/pages/:id] writes only when the
    incoming value is truthy. *)
Inductive guarded_field : Type :=
| FName | FVerifyToken | FPageAccessToken | FOpenrouterKey | FAiModel | FKnowledgeBase.

Definition field_key (f : guarded_field) : string :=
  match f with
  | FName => "name"
  | FVerifyToken => "verifyToken"
  | FPageAccessToken => "pageAccessToken"
  | FOpenrouterKey => "openrouterKey"
  | FAiModel => "aiModel"
  | FKnowledgeBase => "knowledgeBase"
  end.

Definition page_field (f : guarded_field) (p : Multi.Page) : jsval :=
  match f with
  | FName => Multi.name p
  | FVerifyToken => Multi.verifyToken p
  | FPageAccessToken => Multi.pageAccessToken p
  | FOpenrouterKey => Multi.openrouterKey p
  | FAiModel => Multi.aiModel p
  | FKnowledgeBase => Multi.knowledgeBase p
  end.

(** An incoming value that is absent or the empty string. *)
Definition absent_or_empty (v : jsval) : bool :=
  match v with
  | JUndefined => true
  | JStr s => String.eqb s ""
  | _ => false
  end.

(** [t] occurs in [s]. *)
Definition substring (t s : string) : Prop :=
  exists before rest, s = before +:+ t +:+ rest.

(** [tokens] are the pieces of [s] between single space characters. *)
Definition space_delimited (s : string) (tokens : list string) : Prop :=
  s = join " " tokens /\ tokens <> [] /\
  Forall (fun tok => string_forallb (fun c => negb (Ascii.eqb c " ")) tok = true) tokens.

(** The inclusion rule of the knowledge matcher, with space-delimited
    tokens. *)
Definition Included (query : string) (doc : KbFile) : Prop :=
  substring (toLowerCase query) (toLowerCase (content doc))
  \/ exists tokens word,
       space_delimited (toLowerCase query) tokens /\ In word tokens /\
       3 < String.length word /\ substring word (toLowerCase (content doc)).

(** The same rule read with tokens delimited by any white space, as the
    specification words it. *)
Definition is_whitespace (c : ascii) : bool :=
  in_range 9 13 c || Ascii.eqb c " " || (nat_of_ascii c =? 160).

Fixpoint whitespace_tokens (s : string) : list string :=
  match s with
  | EmptyString => [EmptyString]
  | String c s' =>
      if is_whitespace c then EmptyString :: whitespace_tokens s'
      else match whitespace_tokens s' with
           | w :: ws => String c w :: ws
           | [] => [String c EmptyString]
           end
  end.

Definition included_whitespace (query : string) (doc : KbFile) : bool :=
  includes (toLowerCase (content doc)) (toLowerCase query)
  || existsb (fun word => (3 <? String.length word)
                          && includes (toLowerCase (content doc)) word)
             (whitespace_tokens (toLowerCase query)).

(** The events of tenant resolution, knowledge matching, completion and
    reply dispatch. *)
Definition downstream (ev : event) : bool :=
  match ev with
  | EvReadStore file => String.eqb file "pages.json"
  | EvReadDir _ | EvReadFile _ | EvCompletionRequest _ | EvSendRequest _ => true
  | EvLog type _ => negb (String.eqb type "RECEIVED")
  | _ => false
  end.

Definition send_requests (t : list event) : list SendRequest :=
  omap (fun ev => match ev with
                  | EvSendRequest req => Some req
                  | _ => None
                  end) t.


(** A sequence of logging operations. *)
Definition logged {St : Type} (entries : list (string * jsval)) : M St unit :=
  for_each entries (fun e => logMessage (fst e) (snd e)).

(** The events of [loadPages] and of [loadConfig]. *)
Definition loadPages_trace (w : world Multi.Store) : list event :=
  EvReadStore "pages.json" ::
  match Multi.pages_json (store w) with
  | Corrupt e => [EvConsoleError "Load pages error:" e]
  | _ => []
  end.

Definition loadConfig_trace (w : world Single.Store) : list event :=
  EvReadStore "config.json" ::
  match store w with
  | Corrupt e => [EvConsoleError "Load config error:" e]
  | _ => []
  end.

Definition loadGlobalConfig_trace (w : world Multi.Store) : list event :=
  EvReadStore "config.json" ::
  match Multi.config_json (store w) with
  | Corrupt e => [EvConsoleError "Load config error:" e]
  | _ => []
  end.

(** Events that stay inside the process: file accesses and console lines. *)
Definition internal (ev : event) : bool :=
  match ev with
  | EvReadStore _ | EvWriteStore _ | EvReadDir _ | EvReadFile _
  | EvConsole _ | EvConsoleError _ _ => true
  | _ => false
  end.

(** Every event a computation emits, from any world, satisfies [P]. *)
Definition emits {St A : Type} (P : event -> Prop) (m : M St A) : Prop :=
  forall w, Forall P (trace (m w)).

Definition not_response (ev : event) : Prop :=
  match ev with
  | EvRespond _ _ => False
  | _ => True
  end.






(** The trace of a handler that acknowledges first: a prefix free of
    responses and of downstream work, then [200 "OK"], then no further
    response. *)
Definition acknowledged_first (t : list event) : Prop :=
  exists pre rest,
    t = pre ++ EvRespond 200 (JStr "OK") :: rest
    /\ Forall (fun ev => downstream ev = false /\ not_response ev) pre
    /\ Forall not_response rest.

(** The two shapes of the value [generateAIResponse] returns. *)
Definition ai_result_shape (aiResult : jsval) : Prop :=
  (exists v, aiResult = JObj [("response", v)] /\ truthy v = true)
  \/ (exists e, aiResult = JObj [("error", e)]).

(** The knowledge files [loadKnowledgeFiles] returns in a world. *)
Definition kb_files {St : Type} (w : world St) : list KbFile :=
  match value (loadKnowledgeFiles w) with
  | Ok files => files
  | Throw _ => []
  end.

(** ** Sample worlds *)

Definition sample_clock : nat -> string := fun _ => "2024-01-01T00:00:00.000Z".

Definition api_answers (text : jsval) : nat -> CompletionRequest -> axios_outcome :=
  fun _ _ =>
    Resolved (JObj [("choices",
                     JArr [JObj [("message", JObj [("content", text)])]])]).

Definition api_fails (msg : string) : nat -> CompletionRequest -> axios_outcome :=
  fun _ _ => Rejected (TypeError msg).

Definition graph_accepts : nat -> SendRequest -> axios_outcome :=
  fun _ _ => Resolved (JObj [("message_id", JStr "m1")]).

Definition app_dir : path := ["srv"; "bot"].

Definition sample_fs : gmap path node :=
  <[ ["srv"; "bot"; "data"; "knowledge"; "hours.md"] := File "Hello World" ]>
  (<[ ["srv"; "bot"; "data"; "knowledge"] := Dir ]>
  (<[ ["srv"; "bot"; "data"] := Dir ]>
  (<[ ["srv"; "bot"] := Dir ]> ∅))).

Definition sample_world {St : Type} (s : St) (log : list LogEntry)
    (api : nat -> CompletionRequest -> axios_outcome) : world St :=
  {| store := s; fs := sample_fs; dirname := app_dir; messageLog := log;
     ticks := 0; clock := sample_clock; completion_api := api;
     graph_api := graph_accepts |}.

Definition sample_page : Multi.Page :=
  {| Multi.id := JStr "page_1"; Multi.name := JStr "Shop";
     Multi.verifyToken := JStr "T1"; Multi.pageAccessToken := JStr "EAAB-secret";
     Multi.openrouterKey := JStr "sk-page"; Multi.aiModel := JStr "openai/gpt-5.2";
     Multi.knowledgeBase := JArr []; Multi.enabled := JBool true;
     Multi.createdAt := JStr "2024-01-01T00:00:00.000Z" |}.

Definition sample_pages_store (pages : list Multi.Page) : Multi.Store :=
  {| Multi.pages_json := Parsed pages; Multi.config_json := Missing |}.

Definition sample_config : Single.Config :=
  {| Single.verifyToken := JStr "T1"; Single.pageAccessToken := JStr "EAAB-secret";
     Single.openrouterKey := JStr "sk-live"; Single.aiModel := JStr "openai/gpt-5.2" |}.

Definition sample_entry : LogEntry :=
  {| timestamp := "2023-12-31T23:59:59.000Z"; type := "SENT"; data := JNull |}.

(** * The management API and the remaining routes *)

(** ** More of JavaScript *)

(** [JSON.parse(JSON.stringify(v))]: what a client reads from [res.json(v)],
    and what comes back from a file written with [JSON.stringify].
    Properties whose value is [undefined] are left out of objects,
    [undefined] elements of arrays become [null], and so does a number
    that is not finite. *)
Fixpoint json_wire (v : jsval) : jsval :=
  match v with
  | JNum n => if (INFINITY <=? Z.abs (number_value n))%Z then JNull else JNum n
  | JArr items =>
      JArr (List.map (fun x => match x with
                               | JUndefined => JNull
                               | _ => json_wire x
                               end) items)
  | JObj fields =>
      JObj ((fix wire (fs : list (string * jsval)) : list (string * jsval) :=
               match fs with
               | [] => []
               | (k, x) :: rest =>
                   match x with
                   | JUndefined => wire rest
                   | _ => (k, json_wire x) :: wire rest
                   end
               end) fields)
  | _ => v
  end.

(** The properties of an object as [JSON.stringify] keeps them. *)
Fixpoint wire_fields (fs : list (string * jsval)) : list (string * jsval) :=
  match fs with
  | [] => []
  | (k, x) :: rest =>
      match x with
      | JUndefined => wire_fields rest
      | _ => (k, json_wire x) :: wire_fields rest
      end
  end.

(** [res.json(body)] with the status [code]. *)
Definition res_json {St : Type} (code : Z) (body : jsval) : M St unit :=
  respond code (json_wire body).

(** [s.slice(-n)] on a string: its last [n] code units, or all of it. *)
Definition last_chars (n : nat) (s : string) : string :=
  drop_chars (String.length s - n) s.

(** [v.slice(-4)]: strings and arrays have the method. *)
Definition call_slice_last4 (expr : string) (v : jsval) : result jsval :=
  match v with
  | JStr s => Ok (JStr (last_chars 4 s))
  | JArr items => Ok (JArr (skipn (length items - 4) items))
  | JUndefined =>
      Throw (TypeError "Cannot read properties of undefined (reading 'slice')")
  | JNull =>
      Throw (TypeError "Cannot read properties of null (reading 'slice')")
  | _ => Throw (TypeError (expr +:+ ".slice is not a function"))
  end.

(** [v ? '***' + v.slice(-4) : '']. *)
Definition mask_secret (expr : string) (v : jsval) : result jsval :=
  if truthy v then
    let+ tail := call_slice_last4 expr v in
    Ok (JStr ("***" +:+ ToString tail))
  else Ok (JStr "").

(** Upper-casing of one code unit of a base-36 numeral; other code units
    below 128 are left as they are. *)
Definition upper_unit (c : ascii) : ascii :=
  if in_range 97 122 c then ascii_of_nat (nat_of_ascii c - 32) else c.

(** [s.toUpperCase()] on the text of [Math.random().toString(36)]. *)
Definition toUpperCase (s : string) : string := string_map upper_unit s.

(** [items.map(f)] with a callback that may throw. *)
Fixpoint map_r {A B : Type} (f : A -> result B) (items : list A) : result (list B) :=
  match items with
  | [] => Ok []
  | x :: rest =>
      let+ y := f x in
      let+ ys := map_r f rest in
      Ok (y :: ys)
  end.

(** [fs.existsSync(p)]. *)
Definition existsSync (fs : gmap path node) (p : path) : bool :=
  match fs !! p with
  | Some _ => true
  | None => false
  end.

(** [fs.unlinkSync(p)]. *)
Definition unlinkSync (fs : gmap path node) (p : path) : result (gmap path node) :=
  match fs !! p with
  | Some (File _) => Ok (delete p fs)
  | Some Dir => Throw (EISDIR p)
  | None => Throw (ENOENT p)
  end.

Definition EEXIST (p : path) : exn :=
  TypeError ("EEXIST: file already exists, mkdir '/" +:+ join "/" p +:+ "'").

(** [fs.mkdirSync(p)], not recursive. *)
Definition mkdirSync (fs : gmap path node) (p : path) : result (gmap path node) :=
  match fs !! p with
  | Some _ => Throw (EEXIST p)
  | None =>
      match fs !! dirname_of p with
      | Some Dir => Ok (<[p := Dir]> fs)
      | Some (File _) => Throw (ENOTDIR p)
      | None => Throw (ENOENT p)
      end
  end.

(** ** Start-up of either server *)

(** [if (!fs.existsSync(dir)) fs.mkdirSync(dir);] *)
Definition ensure_directory {St : Type} (dir : world St -> path) : M St unit :=
  let* w := ask in
  if negb (existsSync (fs w) (dir w)) then
    let* fs' := lift (mkdirSync (fs w) (dir w)) in
    update (set_fs fs')
  else ret tt.

(** The two statements under "Ensure directories exist". *)
Definition ensure_directories {St : Type} : M St unit :=
  ensure_directory DATA_DIR ;;
  ensure_directory KNOWLEDGE_DIR.

(** ** Routes shared by the two servers *)

(** [GET /api/knowledge]. *)
Definition get_knowledge {St : Type} : M St unit :=
  let* files := loadKnowledgeFiles in
  res_json 200
    (JArr (List.map (fun file => JObj [("name", JStr (name file));
                                       ("content", JStr (content file))]) files)).

(** [DELETE /api/knowledge/:name]. *)
Definition delete_knowledge {St : Type} (name_param : string) : M St unit :=
  let* w := ask in
  let filePath := path_join (KNOWLEDGE_DIR w) (name_param +:+ ".md") in
  (if existsSync (fs w) filePath then
     let* fs' := lift (unlinkSync (fs w) filePath) in
     update (set_fs fs')
   else ret tt) ;;
  res_json 200 (JObj [("success", JBool true)]).

Definition entry_json (entry : LogEntry) : jsval :=
  JObj [("timestamp", JStr (timestamp entry)); ("type", JStr (type entry));
        ("data", data entry)].

(** [GET /api/logs]. *)
Definition get_logs {St : Type} : M St unit :=
  let* w := ask in
  res_json 200 (JArr (List.map entry_json (messageLog w))).

(** [DELETE /api/logs]. *)
Definition delete_logs {St : Type} : M St unit :=
  update (set_messageLog []) ;;
  res_json 200 (JObj [("success", JBool true)]).

(** ** The other routes of the single-tenant server *)

Module SingleApi.

(** [GET /api/config]: the loaded object is changed in place and sent, not
    saved. *)
Definition get_config : M Single.Store unit :=
  let* config := Single.loadConfig in
  let* pat := lift (mask_secret "config.pageAccessToken" (Single.pageAccessToken config)) in
  let config := Single.with_pageAccessToken pat config in
  let* key := lift (mask_secret "config.openrouterKey" (Single.openrouterKey config)) in
  let config := Single.with_openrouterKey key config in
  res_json 200
    (JObj [("verifyToken", Single.verifyToken config);
           ("pageAccessToken", Single.pageAccessToken config);
           ("openrouterKey", Single.openrouterKey config);
           ("aiModel", Single.aiModel config)]).

(** [POST /api/test]. *)
Definition post_test (body : jsval) : M Single.Store unit :=
  let* message := lift (get body "message") in
  if negb (truthy message) then
    res_json 400 (JObj [("error", JStr "Message required")])
  else
    let* kbContext := searchKnowledge message in
    let* result := Single.generateAIResponse message kbContext in
    res_json 200 result.

End SingleApi.

(** ** The other routes of the multi-tenant server *)

Module MultiApi.

Definition saveGlobalConfig (config : Multi.GlobalConfig) : M Multi.Store unit :=
  emit (EvWriteStore "config.json") ;;
  update (fun w => set_store {| Multi.pages_json := Multi.pages_json (store w);
                                Multi.config_json := Parsed config |} w).

(** The object [GET /api/pages] builds for one page. *)
Definition mask_page (p : Multi.Page) : result jsval :=
  let+ verifyToken := mask_secret "p.verifyToken" (Multi.verifyToken p) in
  let+ pageAccessToken := mask_secret "p.pageAccessToken" (Multi.pageAccessToken p) in
  let+ openrouterKey := mask_secret "p.openrouterKey" (Multi.openrouterKey p) in
  Ok (JObj [("id", Multi.id p);
            ("name", Multi.name p);
            ("verifyToken", verifyToken);
            ("pageAccessToken", pageAccessToken);
            ("openrouterKey", openrouterKey);
            ("aiModel", Multi.aiModel p);
            ("knowledgeBase", Multi.knowledgeBase p);
            ("enabled", Multi.enabled p);
            ("createdAt", Multi.createdAt p)]).

(** [GET /api/pages]. *)
Definition get_pages : M Multi.Store unit :=
  let* pages := Multi.loadPages in
  let* masked := lift (map_r mask_page pages) in
  res_json 200 (JArr masked).

(** [POST /api/pages].  [now] is the value of [Date.now()] and [random36]
    the text of [Math.random().toString(36)]; the creation time is read
    from the clock of the world. *)
Definition post_page (now : Z) (random36 : string) (body : jsval)
  : M Multi.Store unit :=
  let* name := lift (get body "name") in
  let* verifyToken := lift (get body "verifyToken") in
  let* pageAccessToken := lift (get body "pageAccessToken") in
  let* openrouterKey := lift (get body "openrouterKey") in
  let* aiModel := lift (get body "aiModel") in
  let* pages := Multi.loadPages in
  let* w := ask in
  update tick ;;
  let newPage :=
    {| Multi.id := JStr ("page_" +:+ ToString (JNum now));
       Multi.name :=
         js_or name
           (JStr ("New Page " +:+ ToString (JNum (Z.of_nat (length pages) + 1))));
       Multi.verifyToken :=
         js_or verifyToken
           (JStr ("VERIFY_TOKEN_" +:+ toUpperCase (drop_chars 7 random36)));
       Multi.pageAccessToken := js_or pageAccessToken (JStr "");
       Multi.openrouterKey := js_or openrouterKey (JStr "");
       Multi.aiModel := js_or aiModel (JStr "openai/gpt-5.2");
       Multi.knowledgeBase := JArr [];
       Multi.enabled := JBool true;
       Multi.createdAt := JStr (clock w (ticks w)) |} in
  Multi.savePages (pages ++ [newPage]) ;;
  res_json 200
    (JObj [("success", JBool true);
           ("page", JObj [("id", Multi.id newPage); ("name", Multi.name newPage)])]).

(** [DELETE /api/pages/:id]. *)
Definition delete_page (id_param : string) : M Multi.Store unit :=
  let* pages := Multi.loadPages in
  let pages :=
    List.filter (fun p => negb (strict_eq (Multi.id p) (JStr id_param))) pages in
  Multi.savePages pages ;;
  res_json 200 (JObj [("success", JBool true)]).

(** [GET /api/config]. *)
Definition get_config : M Multi.Store unit :=
  let* config := Multi.loadGlobalConfig in
  let* key := lift (mask_secret "config.openrouterKey"
                      (Multi.config_openrouterKey config)) in
  res_json 200
    (JObj [("defaultAiModel", Multi.defaultAiModel config); ("openrouterKey", key)]).

(** [POST /api/config]. *)
Definition post_config (body : jsval) : M Multi.Store unit :=
  let* defaultAiModel := lift (get body "defaultAiModel") in
  let* openrouterKey := lift (get body "openrouterKey") in
  let* config := Multi.loadGlobalConfig in
  let config :=
    if truthy defaultAiModel
    then {| Multi.defaultAiModel := defaultAiModel;
            Multi.config_openrouterKey := Multi.config_openrouterKey config |}
    else config in
  let* masked :=
    if truthy openrouterKey
    then lift (call_startsWith "openrouterKey" openrouterKey "***")
    else ret true in
  let config :=
    if (masked : bool) then config
    else {| Multi.defaultAiModel := Multi.defaultAiModel config;
            Multi.config_openrouterKey := openrouterKey |} in
  saveGlobalConfig config ;;
  res_json 200 (JObj [("success", JBool true)]).

(** [POST /api/test]. *)
Definition post_test (body : jsval) : M Multi.Store unit :=
  let* message := lift (get body "message") in
  let* pageId := lift (get body "pageId") in
  if negb (truthy message) then
    res_json 400 (JObj [("error", JStr "Message required")])
  else
    let* kbContext := searchKnowledge message in
    let* result := Multi.generateAIResponse message kbContext pageId in
    res_json 200 result.

End MultiApi.

(** ** Further notions used in the statements *)

(** Every run of [m] relates the world it starts in, the events it emits and
    the world it leaves by [R]. *)
Definition respects {St A : Type} (R : world St -> list event -> world St -> Prop)
    (m : M St A) : Prop :=
  forall w, R w (trace (m w)) (after (m w)).

(** The type and data of the log lines among some events, oldest first. *)
Definition log_lines (t : list event) : list (string * jsval) :=
  omap (fun ev => match ev with
                  | EvLog type d => Some (type, d)
                  | _ => None
                  end) t.

Definition entry_line (entry : LogEntry) : string * jsval := (type entry, data entry).

(** The buffer holds the most recent log lines: those of the run, newest
    first, in front of what it held, cut at 100. *)
Definition keeps_recent_lines {St : Type} (w : world St) (t : list event) (w' : world St)
  : Prop :=
  length (messageLog w) <= 100 ->
  map entry_line (messageLog w')
  = take 100 (rev (log_lines t) ++ map entry_line (messageLog w)).

(** Neither the stored configuration nor the files change. *)
Definition keeps_storage {St : Type} (w : world St) (t : list event) (w' : world St)
  : Prop :=
  store w' = store w /\ fs w' = fs w.

(** Every stored page is disabled (in particular, there is none). *)
Definition all_disabled (w : world Multi.Store) : Prop :=
  Forall (fun p => truthy (Multi.enabled p) = false) (stored_pages w).

(** An event that is neither a knowledge read nor a request to a remote
    endpoint. *)
Definition idle (ev : event) : Prop :=
  match ev with
  | EvReadDir _ | EvReadFile _ | EvCompletionRequest _ | EvSendRequest _ => False
  | _ => True
  end.

Definition not_send (ev : event) : Prop :=
  match ev with
  | EvSendRequest _ => False
  | _ => True
  end.

(** A credential the single-tenant dispatcher refuses. *)
Definition unusable_credential (pageAccessToken : jsval) : Prop :=
  truthy pageAccessToken = false
  \/ pageAccessToken = JStr "YOUR_PAGE_ACCESS_TOKEN"
  \/ masked pageAccessToken = true.

(** A value that reads back unchanged from JSON, as every value loaded
    from a file under [data/] does. *)
Definition persistable (v : jsval) : Prop := json_wire v = v.

(** A string a masking route may send for a secret: empty, or beginning
    with the mask marker. *)
Definition mask_text (s : string) : Prop := s = "" \/ startsWith "***" s = true.

(** Neither the stored configuration, nor the files, nor the log buffer
    change. *)
Definition keeps_state {St : Type} (w : world St) (t : list event) (w' : world St)
  : Prop :=
  store w' = store w /\ fs w' = fs w /\ messageLog w' = messageLog w.

(** An event that is neither a log line nor a message sent to a user. *)
Definition unlogged_unsent (ev : event) : Prop :=
  match ev with
  | EvLog _ _ | EvSendRequest _ => False
  | _ => True
  end.

(** Every [.md] entry of the knowledge directory can be read, so that
    [loadKnowledgeFiles] goes through all of them. *)
Definition kb_readable {St : Type} (w : world St) : Prop :=
  forall dirFiles file,
    readdirSync (fs w) (KNOWLEDGE_DIR w) = Ok dirFiles ->
    In file dirFiles -> endsWith ".md" file = true ->
    exists content, readFileSync (fs w) (path_join (KNOWLEDGE_DIR w) file) = Ok content.

(** What a client reads of one log line: its type and its data as JSON
    carries them. *)
Definition line_read (line : string * jsval) : result jsval * result jsval :=
  (Ok (JStr (fst line)), Ok (json_wire (snd line))).


(** Absent, or a directory. *)
Definition free_or_directory (entry : option node) : Prop :=
  entry = None \/ entry = Some Dir.

(** ** Deliveries and the replies they call for *)








Section Replies.
Context {St A : Type}.

(** The completion client, for the addressee [a] of a message. *)
Variable generate : A -> jsval -> string -> M St jsval.

(** The credential replies to [a]'s messages are sent with. *)
Variable token : A -> jsval.





End Replies.




(** ** Further sample data *)

(** A disabled page whose access token happens to contain ["page_1"]. *)
Definition sample_disabled_page : Multi.Page :=
  {| Multi.id := JStr "page_0"; Multi.name := JStr "Old shop";
     Multi.verifyToken := JStr "T0"; Multi.pageAccessToken := JStr "EAAB-page_1-old";
     Multi.openrouterKey := JStr ""; Multi.aiModel := JStr "";
     Multi.knowledgeBase := JArr []; Multi.enabled := JBool false;
     Multi.createdAt := JStr "2023-06-01T00:00:00.000Z" |}.

(** A delivery with one text message for the page ["page_1"]. *)
Definition sample_delivery : jsval :=
  JObj [("object", JStr "page");
        ("entry",
         JArr [JObj [("id", JStr "page_1");
                     ("messaging",
                      JArr [JObj [("sender", JObj [("id", JStr "u1")]);
                                  ("message", JObj [("text", JStr "hello")])]])]])].

(** What [GET /api/pages] lists for [sample_page]. *)
Definition sample_listed_page : jsval :=
  JObj [("id", JStr "page_1"); ("name", JStr "Shop");
        ("verifyToken", JStr "***T1"); ("pageAccessToken", JStr "***cret");
        ("openrouterKey", JStr "***page"); ("aiModel", JStr "openai/gpt-5.2");
        ("knowledgeBase", JArr []); ("enabled", JBool true);
        ("createdAt", JStr "2024-01-01T00:00:00.000Z")].

Definition sample_global_store : Multi.Store :=
  {| Multi.pages_json := Parsed [];
     Multi.config_json :=
       Parsed {| Multi.defaultAiModel := JStr "openai/gpt-5.2";
                 Multi.config_openrouterKey := JStr "sk-global" |} |}.

(** A configuration as it is after a masked listing was saved by hand. *)
Definition sample_masked_config : Single.Config :=
  {| Single.verifyToken := JStr "T1"; Single.pageAccessToken := JStr "***cret";
     Single.openrouterKey := JStr "sk-live"; Single.aiModel := JStr "openai/gpt-5.2" |}.

(** The files of a fresh installation: the application directory alone. *)
Definition fresh_fs : gmap path node := <[ app_dir := Dir ]> ∅.

Definition fresh_world : world Single.Store :=
  {| store := Missing; fs := fresh_fs; dirname := app_dir; messageLog := [];
     ticks := 0; clock := sample_clock; completion_api := api_fails "down";
     graph_api := graph_accepts |}.



(** * Properties *)

(** ** The handler monad *)

Lemma run_bind {St A B : Type} (m : M St A) (k : A -> M St B) (w : world St) :
  bind m k w =
    match value (m w) with
    | Ok a => continued (trace (m w)) (k a (after (m w)))
    | Throw e => (Throw e, after (m w), trace (m w))
    end.
Proof.
  unfold bind, continued, value, after, trace.
  destruct (m w) as [[[a | e] w1] t1]; simpl; [| reflexivity].
  destruct (k a w1) as [[r w2] t2]; reflexivity.
Qed.

Lemma run_seq_log {St A : Type} (type : string) (d : jsval) (k : M St A) (w : world St) :
  (logMessage type d ;; k) w =
    continued [EvLog type d] (k (after (logMessage type d w))).
Proof.
  unfold logMessage, bind, ask, update, emit, continued, value, after, trace; simpl.
  destruct (k _) as [[r w2] t2]; reflexivity.
Qed.

(** ** The event log *)

Lemma push_entry_length (entry : LogEntry) (log : list LogEntry) :
  length log <= 100 -> length (push_entry entry log) <= 100.
Proof.
  intros Hlen. unfold push_entry.
  destruct (100 <? length (entry :: log)) eqn:Hfull.
  - apply Nat.ltb_lt in Hfull.
    rewrite removelast_firstn_len, length_take. simpl in *. lia.
  - apply Nat.ltb_ge in Hfull. exact Hfull.
Qed.

Lemma push_entry_full (entry oldest : LogEntry) (kept : list LogEntry) :
  length (kept ++ [oldest]) = 100 ->
  push_entry entry (kept ++ [oldest]) = entry :: kept.
Proof.
  intros Hlen. unfold push_entry.
  replace (100 <? length (entry :: kept ++ [oldest])) with true
    by (symmetry; apply Nat.ltb_lt; simpl; lia).
  change (entry :: kept ++ [oldest]) with ((entry :: kept) ++ [oldest]).
  apply removelast_last.
Qed.

Lemma push_entry_room (entry : LogEntry) (log : list LogEntry) :
  length log < 100 -> push_entry entry log = entry :: log.
Proof.
  intros Hlen. unfold push_entry.
  replace (100 <? length (entry :: log)) with false
    by (symmetry; apply Nat.ltb_ge; simpl; lia).
  reflexivity.
Qed.

Lemma logMessage_messageLog {St : Type} (type : string) (d : jsval) (w : world St) :
  messageLog (after (logMessage type d w)) =
    push_entry {| timestamp := clock w (ticks w); type := type; data := d |}
               (messageLog w).
Proof. reflexivity. Qed.

Lemma logged_bounded {St : Type} (entries : list (string * jsval)) :
  forall w : world St,
    length (messageLog w) <= 100 ->
    length (messageLog (after (logged entries w))) <= 100.
Proof.
  induction entries as [| [type d] rest IH]; intros w Hlen.
  - exact Hlen.
  - unfold logged in *. simpl for_each. rewrite run_seq_log.
    unfold continued, after at 1. simpl.
    apply IH. rewrite logMessage_messageLog. now apply push_entry_length.
Qed.

(** C8. Logging keeps the buffer within 100 entries: one [logMessage]
    preserves the bound, and so does any sequence of them started on the
    empty buffer.  On a buffer of exactly 100 entries the new entry goes to
    the front and only the last (oldest) entry is dropped, the others
    keeping their order; below 100 nothing is dropped. *)
Theorem C8_log_buffer_bounded :
  forall (St : Type) (w : world St) (type : string) (d : jsval),
    let entry := {| timestamp := clock w (ticks w); type := type; data := d |} in
    let log' := messageLog (after (logMessage type d w)) in
    (length (messageLog w) <= 100 -> length log' <= 100)
    /\ (forall kept oldest,
          messageLog w = kept ++ [oldest] -> length (messageLog w) = 100 ->
          log' = entry :: kept)
    /\ (length (messageLog w) < 100 -> log' = entry :: messageLog w)
    /\ (forall entries,
          messageLog w = [] ->
          length (messageLog (after (logged entries w))) <= 100).
Proof.
  intros St w type d entry log'. subst log'.
  rewrite logMessage_messageLog. fold entry.
  repeat split.
  - apply push_entry_length.
  - intros kept oldest Hlog Hlen. rewrite Hlog in *.
    now apply push_entry_full.
  - apply push_entry_room.
  - intros entries Hempty. apply logged_bounded. rewrite Hempty. simpl. lia.
Qed.

Lemma C8_log_buffer_bounded_witness :
  let w := sample_world (Missing : Single.Store)
             (repeat sample_entry 99 ++ [sample_entry]) (api_fails "down") in
  length (messageLog w) = 100
  /\ length (messageLog (after (logMessage "MESSAGE" JNull w))) <= 100
  /\ messageLog (after (logMessage "MESSAGE" JNull w)) =
       {| timestamp := sample_clock 0; type := "MESSAGE"; data := JNull |}
       :: repeat sample_entry 99.
Proof.
  intros w.
  pose proof (C8_log_buffer_bounded _ w "MESSAGE" JNull) as [Hbound [Hfull _]].
  split; [reflexivity | split].
  - apply Hbound. vm_compute. lia.
  - apply (Hfull (repeat sample_entry 99) sample_entry); reflexivity.
Defined.

(** ** Page and configuration updates *)

Ltac case_update H :=
  unfold Multi.update_page, Multi.assign_secret, bind_r in H;
  repeat match type of H with
         | context [call_startsWith ?e ?v ?p] =>
             let E := fresh "Hcall" in
             destruct (call_startsWith e v p) as [[|] |] eqn:E
         | context [if truthy ?v then _ else _] =>
             let E := fresh "Htruthy" in
             destruct (truthy v) eqn:E
         | context [strict_eq ?a ?b] =>
             let E := fresh "Heq" in
             destruct (strict_eq a b) eqn:E
         end;
  simpl in H; try discriminate H;
  try (injection H as H; subst).

Lemma masked_startsWith (expr : string) (v : jsval) :
  masked v = true -> call_startsWith expr v "***" = Ok true.
Proof. destruct v; simpl; try discriminate. now intros ->. Qed.

Lemma absent_or_empty_falsy (v : jsval) : absent_or_empty v = true -> truthy v = false.
Proof.
  destruct v as [| | | | s | |]; simpl; try discriminate; try reflexivity.
  now intros ->.
Qed.

Lemma update_page_masked
    (name verifyToken pageAccessToken openrouterKey aiModel knowledgeBase enabled : jsval)
    (page page' : Multi.Page) (f : secret) :
  Multi.update_page name verifyToken pageAccessToken openrouterKey aiModel
    knowledgeBase enabled page = Ok page' ->
  masked (match f with
          | VerifyToken => verifyToken
          | PageAccessToken => pageAccessToken
          | OpenrouterKey => openrouterKey
          end) = true ->
  page_secret f page' = page_secret f page.
Proof.
  intros Hup Hmask.
  destruct f;
    pose proof (masked_startsWith "verifyToken" _ Hmask) as H1;
    pose proof (masked_startsWith "pageAccessToken" _ Hmask) as H2;
    pose proof (masked_startsWith "openrouterKey" _ Hmask) as H3;
    case_update Hup; try congruence; reflexivity.
Qed.

Lemma update_page_absent
    (name verifyToken pageAccessToken openrouterKey aiModel knowledgeBase enabled : jsval)
    (page page' : Multi.Page) (f : guarded_field) :
  Multi.update_page name verifyToken pageAccessToken openrouterKey aiModel
    knowledgeBase enabled page = Ok page' ->
  absent_or_empty (match f with
                   | FName => name
                   | FVerifyToken => verifyToken
                   | FPageAccessToken => pageAccessToken
                   | FOpenrouterKey => openrouterKey
                   | FAiModel => aiModel
                   | FKnowledgeBase => knowledgeBase
                   end) = true ->
  page_field f page' = page_field f page.
Proof.
  intros Hup Habs. apply absent_or_empty_falsy in Habs.
  destruct f; case_update Hup; try congruence; reflexivity.
Qed.

Lemma update_page_enabled
    (name verifyToken pageAccessToken openrouterKey aiModel knowledgeBase enabled : jsval)
    (page page' : Multi.Page) :
  Multi.update_page name verifyToken pageAccessToken openrouterKey aiModel
    knowledgeBase enabled page = Ok page' ->
  Multi.enabled page' =
    if strict_eq enabled JUndefined then Multi.enabled page else enabled.
Proof. intros Hup. case_update Hup; reflexivity. Qed.

Lemma findIndex_lookup (pred : Multi.Page -> bool) (pages : list Multi.Page) (i : nat) :
  Multi.findIndex pred pages = Some i ->
  exists page, pages !! i = Some page /\ pred page = true.
Proof.
  revert i. induction pages as [| p rest IH]; intros i; simpl; [discriminate |].
  destruct (pred p) eqn:Hp.
  - intros [= <-]. exists p. split; [reflexivity | exact Hp].
  - destruct (Multi.findIndex pred rest) as [j |]; [| discriminate].
    intros [= <-]. apply (IH j). reflexivity.
Qed.


Lemma bind_lift {St A B : Type} (r : result A) (k : A -> M St B) (w : world St) :
  bind (lift r) k w =
    match r with
    | Ok a => k a w
    | Throw e => (Throw e, w, [])
    end.
Proof.
  unfold bind, lift. destruct r as [a | e]; [| reflexivity].
  destruct (k a w) as [[r w2] t2]; reflexivity.
Qed.

Lemma bind_run {St A B : Type} (m : M St A) (k : A -> M St B) (w w1 : world St)
    (a : A) (t1 : list event) :
  m w = (Ok a, w1, t1) -> bind m k w = continued t1 (k a w1).
Proof.
  intros E. unfold bind, continued, value, after, trace. rewrite E.
  destruct (k a w1) as [[r w2] t2]; reflexivity.
Qed.

Lemma loadPages_run (w : world Multi.Store) :
  Multi.loadPages w = (Ok (stored_pages w), w, loadPages_trace w).
Proof.
  unfold Multi.loadPages, stored_pages, loadPages_trace, bind, emit, ask.
  destruct (Multi.pages_json (store w)); reflexivity.
Qed.

(** What a run of [PUT /api/pages/:id] leaves in the store: nothing new, or
    the pages with the first page of that id updated. *)
Lemma put_page_outcome (id_param : string) (body : jsval) (w : world Multi.Store) :
  (store (after (Multi.put_page id_param body w)) = store w
   /\ responses (trace (Multi.put_page id_param body w))
      <> [(200%Z, JObj [("success", JBool true)])])
  \/ exists index page page',
       Multi.findIndex (fun p => strict_eq (Multi.id p) (JStr id_param))
         (stored_pages w) = Some index
       /\ stored_pages w !! index = Some page
       /\ Multi.update_page (get_opt body "name") (get_opt body "verifyToken")
            (get_opt body "pageAccessToken") (get_opt body "openrouterKey")
            (get_opt body "aiModel") (get_opt body "knowledgeBase")
            (get_opt body "enabled") page = Ok page'
       /\ stored_pages (after (Multi.put_page id_param body w))
          = <[index := page']> (stored_pages w)
       /\ value (Multi.put_page id_param body w) = Ok tt.
Proof.
  assert (Hnot : forall (r : result unit) (w1 : world Multi.Store) (last : list event),
             responses last <> [(200%Z, JObj [("success", JBool true)])] ->
             responses (loadPages_trace w ++ last)
             <> [(200%Z, JObj [("success", JBool true)])]).
  { intros _ _ last Hlast. unfold loadPages_trace.
    destruct (Multi.pages_json (store w)); exact Hlast. }
  unfold Multi.put_page.
  destruct body; try (left; split; [reflexivity | simpl; congruence]).
  all: unfold get_opt; cbn [get].
  all: repeat (rewrite bind_lift; cbv beta iota).
  all: rewrite (bind_run _ _ _ _ _ _ (loadPages_run w)).
  all: destruct (Multi.findIndex _ (stored_pages w)) as [index |] eqn:Hidx;
    [| left; split; [reflexivity | apply (Hnot (Ok tt) w); simpl; congruence]].
  all: destruct (findIndex_lookup _ _ _ Hidx) as (page & Hpage & _).
  all: unfold continued; cbv beta iota; rewrite Hpage, bind_lift.
  all: match goal with
       | |- context [Multi.update_page ?a ?b ?c ?d ?e ?f ?g ?p] =>
           destruct (Multi.update_page a b c d e f g p) as [page' | e'] eqn:Hup
       end;
    [right; exists index, page, page'; repeat split; assumption || reflexivity
    | left; split; [reflexivity | apply (Hnot (Ok tt) w); simpl; congruence]].
Qed.

Lemma map_insert_same {A B : Type} (f : A -> B) (l : list A) (i : nat) (x y : A) :
  l !! i = Some x -> f y = f x -> map f (<[i := y]> l) = map f l.
Proof.
  intros Hx Hf.
  change (f <$> <[i := y]> l = f <$> l).
  rewrite list_fmap_insert, Hf.
  apply list_insert_id. now rewrite list_lookup_fmap, Hx.
Qed.

Lemma loadConfig_run (w : world Single.Store) :
  Single.loadConfig w = (Ok (stored_config w), w, loadConfig_trace w).
Proof.
  unfold Single.loadConfig, stored_config, loadConfig_trace, bind, emit, ask.
  destruct w as [[| e | config] ? ? ? ? ? ? ?]; reflexivity.
Qed.

Lemma merge_config_masked (body : jsval) (c c' : Single.Config) (f : secret) (v : jsval) :
  Single.merge_config body c = Ok c' ->
  get body (secret_key f) = Ok v -> masked v = true ->
  config_secret f c' = config_secret f c.
Proof.
  intros Hmerge Hget Hmask.
  unfold Single.merge_config, bind_r in Hmerge.
  destruct (get body "verifyToken") as [vt |] eqn:G1; [| discriminate].
  destruct (call_startsWith _ vt _) as [m1 |] eqn:H1; [| discriminate].
  destruct (get body "pageAccessToken") as [pat |] eqn:G2; [| discriminate].
  destruct (call_startsWith _ pat _) as [m2 |] eqn:H2; [| discriminate].
  destruct (get body "openrouterKey") as [key |] eqn:G3; [| discriminate].
  destruct (call_startsWith _ key _) as [m3 |] eqn:H3; [| discriminate].
  destruct (get body "aiModel") as [model |]; [| discriminate].
  injection Hmerge as <-.
  destruct f; simpl in Hget;
    [rewrite Hget in G1; injection G1 as <-;
     rewrite (masked_startsWith _ _ Hmask) in H1; injection H1 as <-
    |rewrite Hget in G2; injection G2 as <-;
     rewrite (masked_startsWith _ _ Hmask) in H2; injection H2 as <-
    |rewrite Hget in G3; injection G3 as <-;
     rewrite (masked_startsWith _ _ Hmask) in H3; injection H3 as <-];
    repeat match goal with b : bool |- _ => destruct b end; reflexivity.
Qed.

Lemma post_config_store (body : jsval) (w : world Single.Store) :
  store (after (Single.post_config body w)) = store w
  \/ exists merged,
       Single.merge_config body (stored_config w) = Ok merged
       /\ store (after (Single.post_config body w)) = Parsed merged.
Proof.
  unfold Single.post_config.
  rewrite (bind_run _ _ _ _ _ _ (loadConfig_run w)), bind_lift.
  destruct (Single.merge_config body (stored_config w)) as [merged | e].
  - right. exists merged. split; reflexivity.
  - left. reflexivity.
Qed.

(** C1. A secret field whose incoming value begins with the mask marker
    keeps its stored value: in the multi-tenant update this holds for that
    field of every stored page, in the single-tenant update for the one
    configuration record. *)
Theorem C1_masked_secret_is_not_overwritten :
  forall (f : secret) (v : jsval),
    masked v = true ->
    (forall (id_param : string) (body : jsval) (w : world Multi.Store),
        get body (secret_key f) = Ok v ->
        map (page_secret f) (stored_pages (after (Multi.put_page id_param body w)))
        = map (page_secret f) (stored_pages w))
    /\ (forall (body : jsval) (w : world Single.Store),
        get body (secret_key f) = Ok v ->
        config_secret f (stored_config (after (Single.post_config body w)))
        = config_secret f (stored_config w)).
Proof.
  intros f v Hmask. split.
  - intros id_param body w Hget.
    destruct (put_page_outcome id_param body w)
      as [[Hsame _] | (index & page & page' & _ & Hpage & Hup & Hstored & _)].
    + unfold stored_pages. now rewrite Hsame.
    + rewrite Hstored. apply (map_insert_same _ _ _ page); [exact Hpage |].
      apply (update_page_masked _ _ _ _ _ _ _ _ _ f Hup).
      destruct f; simpl in Hget; unfold get_opt; rewrite Hget; exact Hmask.
  - intros body w Hget.
    destruct (post_config_store body w) as [Hsame | (merged & Hmerge & Hstore)].
    + unfold stored_config. now rewrite Hsame.
    + unfold stored_config at 1. rewrite Hstore.
      exact (merge_config_masked _ _ _ f v Hmerge Hget Hmask).
Qed.

Lemma C1_masked_secret_is_not_overwritten_witness :
  masked (JStr "***cret") = true
  /\ map (page_secret PageAccessToken)
       (stored_pages
          (after (Multi.put_page "page_1"
                    (JObj [("name", JStr "Renamed");
                           ("pageAccessToken", JStr "***cret")])
                    (sample_world (sample_pages_store [sample_page]) []
                       (api_fails "down")))))
     = [JStr "EAAB-secret"]
  /\ config_secret PageAccessToken
       (stored_config
          (after (Single.post_config
                    (JObj [("verifyToken", JStr "T2");
                           ("pageAccessToken", JStr "***cret");
                           ("openrouterKey", JStr "sk-new");
                           ("aiModel", JStr "openai/gpt-5.2")])
                    (sample_world (Parsed sample_config) [] (api_fails "down")))))
     = JStr "EAAB-secret".
Proof.
  pose proof (C1_masked_secret_is_not_overwritten PageAccessToken (JStr "***cret")
                eq_refl) as [Hmulti Hsingle].
  split; [reflexivity | split].
  - exact (Hmulti "page_1"
             (JObj [("name", JStr "Renamed"); ("pageAccessToken", JStr "***cret")])
             (sample_world (sample_pages_store [sample_page]) [] (api_fails "down"))
             eq_refl).
  - exact (Hsingle
             (JObj [("verifyToken", JStr "T2");
                    ("pageAccessToken", JStr "***cret");
                    ("openrouterKey", JStr "sk-new");
                    ("aiModel", JStr "openai/gpt-5.2")])
             (sample_world (Parsed sample_config) [] (api_fails "down"))
             eq_refl).
Defined.

(** C10. In the multi-tenant update, each of [name], [verifyToken],
    [pageAccessToken], [openrouterKey], [aiModel] and [knowledgeBase] keeps
    its stored value, on every page, when the incoming value is absent or
    the empty string.  [enabled] is written whenever the update goes
    through and the incoming value is not [undefined], [false] included,
    and is left alone when it is [undefined]. *)
Theorem C10_falsy_fields_are_kept_and_enabled_is_written :
  forall (id_param : string) (body : jsval) (w : world Multi.Store),
    let run := Multi.put_page id_param body w in
    (forall (f : guarded_field) (v : jsval),
        get body (field_key f) = Ok v -> absent_or_empty v = true ->
        map (page_field f) (stored_pages (after run))
        = map (page_field f) (stored_pages w))
    /\ (forall v : jsval,
          get body "enabled" = Ok v -> v <> JUndefined ->
          responses (trace run) = [(200%Z, JObj [("success", JBool true)])] ->
          exists index page',
            Multi.findIndex (fun p => strict_eq (Multi.id p) (JStr id_param))
              (stored_pages w) = Some index
            /\ stored_pages (after run) !! index = Some page'
            /\ Multi.enabled page' = v)
    /\ (get body "enabled" = Ok JUndefined ->
        map Multi.enabled (stored_pages (after run))
        = map Multi.enabled (stored_pages w)).
Proof.
  intros id_param body w run. subst run.
  destruct (put_page_outcome id_param body w)
    as [[Hsame Hresp] | (index & page & page' & Hidx & Hpage & Hup & Hstored & _)].
  - assert (Hpages : stored_pages (after (Multi.put_page id_param body w))
                     = stored_pages w)
      by (unfold stored_pages; now rewrite Hsame).
    rewrite Hpages. repeat split; try reflexivity.
    intros v _ _ Hok. contradiction.
  - rewrite Hstored. repeat split.
    + intros f v Hget Habs.
      apply (map_insert_same _ _ _ page); [exact Hpage |].
      apply (update_page_absent _ _ _ _ _ _ _ _ _ f Hup).
      destruct f; simpl in Hget; unfold get_opt; rewrite Hget; exact Habs.
    + intros v Hget Hdef _. exists index, page'. split; [exact Hidx | split].
      * apply list_lookup_insert_eq. apply lookup_lt_Some in Hpage. exact Hpage.
      * rewrite (update_page_enabled _ _ _ _ _ _ _ _ _ Hup).
        unfold get_opt. rewrite Hget.
        destruct v; try reflexivity. contradiction.
    + intros Hget.
      apply (map_insert_same _ _ _ page); [exact Hpage |].
      rewrite (update_page_enabled _ _ _ _ _ _ _ _ _ Hup).
      unfold get_opt. now rewrite Hget.
Qed.

Lemma C10_falsy_fields_are_kept_and_enabled_is_written_witness :
  let w := sample_world (sample_pages_store [sample_page]) [] (api_fails "down") in
  let body := JObj [("name", JStr ""); ("enabled", JBool false)] in
  map Multi.name (stored_pages (after (Multi.put_page "page_1" body w)))
    = [JStr "Shop"]
  /\ exists index page',
       Multi.findIndex (fun p => strict_eq (Multi.id p) (JStr "page_1"))
         (stored_pages w) = Some index
       /\ stored_pages (after (Multi.put_page "page_1" body w)) !! index = Some page'
       /\ Multi.enabled page' = JBool false.
Proof.
  intros w body.
  destruct (C10_falsy_fields_are_kept_and_enabled_is_written "page_1" body w)
    as [Hkept [Henabled _]].
  split.
  - exact (Hkept FName (JStr "") eq_refl eq_refl).
  - apply (Henabled (JBool false)); [reflexivity | discriminate | reflexivity].
Defined.

(** ** Events emitted by the building blocks *)

Section Emits.
Context {St : Type} (P : event -> Prop).

Lemma emits_ret {A : Type} (a : A) : emits P (ret a : M St A).
Proof. intros w. constructor. Qed.

Lemma emits_throw {A : Type} (e : exn) : emits P (throw e : M St A).
Proof. intros w. constructor. Qed.

Lemma emits_lift {A : Type} (r : result A) : emits P (lift r : M St A).
Proof. intros w. constructor. Qed.

Lemma emits_ask : emits P (ask : M St (world St)).
Proof. intros w. constructor. Qed.

Lemma emits_update (f : world St -> world St) : emits P (update f).
Proof. intros w. constructor. Qed.

Lemma emits_emit (ev : event) : P ev -> emits P (emit ev : M St unit).
Proof. intros Hev w. simpl. constructor; [exact Hev | constructor]. Qed.

Lemma emits_bind {A B : Type} (m : M St A) (k : A -> M St B) :
  emits P m -> (forall a, emits P (k a)) -> emits P (bind m k).
Proof.
  intros Hm Hk w. rewrite run_bind.
  destruct (value (m w)) as [a | e].
  - unfold continued, trace at 1. simpl. apply Forall_app. split.
    + apply Hm.
    + apply Hk.
  - apply Hm.
Qed.

Lemma emits_try_catch {A : Type} (body : M St A) (handler : exn -> M St A) :
  emits P body -> (forall e, emits P (handler e)) -> emits P (try_catch body handler).
Proof.
  intros Hbody Hhandler w. unfold try_catch.
  pose proof (Hbody w) as Hb. unfold trace in *.
  destruct (body w) as [[[a | e] w1] t1]; simpl in *; [exact Hb |].
  pose proof (Hhandler e w1) as Hh. unfold trace in Hh.
  destruct (handler e w1) as [[r w2] t2]; simpl in *.
  apply Forall_app. split; assumption.
Qed.

Lemma emits_for_each {A : Type} (items : list A) (body : A -> M St unit) :
  (forall x, emits P (body x)) -> emits P (for_each items body).
Proof.
  intros Hbody. induction items as [| x rest IH]; simpl.
  - apply emits_ret.
  - apply emits_bind; [apply Hbody | intros _; exact IH].
Qed.

Lemma emits_logMessage (type : string) (d : jsval) :
  P (EvLog type d) -> emits P (logMessage type d : M St unit).
Proof. intros Hev w. simpl. constructor; [exact Hev | constructor]. Qed.

End Emits.


Ltac emits_step :=
  first
    [ apply emits_ret | apply emits_throw | apply emits_lift | apply emits_ask
    | apply emits_update
    | apply emits_bind; [| intros ?]
    | apply emits_try_catch; [| intros ?]
    | apply emits_for_each; intros ?
    | match goal with
      | |- emits _ (match ?x with _ => _ end) => destruct x
      | |- emits _ (if ?b then _ else _) => destruct b
      end ].

Section Pipeline.
Context {St : Type} (P : event -> Prop).
Hypothesis P_internal : forall ev, internal ev = true -> P ev.
Hypothesis P_log : forall type d, P (EvLog type d).

Lemma emits_read_md_files (dir : path) (dirFiles : list string) :
  forall files, emits P (read_md_files dir dirFiles files : M St _).
Proof.
  induction dirFiles as [| file rest IH]; intros files; simpl.
  - apply emits_ret.
  - destruct (endsWith ".md" file); [| apply IH].
    apply emits_bind; [apply emits_ask | intros w].
    apply emits_bind; [apply emits_emit, P_internal; reflexivity | intros _].
    destruct (readFileSync _ _); [apply IH | apply emits_ret].
Qed.

Lemma emits_loadKnowledgeFiles : emits P (loadKnowledgeFiles : M St _).
Proof.
  unfold loadKnowledgeFiles.
  apply emits_bind; [apply emits_ask | intros w].
  apply emits_bind; [apply emits_emit, P_internal; reflexivity | intros _].
  destruct (readdirSync _ _) as [dirFiles | e].
  - apply emits_bind; [apply emits_read_md_files | intros r].
    destruct (snd r); [| apply emits_ret].
    apply emits_bind; [apply emits_emit, P_internal; reflexivity | intros _].
    apply emits_ret.
  - apply emits_bind; [apply emits_emit, P_internal; reflexivity | intros _].
    apply emits_ret.
Qed.

Lemma emits_searchKnowledge (query : jsval) : emits P (searchKnowledge query : M St _).
Proof.
  unfold searchKnowledge.
  apply emits_bind; [apply emits_loadKnowledgeFiles | intros kbFiles].
  repeat emits_step.
Qed.

Lemma emits_post_completion (req : CompletionRequest) :
  P (EvCompletionRequest req) -> emits P (post_completion req : M St _).
Proof.
  intros Hreq. unfold post_completion.
  apply emits_bind; [apply emits_emit, Hreq | intros _].
  apply emits_bind; [apply emits_ask | intros w].
  repeat emits_step.
Qed.

Lemma emits_completion_call (req : CompletionRequest) :
  P (EvCompletionRequest req) -> emits P (completion_call req : M St _).
Proof.
  intros Hreq. unfold completion_call.
  apply emits_try_catch.
  - apply emits_bind; [now apply emits_post_completion | intros d].
    repeat emits_step.
  - intros e. apply emits_bind; [apply emits_emit, P_internal; reflexivity | intros _].
    apply emits_ret.
Qed.

Lemma emits_deliver (senderId replyText pageAccessToken : jsval) :
  P (EvSendRequest {| sr_recipient := senderId; sr_text := replyText;
                      sr_access_token := pageAccessToken |}) ->
  emits P (deliver senderId replyText pageAccessToken : M St _).
Proof.
  intros Hreq. unfold deliver, post_message.
  apply emits_try_catch.
  - apply emits_bind.
    + apply emits_bind; [apply emits_emit, Hreq | intros _].
      apply emits_bind; [apply emits_ask | intros w].
      repeat emits_step.
    + intros _. apply emits_logMessage, P_log.
  - intros e. apply emits_logMessage, P_log.
Qed.

End Pipeline.

Section SinglePipeline.
Context (P : event -> Prop).
Hypothesis P_internal : forall ev, internal ev = true -> P ev.
Hypothesis P_log : forall type d, P (EvLog type d).
Hypothesis P_completion : forall req, P (EvCompletionRequest req).

Lemma emits_single_loadConfig : emits P Single.loadConfig.
Proof.
  intros w. rewrite loadConfig_run. unfold trace, loadConfig_trace. simpl.
  constructor; [apply P_internal; reflexivity |].
  destruct (store w); repeat constructor. apply P_internal; reflexivity.
Qed.

Lemma emits_single_generateAIResponse (userMessage : jsval) (kbContext : string) :
  emits P (Single.generateAIResponse userMessage kbContext).
Proof.
  unfold Single.generateAIResponse.
  apply emits_bind; [apply emits_single_loadConfig | intros config].
  destruct (negb _); [apply emits_ret |].
  apply emits_completion_call; auto.
Qed.

Lemma emits_single_sendAutoReply (senderId replyText pageAccessToken : jsval) :
  P (EvSendRequest {| sr_recipient := senderId; sr_text := replyText;
                      sr_access_token := pageAccessToken |}) ->
  emits P (Single.sendAutoReply senderId replyText pageAccessToken).
Proof.
  intros Hreq. unfold Single.sendAutoReply.
  apply emits_bind.
  - repeat emits_step.
  - intros [|]; [apply emits_logMessage, P_log | now apply emits_deliver].
Qed.

Hypothesis P_send : forall req, P (EvSendRequest req).

Lemma emits_single_handle_messaging (config : Single.Config) (messaging : jsval) :
  emits P (Single.handle_messaging config messaging).
Proof.
  unfold Single.handle_messaging.
  do 3 (apply emits_bind; [apply emits_lift | intros ?]).
  destruct (_ && _); [| apply emits_ret].
  apply emits_bind; [apply emits_logMessage, P_log | intros _].
  apply emits_bind; [now apply emits_searchKnowledge | intros kbContext].
  apply emits_bind; [apply emits_single_generateAIResponse | intros aiResult].
  destruct (truthy _); [apply emits_single_sendAutoReply, P_send |].
  destruct (truthy _); [| apply emits_ret].
  apply emits_bind; [apply emits_single_sendAutoReply, P_send | intros _].
  apply emits_logMessage, P_log.
Qed.

Lemma emits_single_handle_entry (config : Single.Config) (entry : jsval) :
  emits P (Single.handle_entry config entry).
Proof.
  unfold Single.handle_entry.
  do 2 (apply emits_bind; [apply emits_lift | intros ?]).
  apply emits_for_each. intros messaging. apply emits_single_handle_messaging.
Qed.

End SinglePipeline.

Section MultiPipeline.
Context (P : event -> Prop).
Hypothesis P_internal : forall ev, internal ev = true -> P ev.
Hypothesis P_log : forall type d, P (EvLog type d).
Hypothesis P_completion : forall req, P (EvCompletionRequest req).

Lemma emits_multi_loadPages : emits P Multi.loadPages.
Proof.
  intros w. rewrite loadPages_run. unfold trace, loadPages_trace. simpl.
  constructor; [apply P_internal; reflexivity |].
  destruct (Multi.pages_json (store w)); repeat constructor.
  apply P_internal; reflexivity.
Qed.

Lemma emits_multi_loadGlobalConfig : emits P Multi.loadGlobalConfig.
Proof.
  unfold Multi.loadGlobalConfig.
  apply emits_bind; [apply emits_emit, P_internal; reflexivity | intros _].
  apply emits_bind; [apply emits_ask | intros w].
  destruct (Multi.config_json (store w)); try apply emits_ret.
  apply emits_bind; [apply emits_emit, P_internal; reflexivity | intros _].
  apply emits_ret.
Qed.

Lemma emits_multi_generateAIResponse (userMessage : jsval) (kbContext : string)
    (pageId : jsval) :
  emits P (Multi.generateAIResponse userMessage kbContext pageId).
Proof.
  unfold Multi.generateAIResponse.
  apply emits_bind; [apply emits_multi_loadGlobalConfig | intros config].
  apply emits_bind; [apply emits_multi_loadPages | intros pages].
  destruct (negb _); [apply emits_ret |].
  apply emits_completion_call; auto.
Qed.

Lemma emits_multi_sendAutoReply (senderId replyText pageAccessToken : jsval) :
  P (EvSendRequest {| sr_recipient := senderId; sr_text := replyText;
                      sr_access_token := pageAccessToken |}) ->
  emits P (Multi.sendAutoReply senderId replyText pageAccessToken).
Proof.
  intros Hreq. unfold Multi.sendAutoReply.
  destruct (negb _); [apply emits_logMessage, P_log | now apply emits_deliver].
Qed.

Hypothesis P_send : forall req, P (EvSendRequest req).

Lemma emits_multi_handle_messaging (pageConfig : Multi.Page) (messaging : jsval) :
  emits P (Multi.handle_messaging pageConfig messaging).
Proof.
  unfold Multi.handle_messaging.
  do 3 (apply emits_bind; [apply emits_lift | intros ?]).
  destruct (_ && _); [| apply emits_ret].
  apply emits_bind; [apply emits_logMessage, P_log | intros _].
  apply emits_bind; [now apply emits_searchKnowledge | intros kbContext].
  apply emits_bind; [apply emits_multi_generateAIResponse | intros aiResult].
  destruct (truthy _); [apply emits_multi_sendAutoReply, P_send |].
  destruct (truthy _); [| apply emits_ret].
  apply emits_bind; [apply emits_multi_sendAutoReply, P_send | intros _].
  apply emits_logMessage, P_log.
Qed.

Lemma emits_multi_handle_entry (entry : jsval) :
  emits P (Multi.handle_entry entry).
Proof.
  unfold Multi.handle_entry.
  apply emits_bind; [apply emits_lift | intros pageId].
  apply emits_bind; [apply emits_multi_loadPages | intros pages].
  apply emits_bind; [apply emits_lift | intros [pageConfig |]].
  - destruct (negb _); [apply emits_logMessage, P_log |].
    do 2 (apply emits_bind; [apply emits_lift | intros ?]).
    apply emits_for_each. intros messaging. apply emits_multi_handle_messaging.
  - apply emits_logMessage, P_log.
Qed.

End MultiPipeline.

(** ** Acknowledgement of inbound events *)

Lemma respond_then {St : Type} (code : Z) (body : jsval) (k : M St unit) (w : world St) :
  trace ((respond code body ;; k) w) = EvRespond code body :: trace (k w).
Proof.
  unfold respond, emit, bind, trace. destruct (k w) as [[r w2] t2]. reflexivity.
Qed.

Lemma not_response_internal (ev : event) : internal ev = true -> not_response ev.
Proof. destruct ev; simpl; trivial; discriminate. Qed.

Lemma responses_none (t : list event) : Forall not_response t -> responses t = [].
Proof.
  induction 1 as [| ev t Hev _ IH]; [reflexivity |].
  destruct ev; simpl in *; try exact IH. contradiction.
Qed.

Lemma responses_app (t1 t2 : list event) :
  responses (t1 ++ t2) = responses t1 ++ responses t2.
Proof. apply omap_app. Qed.

Ltac by_emits :=
  match goal with
  | |- Forall ?P (trace (?k ?w)) => cut (emits P k); [intros Hk; apply Hk |]
  end.

Lemma multi_post_webhook_trace (body : jsval) (w : world Multi.Store) :
  exists rest,
    trace (Multi.post_webhook body w)
    = EvLog "RECEIVED" body :: EvRespond 200 (JStr "OK") :: rest
    /\ Forall not_response rest.
Proof.
  unfold Multi.post_webhook. rewrite run_seq_log.
  unfold continued, trace at 1. cbn [snd app]. rewrite respond_then.
  eexists. split; [reflexivity |].
  by_emits.
  apply emits_bind; [apply emits_lift | intros object].
  destruct (strict_eq _ _); [| apply emits_ret].
  do 2 (apply emits_bind; [apply emits_lift | intros ?]).
  apply emits_for_each. intros entry.
  apply emits_multi_handle_entry; try exact not_response_internal; intros; exact I.
Qed.

Lemma single_post_webhook_trace (body : jsval) (w : world Single.Store) :
  exists rest,
    trace (Single.post_webhook body w)
    = loadConfig_trace w
      ++ EvLog "RECEIVED" body :: EvRespond 200 (JStr "OK") :: rest
    /\ Forall not_response rest.
Proof.
  unfold Single.post_webhook.
  rewrite (bind_run _ _ _ _ _ _ (loadConfig_run w)), run_seq_log.
  unfold continued, trace at 1 2. cbn [snd app]. rewrite respond_then.
  eexists. split; [reflexivity |].
  by_emits.
  apply emits_bind; [apply emits_lift | intros object].
  destruct (strict_eq _ _); [| apply emits_ret].
  do 2 (apply emits_bind; [apply emits_lift | intros ?]).
  apply emits_for_each. intros entry.
  apply emits_single_handle_entry; try exact not_response_internal; intros; exact I.
Qed.

(** C3. [POST /webhook] answers [200 "OK"] before any downstream work: in
    both servers the trace of the handler is a prefix without responses, page
    look-ups, knowledge reads, completion or send requests, then the
    response [200 "OK"], then a remainder without any further response.
    The statement covers every body and every world, hence also payloads
    that are not page events, entries without a tenant, disabled tenants,
    failing upstream calls and handlers that end in an exception. *)
Theorem C3_webhook_post_acknowledges_first :
  forall body : jsval,
    (forall w : world Multi.Store,
        acknowledged_first (trace (Multi.post_webhook body w))
        /\ responses (trace (Multi.post_webhook body w)) = [(200%Z, JStr "OK")])
    /\ (forall w : world Single.Store,
        acknowledged_first (trace (Single.post_webhook body w))
        /\ responses (trace (Single.post_webhook body w)) = [(200%Z, JStr "OK")]).
Proof.
  intros body. split; intros w.
  - destruct (multi_post_webhook_trace body w) as (rest & Ht & Hrest).
    rewrite Ht. split.
    + exists [EvLog "RECEIVED" body], rest. repeat split; try assumption.
      repeat constructor.
    + simpl. now rewrite (responses_none _ Hrest).
  - destruct (single_post_webhook_trace body w) as (rest & Ht & Hrest).
    rewrite Ht. split.
    + exists (loadConfig_trace w ++ [EvLog "RECEIVED" body]), rest.
      rewrite <- app_assoc. repeat split; try assumption.
      apply Forall_app. split; [| repeat constructor].
      unfold loadConfig_trace. destruct (store w); repeat constructor.
    + rewrite responses_app, (responses_none (loadConfig_trace w)).
      * simpl. now rewrite (responses_none _ Hrest).
      * unfold loadConfig_trace. destruct (store w); repeat constructor.
Qed.

(** The four situations the specification names, run on sample worlds: a
    payload that is not a page event, an entry no page owns, a disabled
    page, and a completion endpoint that fails. *)
Example webhook_post_not_a_page_event :
  trace (Multi.post_webhook (JObj [("object", JStr "user")])
           (sample_world (sample_pages_store [sample_page]) [] (api_fails "down")))
  = [EvLog "RECEIVED" (JObj [("object", JStr "user")]); EvRespond 200 (JStr "OK")].
Proof. reflexivity. Qed.

Example webhook_post_unknown_tenant :
  let body := JObj [("object", JStr "page");
                    ("entry", JArr [JObj [("id", JStr "4711"); ("messaging", JArr [])]])] in
  trace (Multi.post_webhook body
           (sample_world (sample_pages_store [sample_page]) [] (api_fails "down")))
  = [EvLog "RECEIVED" body; EvRespond 200 (JStr "OK"); EvReadStore "pages.json";
     EvLog "ERROR" (JObj [("msg", JStr "Page not configured: 4711")])].
Proof. reflexivity. Qed.

Example webhook_post_disabled_tenant :
  let body := JObj [("object", JStr "page");
                    ("entry", JArr [JObj [("id", JStr "page_1"); ("messaging", JArr [])]])] in
  trace (Multi.post_webhook body
           (sample_world
              (sample_pages_store [Multi.with_enabled (JBool false) sample_page]) []
              (api_fails "down")))
  = [EvLog "RECEIVED" body; EvRespond 200 (JStr "OK"); EvReadStore "pages.json";
     EvLog "SKIP" (JObj [("msg", JStr "Page disabled: Shop")])].
Proof. reflexivity. Qed.

Example webhook_post_completion_fails :
  let body :=
    JObj [("object", JStr "page");
          ("entry",
           JArr [JObj [("id", JStr "page_1");
                       ("messaging",
                        JArr [JObj [("sender", JObj [("id", JStr "user_1")]);
                                    ("message", JObj [("text", JStr "hello")])]])]])] in
  let run := Multi.post_webhook body
               (sample_world (sample_pages_store [sample_page]) []
                  (api_fails "Network Error")) in
  responses (trace run) = [(200%Z, JStr "OK")]
  /\ send_requests (trace run)
     = [{| sr_recipient := JStr "user_1"; sr_text := JStr FALLBACK_REPLY;
           sr_access_token := JStr "EAAB-secret" |}]
  /\ List.last (trace run) (EvConsole "")
     = EvLog "ERROR" (JObj [("msg", JStr "Network Error")]).
Proof. vm_compute. repeat split. Qed.

(** ** Webhook verification *)

Lemma strict_eq_string (v : jsval) (s : string) :
  strict_eq v (JStr s) = true <-> v = JStr s.
Proof.
  destruct v; simpl; try (split; [discriminate | intros [=]]).
  rewrite String.eqb_eq. split; [now intros -> | now intros [= ->]].
Qed.

Lemma multi_get_webhook_responses (mode token challenge : jsval) (w : world Multi.Store) :
  responses (trace (Multi.get_webhook mode token challenge w)) =
    [if strict_eq mode (JStr "subscribe")
        && existsb (fun p => strict_eq (Multi.verifyToken p) token) (stored_pages w)
     then (200%Z, challenge) else (403%Z, JStr "Forbidden")].
Proof.
  unfold Multi.get_webhook.
  rewrite (bind_run _ _ _ _ _ _ (loadPages_run w)), run_seq_log.
  unfold continued, trace. cbn [snd].
  rewrite !responses_app, (responses_none (loadPages_trace w)).
  - destruct (_ && _); reflexivity.
  - unfold loadPages_trace.
    destruct (Multi.pages_json (store w)); repeat constructor.
Qed.

Lemma single_get_webhook_responses (mode token challenge : jsval) (w : world Single.Store) :
  responses (trace (Single.get_webhook mode token challenge w)) =
    [if strict_eq mode (JStr "subscribe")
        && strict_eq token (Single.verifyToken (stored_config w))
     then (200%Z, challenge) else (403%Z, JStr "Forbidden")].
Proof.
  unfold Single.get_webhook.
  rewrite (bind_run _ _ _ _ _ _ (loadConfig_run w)), run_seq_log.
  unfold continued, trace. cbn [snd].
  rewrite !responses_app, (responses_none (loadConfig_trace w)).
  - destruct (_ && _); reflexivity.
  - unfold loadConfig_trace. destruct (store w); repeat constructor.
Qed.

(** C2, as amended. [GET /webhook] sends exactly one response.  It is
    [200] with the challenge as body when the mode is ['subscribe'] and the
    token is [===] to the verify token of some stored page (multi-tenant) or
    of the configuration (single-tenant), and only then; in every other
    case it is [403] with the reason phrase ['Forbidden'] as body, as
    [res.sendStatus(403)] sends it. *)
Theorem C2_verification_echoes_challenge_or_forbids :
  forall mode token challenge : jsval,
    (forall w : world Multi.Store,
        let verified :=
          mode = JStr "subscribe"
          /\ exists p, In p (stored_pages w)
                       /\ strict_eq (Multi.verifyToken p) token = true in
        let sent := responses (trace (Multi.get_webhook mode token challenge w)) in
        (verified <-> sent = [(200%Z, challenge)])
        /\ (~ verified -> sent = [(403%Z, JStr "Forbidden")]))
    /\ (forall w : world Single.Store,
        let verified :=
          mode = JStr "subscribe"
          /\ strict_eq token (Single.verifyToken (stored_config w)) = true in
        let sent := responses (trace (Single.get_webhook mode token challenge w)) in
        (verified <-> sent = [(200%Z, challenge)])
        /\ (~ verified -> sent = [(403%Z, JStr "Forbidden")])).
Proof.
  intros mode token challenge. split; intros w verified sent; subst sent.
  - rewrite multi_get_webhook_responses.
    assert (Hdec : strict_eq mode (JStr "subscribe")
                   && existsb (fun p => strict_eq (Multi.verifyToken p) token)
                        (stored_pages w) = true <-> verified).
    { subst verified.
      rewrite andb_true_iff, strict_eq_string, existsb_exists. reflexivity. }
    destruct (_ && _).
    + split; [split; [reflexivity | intros _; now apply Hdec] |].
      intros Hnot. exfalso. now apply Hnot, Hdec.
    + split; [split; [| discriminate] | reflexivity].
      intros Hv. apply Hdec in Hv. discriminate.
  - rewrite single_get_webhook_responses.
    assert (Hdec : strict_eq mode (JStr "subscribe")
                   && strict_eq token (Single.verifyToken (stored_config w)) = true
                   <-> verified).
    { subst verified. rewrite andb_true_iff, strict_eq_string. reflexivity. }
    destruct (_ && _).
    + split; [split; [reflexivity | intros _; now apply Hdec] |].
      intros Hnot. exfalso. now apply Hnot, Hdec.
    + split; [split; [| discriminate] | reflexivity].
      intros Hv. apply Hdec in Hv. discriminate.
Qed.

Lemma C2_verification_echoes_challenge_or_forbids_witness :
  let w := sample_world (sample_pages_store [sample_page]) [] (api_fails "down") in
  responses (trace (Multi.get_webhook (JStr "subscribe") (JStr "T1") (JStr "xyz") w))
  = [(200%Z, JStr "xyz")].
Proof.
  intros w.
  apply (proj1 (C2_verification_echoes_challenge_or_forbids
                  (JStr "subscribe") (JStr "T1") (JStr "xyz")) w).
  split; [reflexivity |].
  exists sample_page. split; [left; reflexivity | reflexivity].
Defined.

(** C2 as stated fails: a wrong token is refused with [403], but the body
    is the text ['Forbidden'], not an empty body, in both servers. *)
Lemma C2_forbidden_body_is_not_empty :
  responses (trace (Multi.get_webhook (JStr "subscribe") (JStr "WRONG") (JStr "xyz")
                      (sample_world (sample_pages_store [sample_page]) []
                         (api_fails "down"))))
  = [(403%Z, JStr "Forbidden")]
  /\ responses (trace (Single.get_webhook (JStr "subscribe") (JStr "WRONG") (JStr "xyz")
                         (sample_world (Parsed sample_config) [] (api_fails "down"))))
     = [(403%Z, JStr "Forbidden")]
  /\ JStr "Forbidden" <> JStr "" /\ JStr "Forbidden" <> JUndefined.
Proof. repeat split; discriminate. Qed.

(** ** The completion client *)

Lemma post_completion_run {St : Type} (req : CompletionRequest) (w : world St) :
  post_completion req w =
    (match completion_api w (ticks w) req with
     | Resolved d => Ok d
     | Rejected e => Throw e
     end, tick w, [EvCompletionRequest req]).
Proof.
  unfold post_completion, bind, emit, ask, update, ret, throw. simpl.
  destruct (completion_api w (ticks w) req); reflexivity.
Qed.

Lemma truthy_js_or_r (a b : jsval) : truthy b = true -> truthy (js_or a b) = true.
Proof. intros Hb. unfold js_or. destruct (truthy a) eqn:Ha; assumption. Qed.

(** The completion call never throws: it issues exactly one request and
    yields a response object or an error object. *)
Lemma completion_call_run {St : Type} (req : CompletionRequest) (w : world St) :
  exists aiResult t,
    completion_call req w = (Ok aiResult, tick w, EvCompletionRequest req :: t)
    /\ ai_result_shape aiResult
    /\ Forall (fun ev => internal ev = true) t.
Proof.
  unfold completion_call, try_catch, bind.
  rewrite post_completion_run.
  destruct (completion_api w (ticks w) req) as [d | e].
  - unfold lift at 1.
    destruct (get d "choices") as [choices | e1]; simpl.
    + destruct (get choices "0") as [first | e2]; simpl.
      * eexists _, _. split; [reflexivity | split; [| constructor]].
        left. eexists. split; [reflexivity |]. now apply truthy_js_or_r.
      * eexists _, _. split; [reflexivity | split; [| repeat constructor]].
        right. eexists. reflexivity.
    + eexists _, _. split; [reflexivity | split; [| repeat constructor]].
      right. eexists. reflexivity.
  - simpl. eexists _, _. split; [reflexivity | split; [| repeat constructor]].
    right. eexists. reflexivity.
Qed.

Lemma get_error_message (v : jsval) (k : string) (e : exn) :
  get v k = Throw e -> message e <> "".
Proof. destruct v; simpl; intros [= <-]; discriminate. Qed.

(** The error a failed completion call reports is truthy as soon as the
    errors of the HTTP client carry a message, as they do. *)
Lemma completion_call_error_truthy {St : Type} (req : CompletionRequest) (w : world St)
    (e : jsval) :
  (forall err, completion_api w (ticks w) req = Rejected err -> message err <> "") ->
  value (completion_call req w) = Ok (JObj [("error", e)]) ->
  truthy e = true.
Proof.
  intros Hmessage. unfold completion_call, try_catch, bind.
  rewrite post_completion_run.
  assert (Hor : forall a msg, msg <> "" -> truthy (js_or a (JStr msg)) = true).
  { intros a msg Hmsg. apply truthy_js_or_r. simpl.
    destruct msg; [contradiction | reflexivity]. }
  destruct (completion_api w (ticks w) req) as [d | err] eqn:Hapi.
  - unfold lift at 1.
    destruct (get d "choices") as [choices | e1] eqn:H1; simpl.
    + destruct (get choices "0") as [first | e2] eqn:H2; simpl.
      * intros [=].
      * intros [= <-]. apply Hor. now apply (get_error_message choices "0").
    + intros [= <-]. apply Hor. now apply (get_error_message d "choices").
  - simpl. intros [= <-]. apply Hor. now apply Hmessage.
Qed.



Lemma loadGlobalConfig_run (w : world Multi.Store) :
  Multi.loadGlobalConfig w = (Ok (stored_global w), w, loadGlobalConfig_trace w).
Proof.
  unfold Multi.loadGlobalConfig, stored_global, loadGlobalConfig_trace, bind, emit, ask.
  destruct (Multi.config_json (store w)); reflexivity.
Qed.











(** ** The reply dispatcher *)

(** The single-tenant dispatcher refuses an absent, placeholder or masked
    credential: it logs the error and issues no request. *)
Lemma single_sendAutoReply_guard (senderId replyText pageAccessToken : jsval)
    (w : world Single.Store) :
  truthy pageAccessToken = false
  \/ pageAccessToken = JStr "YOUR_PAGE_ACCESS_TOKEN"
  \/ masked pageAccessToken = true ->
  Single.sendAutoReply senderId replyText pageAccessToken w =
    logMessage "ERROR" (JObj [("msg", JStr "PAGE_ACCESS_TOKEN not configured")]) w.
Proof.
  intros Hbad. unfold Single.sendAutoReply.
  destruct (truthy pageAccessToken) eqn:Htruthy; simpl.
  - destruct (strict_eq pageAccessToken (JStr "YOUR_PAGE_ACCESS_TOKEN")) eqn:Hph.
    + reflexivity.
    + destruct Hbad as [Hf | [-> | Hmask]]; [discriminate | discriminate |].
      rewrite (masked_startsWith "pageAccessToken" _ Hmask). reflexivity.
  - reflexivity.
Qed.

(** The multi-tenant dispatcher refuses an absent credential. *)
Lemma multi_sendAutoReply_absent (senderId replyText pageAccessToken : jsval)
    (w : world Multi.Store) :
  truthy pageAccessToken = false ->
  Multi.sendAutoReply senderId replyText pageAccessToken w =
    logMessage "ERROR" (JObj [("msg", JStr "PAGE_ACCESS_TOKEN not configured")]) w.
Proof. intros Hf. unfold Multi.sendAutoReply. now rewrite Hf. Qed.

(** C7. The multi-tenant dispatcher checks only for an absent credential:
    called with a masked credential or with the placeholder it issues the
    request to the message-send endpoint, and so does the whole webhook
    handler for a page stored with the placeholder as its token. *)
Theorem C7_multi_dispatcher_sends_with_masked_or_placeholder_credential :
  let w := sample_world
             (sample_pages_store
                [Multi.with_pageAccessToken (JStr "YOUR_PAGE_ACCESS_TOKEN") sample_page])
             [] (api_answers (JStr "Hi!")) in
  send_requests (trace (Multi.sendAutoReply (JStr "user_1") (JStr "Hi!")
                          (JStr "***cret") w))
  = [{| sr_recipient := JStr "user_1"; sr_text := JStr "Hi!";
        sr_access_token := JStr "***cret" |}]
  /\ send_requests (trace (Multi.sendAutoReply (JStr "user_1") (JStr "Hi!")
                             (JStr "YOUR_PAGE_ACCESS_TOKEN") w))
     = [{| sr_recipient := JStr "user_1"; sr_text := JStr "Hi!";
           sr_access_token := JStr "YOUR_PAGE_ACCESS_TOKEN" |}]
  /\ send_requests
       (trace (Multi.post_webhook
                 (JObj [("object", JStr "page");
                        ("entry",
                         JArr [JObj [("id", JStr "page_1");
                                     ("messaging",
                                      JArr [JObj [("sender", JObj [("id", JStr "user_1")]);
                                                  ("message",
                                                   JObj [("text", JStr "hello")])]])]])])
                 w))
     = [{| sr_recipient := JStr "user_1"; sr_text := JStr "Hi!";
           sr_access_token := JStr "YOUR_PAGE_ACCESS_TOKEN" |}].
Proof. vm_compute. repeat split. Qed.

(** ** Knowledge loading and matching *)

Lemma read_md_files_run {St : Type} (dir : path) (dirFiles : list string) (w : world St) :
  forall files, exists r t,
    read_md_files dir dirFiles files w = (Ok r, w, t)
    /\ Forall (fun ev => internal ev = true) t.
Proof.
  induction dirFiles as [| file rest IH]; intros files; simpl.
  - exists (files, None), []. split; [reflexivity | constructor].
  - destruct (endsWith ".md" file); [| apply IH].
    unfold bind at 1, ask. unfold bind at 1, emit.
    destruct (readFileSync (fs w) (path_join dir file)) as [content | e].
    + destruct (IH (files ++ [{| name := remove_first ".md" file; content := content |}]))
        as (r & t & Hrun & Ht).
      rewrite Hrun. eexists _, _. split; [reflexivity |].
      simpl. constructor; [reflexivity | exact Ht].
    + eexists _, _. split; [reflexivity |]. repeat constructor.
Qed.

Lemma loadKnowledgeFiles_run {St : Type} (w : world St) :
  exists t,
    loadKnowledgeFiles w = (Ok (kb_files w), w, t)
    /\ Forall (fun ev => internal ev = true) t.
Proof.
  assert (Hrun : exists files t,
             loadKnowledgeFiles w = (Ok files, w, t)
             /\ Forall (fun ev => internal ev = true) t).
  { unfold loadKnowledgeFiles.
    unfold bind at 1, ask. unfold bind at 1, emit.
    destruct (readdirSync (fs w) (KNOWLEDGE_DIR w)) as [dirFiles | e].
    - destruct (read_md_files_run (KNOWLEDGE_DIR w) dirFiles w []) as (r & t & Hr & Ht).
      unfold bind at 1. rewrite Hr.
      destruct (snd r) as [e |].
      + eexists _, _. split; [reflexivity |]. simpl.
        constructor; [reflexivity |].
        apply Forall_app. split; [exact Ht | repeat constructor].
      + eexists _, _. split; [reflexivity |]. simpl.
        constructor; [reflexivity |]. rewrite app_nil_r. exact Ht.
    - eexists _, _. split; [reflexivity |]. repeat constructor. }
  destruct Hrun as (files & t & Hrun & Ht).
  exists t. unfold kb_files. rewrite Hrun. split; [reflexivity | exact Ht].
Qed.

Lemma search_loop_string (query : string) (kbFiles : list KbFile) :
  forall relevant,
    search_loop (JStr query) kbFiles relevant =
      Ok (relevant
          ++ map content
               (List.filter
                  (fun file => is_relevant (toLowerCase (content file)) (toLowerCase query))
                  kbFiles)).
Proof.
  induction kbFiles as [| file rest IH]; intros relevant; simpl.
  - now rewrite app_nil_r.
  - destruct (is_relevant _ _); rewrite IH; [| reflexivity].
    now rewrite <- app_assoc.
Qed.

Lemma searchKnowledge_run {St : Type} (query : string) (w : world St) :
  exists t,
    searchKnowledge (JStr query) w =
      (Ok (join KB_SEPARATOR
             (map content
                (List.filter
                   (fun file =>
                      is_relevant (toLowerCase (content file)) (toLowerCase query))
                   (kb_files w)))), w, t)
    /\ Forall (fun ev => internal ev = true) t.
Proof.
  destruct (loadKnowledgeFiles_run w) as (t & Hload & Ht).
  exists t. split; [| exact Ht].
  unfold searchKnowledge.
  rewrite (bind_run _ _ _ _ _ _ Hload), bind_lift, search_loop_string.
  unfold continued, ret, value, after, trace. simpl. now rewrite app_nil_r.
Qed.

(** ** The handling of one messaging item *)







(** ** Strings *)

Lemma startsWith_spec (p s : string) :
  startsWith p s = true <-> exists rest, s = p +:+ rest.
Proof.
  revert s. induction p as [| a p IH]; intros s; simpl.
  - split; [intros _; now exists s | reflexivity].
  - destruct s as [| b s]; [split; [discriminate | intros [rest [=]]] |].
    rewrite andb_true_iff, Ascii.eqb_eq, IH. split.
    + intros [-> [rest ->]]. now exists rest.
    + intros [rest [= -> ->]]. split; [reflexivity | now exists rest].
Qed.

Lemma includes_spec (s t : string) : includes s t = true <-> substring t s.
Proof.
  unfold substring. induction s as [| c s IH].
  - simpl. rewrite orb_false_r, startsWith_spec. split.
    + intros [rest ->]. now exists "", rest.
    + intros ([| b before] & rest & Heq); [now exists rest | discriminate].
  - cbn [includes]. rewrite orb_true_iff, startsWith_spec, IH. split.
    + intros [[rest ->] | (before & rest & ->)].
      * now exists "", rest.
      * now exists (String c before), rest.
    + intros ([| b before] & rest & Heq).
      * left. now exists rest.
      * right. injection Heq as -> ->. now exists before, rest.
Qed.

Lemma split_nonempty (sep : ascii) (s : string) : split sep s <> [].
Proof.
  destruct s as [| c s]; simpl; [discriminate |].
  destruct (Ascii.eqb c sep); [discriminate |].
  destruct (split sep s); discriminate.
Qed.

Lemma join_cons (sep p : string) (rest : list string) :
  rest <> [] -> join sep (p :: rest) = p +:+ sep +:+ join sep rest.
Proof. destruct rest; [contradiction | reflexivity]. Qed.

Lemma join_split (sep : ascii) (s : string) :
  join (String sep "") (split sep s) = s.
Proof.
  induction s as [| c s IH]; [reflexivity |].
  cbn [split]. pose proof (split_nonempty sep s) as Hne.
  destruct (Ascii.eqb c sep) eqn:Hc.
  - apply Ascii.eqb_eq in Hc. subst c.
    rewrite (join_cons _ _ _ Hne), IH. reflexivity.
  - destruct (split sep s) as [| w ws]; [contradiction |].
    destruct ws as [| w' ws].
    + cbn [join] in *. now rewrite IH.
    + rewrite join_cons in * by discriminate. now rewrite <- IH.
Qed.

Lemma split_no_sep (sep : ascii) (s : string) :
  string_forallb (fun c => negb (Ascii.eqb c sep)) s = true -> split sep s = [s].
Proof.
  induction s as [| c s IH]; [reflexivity |].
  cbn [string_forallb split]. intros [Hc Hs]%andb_true_iff.
  apply negb_true_iff in Hc. rewrite Hc, (IH Hs). reflexivity.
Qed.

Lemma split_app_sep (sep : ascii) (tok rest : string) :
  string_forallb (fun c => negb (Ascii.eqb c sep)) tok = true ->
  split sep (tok +:+ String sep rest) = tok :: split sep rest.
Proof.
  induction tok as [| c tok IH]; cbn [string_forallb].
  - intros _. change ("" +:+ String sep rest) with (String sep rest).
    cbn [split]. now rewrite Ascii.eqb_refl.
  - intros [Hc Htok]%andb_true_iff. apply negb_true_iff in Hc.
    change (String c tok +:+ String sep rest) with (String c (tok +:+ String sep rest)).
    cbn [split]. rewrite Hc, (IH Htok). reflexivity.
Qed.

Lemma split_tokens_clean (sep : ascii) (s : string) :
  Forall (fun tok => string_forallb (fun c => negb (Ascii.eqb c sep)) tok = true)
    (split sep s).
Proof.
  induction s as [| c s IH]; [repeat constructor |].
  cbn [split]. destruct (Ascii.eqb c sep) eqn:Hc; [now constructor |].
  destruct (split sep s) as [| w ws]; [repeat constructor; cbn; now rewrite Hc |].
  inversion IH as [| ? ? Hw Hws]; subst.
  constructor; [| exact Hws]. cbn. now rewrite Hc, Hw.
Qed.

Lemma split_join (sep : ascii) (tokens : list string) :
  tokens <> [] ->
  Forall (fun tok => string_forallb (fun c => negb (Ascii.eqb c sep)) tok = true) tokens ->
  split sep (join (String sep "") tokens) = tokens.
Proof.
  induction tokens as [| tok rest IH]; [contradiction |].
  intros _ Hclean. inversion Hclean as [| ? ? Htok Hrest]; subst.
  destruct rest as [| tok' rest].
  - cbn [join]. now apply split_no_sep.
  - change (join (String sep "") (tok :: tok' :: rest))
      with (tok +:+ String sep (join (String sep "") (tok' :: rest))).
    rewrite (split_app_sep _ _ _ Htok), IH; [reflexivity | discriminate | exact Hrest].
Qed.

(** [split] yields exactly the space-delimited tokens. *)
Lemma split_space_delimited (s : string) (tokens : list string) :
  space_delimited s tokens <-> tokens = split " " s.
Proof.
  unfold space_delimited. split.
  - intros (-> & Hne & Hclean). symmetry. now apply split_join.
  - intros ->. split; [| split].
    + symmetry. apply join_split.
    + apply split_nonempty.
    + apply split_tokens_clean.
Qed.

Lemma is_relevant_Included (query : string) (doc : KbFile) :
  is_relevant (toLowerCase (content doc)) (toLowerCase query) = true
  <-> Included query doc.
Proof.
  unfold is_relevant, Included.
  rewrite orb_true_iff, includes_spec, existsb_exists. split.
  - intros [Hfull | (word & Hin & Hword)]; [now left | right].
    apply andb_true_iff in Hword as [Hlen Hsub].
    exists (split " " (toLowerCase query)), word. repeat split.
    + symmetry. apply join_split.
    + apply split_nonempty.
    + apply split_tokens_clean.
    + exact Hin.
    + now apply Nat.ltb_lt.
    + now apply includes_spec.
  - intros [Hfull | (tokens & word & Htokens & Hin & Hlen & Hsub)]; [now left | right].
    apply split_space_delimited in Htokens. subst tokens.
    exists word. split; [exact Hin |].
    apply andb_true_iff. split; [now apply Nat.ltb_lt | now apply includes_spec].
Qed.

Lemma filter_none {A : Type} (f : A -> bool) (l : list A) :
  (forall x, In x l -> f x = false) -> List.filter f l = [].
Proof.
  induction l as [| x l IH]; [reflexivity |].
  intros Hnone. cbn [List.filter].
  rewrite (Hnone x (or_introl eq_refl)). apply IH.
  intros y Hy. apply Hnone. now right.
Qed.

(** C4, as amended. [searchKnowledge] returns the contents of the included
    documents, in the order [loadKnowledgeFiles] yields them, joined by
    ["\n\n---\n\n"].  A document is included exactly when its lower-cased
    content contains the whole lower-cased query, or contains one of the
    pieces of the lower-cased query between single space characters that is
    longer than 3 characters; other white space does not delimit tokens.
    The result is empty when no document is included. *)
Theorem C4_search_selects_by_substring_or_space_token :
  forall (St : Type) (w : world St) (query : string),
    exists select : KbFile -> bool,
      (forall doc, select doc = true <-> Included query doc)
      /\ value (searchKnowledge (JStr query) w)
         = Ok (join KB_SEPARATOR (map content (List.filter select (kb_files w))))
      /\ ((forall doc, In doc (kb_files w) -> ~ Included query doc) ->
          value (searchKnowledge (JStr query) w) = Ok "").
Proof.
  intros St w query.
  destruct (searchKnowledge_run query w) as (t & Hrun & _).
  exists (fun doc => is_relevant (toLowerCase (content doc)) (toLowerCase query)).
  split; [| split].
  - intros doc. apply is_relevant_Included.
  - now rewrite Hrun.
  - intros Hnone. rewrite Hrun. unfold value. cbn [fst].
    rewrite filter_none; [reflexivity |].
    intros doc Hin. specialize (Hnone doc Hin).
    destruct (is_relevant _ _) eqn:Hrel; [| reflexivity].
    exfalso. apply Hnone. now apply is_relevant_Included.
Qed.

Lemma C4_search_selects_by_substring_or_space_token_witness :
  value (searchKnowledge (JStr "Refund")
           (sample_world (Missing : Single.Store) [] (api_fails "down")))
  = Ok "".
Proof.
  destruct (C4_search_selects_by_substring_or_space_token _
              (sample_world (Missing : Single.Store) [] (api_fails "down")) "Refund")
    as (select & _ & _ & Hnone).
  apply Hnone. intros doc Hin Hinc.
  apply is_relevant_Included in Hinc.
  vm_compute in Hin. destruct Hin as [<- | []].
  vm_compute in Hinc. discriminate Hinc.
Defined.

(** C4 as stated fails: a token set apart by a line break is not looked up
    on its own.  The stored document contains [world], a token of the query
    under white-space splitting, yet the search returns nothing. *)
Lemma C4_newline_does_not_delimit_tokens :
  let w := sample_world (Missing : Single.Store) [] (api_fails "down") in
  let query := "hi" +:+ nl +:+ "world" in
  kb_files w = [{| name := "hours"; content := "Hello World" |}]
  /\ included_whitespace query {| name := "hours"; content := "Hello World" |} = true
  /\ value (searchKnowledge (JStr query) w) = Ok "".
Proof. vm_compute. repeat split. Qed.

(** ** Knowledge upsert *)

Lemma string_forallb_append (p : ascii -> bool) (a b : string) :
  string_forallb p (a +:+ b) = string_forallb p a && string_forallb p b.
Proof.
  induction a as [| c a IH]; [reflexivity |].
  change (String c a +:+ b) with (String c (a +:+ b)).
  cbn [string_forallb]. now rewrite IH, andb_assoc.
Qed.

Lemma string_forallb_impl (p q : ascii -> bool) (s : string) :
  (forall c, p c = true -> q c = true) ->
  string_forallb p s = true -> string_forallb q s = true.
Proof.
  intros Hpq. induction s as [| c s IH]; [reflexivity |].
  cbn [string_forallb]. intros [Hc Hs]%andb_true_iff.
  now rewrite (Hpq c Hc), (IH Hs).
Qed.

Lemma sanitize_safe (name : string) : string_forallb safe_char (sanitize name) = true.
Proof.
  unfold sanitize. induction name as [| c name IH]; [reflexivity |].
  cbn [string_filter]. destruct (safe_char c) eqn:Hc; [| exact IH].
  cbn [string_forallb]. now rewrite Hc, IH.
Qed.

Lemma safe_char_not_slash (c : ascii) :
  safe_char c = true -> negb (Ascii.eqb c "/") = true.
Proof.
  destruct c as [[] [] [] [] [] [] [] []]; vm_compute; intros H;
    first [reflexivity | discriminate H].
Qed.

Lemma md_segment_is_a_name (stem : string) :
  let seg := stem +:+ ".md" in
  String.eqb seg "" = false /\ String.eqb seg "." = false /\ String.eqb seg ".." = false.
Proof.
  cbv zeta. repeat split; apply String.eqb_neq;
    destruct stem as [| c1 [| c2 [| c3 stem]]];
    cbv delta [String.append] fix beta iota; congruence.
Qed.

(** Joining a sanitized file name to a directory stays in that directory. *)
Lemma path_join_sanitized (dir : path) (name : string) :
  path_join dir (sanitize name +:+ ".md") = dir ++ [sanitize name +:+ ".md"].
Proof.
  unfold path_join. rewrite split_no_sep.
  - cbn [fold_left]. unfold path_step.
    destruct (md_segment_is_a_name (sanitize name)) as (-> & -> & ->). reflexivity.
  - rewrite string_forallb_append, andb_true_iff. split; [| reflexivity].
    apply (string_forallb_impl safe_char); [apply safe_char_not_slash |].
    apply sanitize_safe.
Qed.

Lemma dirname_of_child (dir : path) (seg : string) : dirname_of (dir ++ [seg]) = dir.
Proof. apply removelast_last. Qed.

Lemma bind_ask {St B : Type} (k : world St -> M St B) (w : world St) :
  bind ask k w = k w w.
Proof. unfold bind, ask. destruct (k w w) as [[r w2] t2]. reflexivity. Qed.

Lemma bind_emit {St B : Type} (ev : event) (k : unit -> M St B) (w : world St) :
  bind (emit ev) k w = continued [ev] (k tt w).
Proof.
  unfold bind, emit, continued, value, after, trace.
  destruct (k tt w) as [[r w2] t2]. reflexivity.
Qed.

(** What a run of [POST /api/knowledge] does to the files: nothing, or one
    write to the sanitized name inside the knowledge directory. *)
Lemma post_knowledge_outcome {St : Type} (body : jsval) (w : world St) :
  let run := post_knowledge body w in
  store (after run) = store w
  /\ ((fs (after run) = fs w /\ forall p text, ~ In (EvWriteFile p text) (trace run))
      \/ exists name text,
           get body "name" = Ok (JStr name)
           /\ name <> ""
           /\ (fs (after run) = fs w
               \/ fs (after run)
                  = <[KNOWLEDGE_DIR w ++ [sanitize name +:+ ".md"] := File text]> (fs w))
           /\ forall p text',
                In (EvWriteFile p text') (trace run) ->
                p = KNOWLEDGE_DIR w ++ [sanitize name +:+ ".md"]).
Proof.
  cbv zeta. unfold post_knowledge.
  rewrite bind_lift.
  destruct (get body "name") as [name | e] eqn:Hname; cbv beta iota;
    [| split; [reflexivity | left; split; [reflexivity | intros p text []]]].
  rewrite bind_lift.
  destruct (get body "content") as [content | e] eqn:Hcontent; cbv beta iota;
    [| split; [reflexivity | left; split; [reflexivity | intros p text []]]].
  destruct (truthy name) eqn:Htruthy; cbn [negb].
  2: { split; [reflexivity | left; split; [reflexivity |]].
       intros p text [[=] | []]. }
  rewrite bind_lift.
  destruct name as [| | | | name | |]; cbn [call_sanitize];
    try (split; [reflexivity | left; split; [reflexivity | intros p text []]]).
  rewrite bind_ask, path_join_sanitized.
  assert (Hne : name <> "") by (intros ->; discriminate Htruthy).
  destruct (js_or content (JStr "")) as [| | | | text | |];
    try (split; [reflexivity | left; split; [reflexivity | intros p text []]]).
  rewrite bind_emit, bind_lift.
  destruct (writeFileSync (fs w) _ text) as [fs' |] eqn:Hwrite.
  - split; [reflexivity | right]. exists name, text.
    split; [reflexivity | split; [exact Hne | split]].
    + right. unfold writeFileSync in Hwrite.
      destruct (fs w !! _) as [[] |]; try discriminate;
        destruct (fs w !! _) as [[] |]; try discriminate;
        injection Hwrite as <-; reflexivity.
    + intros p text' [[= <- _] | [[=] | []]]. reflexivity.
  - split; [reflexivity | right]. exists name, text.
    split; [reflexivity | split; [exact Hne | split]].
    + left. reflexivity.
    + intros p text' [[= <- _] | []]. reflexivity.
Qed.

(** Without the sanitization a crafted name would leave the directory. *)
Example unsanitized_name_escapes :
  path_join ["srv"; "bot"; "data"; "knowledge"] "../pages.json/../../x.md"
  = ["srv"; "bot"; "x.md"].
Proof. reflexivity. Qed.

(** C9. [POST /api/knowledge] builds the file name from the name with every
    character outside [[A-Za-z0-9-_]] removed, followed by [.md], and writes
    at most that one file, directly inside the knowledge directory: every
    path whose directory is not the knowledge directory keeps its content
    (or absence), and the stored configuration is untouched. *)
Theorem C9_knowledge_upsert_stays_in_knowledge_dir :
  forall (St : Type) (w : world St) (body : jsval),
    let run := post_knowledge body w in
    (forall p, dirname_of p <> KNOWLEDGE_DIR w -> fs (after run) !! p = fs w !! p)
    /\ store (after run) = store w
    /\ (forall p text,
          In (EvWriteFile p text) (trace run) ->
          exists name,
            get body "name" = Ok (JStr name)
            /\ p = KNOWLEDGE_DIR w ++ [sanitize name +:+ ".md"]
            /\ dirname_of p = KNOWLEDGE_DIR w
            /\ string_forallb safe_char (sanitize name) = true).
Proof.
  intros St w body run. subst run.
  destruct (post_knowledge_outcome body w)
    as [Hstore [[Hfs Hquiet] | (name & text & Hname & _ & Hfs & Hwrites)]].
  - split; [| split; [exact Hstore |]].
    + intros p _. now rewrite Hfs.
    + intros p text Hin. now apply Hquiet in Hin.
  - split; [| split; [exact Hstore |]].
    + intros p Hp. destruct Hfs as [-> | ->]; [reflexivity |].
      apply lookup_insert_ne. intros <-. apply Hp, dirname_of_child.
    + intros p text' Hin. apply Hwrites in Hin. subst p.
      exists name. repeat split; try assumption.
      * apply dirname_of_child.
      * apply sanitize_safe.
Qed.

Lemma C9_knowledge_upsert_stays_in_knowledge_dir_witness :
  let w := sample_world (Missing : Single.Store) [] (api_fails "down") in
  let run := post_knowledge (JObj [("name", JStr "a/b.md"); ("content", JStr "x")]) w in
  fs (after run) !! ["srv"; "bot"; "data"; "pages.json"]
  = fs w !! ["srv"; "bot"; "data"; "pages.json"]
  /\ fs (after run) !! ["srv"; "bot"; "data"; "knowledge"; "abmd.md"] = Some (File "x")
  /\ trace run
     = [EvWriteFile ["srv"; "bot"; "data"; "knowledge"; "abmd.md"] "x";
        EvRespond 200 (JObj [("success", JBool true)])].
Proof.
  intros w run. split; [| split; reflexivity].
  apply (proj1 (C9_knowledge_upsert_stays_in_knowledge_dir _ w
                  (JObj [("name", JStr "a/b.md"); ("content", JStr "x")]))).
  vm_compute. discriminate.
Defined.

(** * Properties of the management API and of the handlers' effects *)

(** ** Runs related to their worlds *)

Section Respects.
Context {St : Type} (R : world St -> list event -> world St -> Prop).
Hypothesis R_refl : forall w, R w [] w.
Hypothesis R_trans :
  forall w t1 w1 t2 w2, R w t1 w1 -> R w1 t2 w2 -> R w (t1 ++ t2) w2.

Lemma respects_ret {A : Type} (a : A) : respects R (ret a).
Proof. intros w. apply R_refl. Qed.

Lemma respects_throw {A : Type} (e : exn) : respects R (throw e : M St A).
Proof. intros w. apply R_refl. Qed.

Lemma respects_lift {A : Type} (r : result A) : respects R (lift r).
Proof. intros w. apply R_refl. Qed.

Lemma respects_ask : respects R ask.
Proof. intros w. apply R_refl. Qed.

Lemma respects_bind {A B : Type} (m : M St A) (k : A -> M St B) :
  respects R m -> (forall a, respects R (k a)) -> respects R (bind m k).
Proof.
  intros Hm Hk w. rewrite run_bind.
  destruct (value (m w)) as [a | e].
  - unfold continued, trace at 1, after at 1. cbn [fst snd].
    eapply R_trans; [apply Hm | apply Hk].
  - apply Hm.
Qed.

Lemma respects_try_catch {A : Type} (body : M St A) (handler : exn -> M St A) :
  respects R body -> (forall e, respects R (handler e)) ->
  respects R (try_catch body handler).
Proof.
  intros Hbody Hhandler w. unfold try_catch.
  pose proof (Hbody w) as Hb. unfold trace, after in *.
  destruct (body w) as [[[a | e] w1] t1]; cbn [fst snd] in *; [exact Hb |].
  pose proof (Hhandler e w1) as Hh. unfold trace, after in Hh.
  destruct (handler e w1) as [[r w2] t2]; cbn [fst snd] in *.
  eapply R_trans; eassumption.
Qed.

Lemma respects_for_each {A : Type} (items : list A) (body : A -> M St unit) :
  (forall x, respects R (body x)) -> respects R (for_each items body).
Proof.
  intros Hbody. induction items as [| x rest IH]; simpl.
  - apply respects_ret.
  - apply respects_bind; [apply Hbody | intros _; exact IH].
Qed.

Hypothesis R_event : forall w ev, internal ev = true -> R w [ev] w.
Hypothesis R_respond : forall w code body, R w [EvRespond code body] w.

Lemma respects_emit (ev : event) : internal ev = true -> respects R (emit ev).
Proof. intros Hev w. now apply R_event. Qed.

Lemma respects_respond (code : Z) (body : jsval) : respects R (respond code body).
Proof. intros w. apply R_respond. Qed.

Lemma respects_read_md_files (dir : path) (dirFiles : list string) :
  forall files, respects R (read_md_files dir dirFiles files).
Proof.
  induction dirFiles as [| file rest IH]; intros files; simpl.
  - apply respects_ret.
  - destruct (endsWith ".md" file); [| apply IH].
    apply respects_bind; [apply respects_ask | intros w].
    apply respects_bind; [now apply respects_emit | intros _].
    destruct (readFileSync _ _); [apply IH | apply respects_ret].
Qed.

Lemma respects_loadKnowledgeFiles : respects R loadKnowledgeFiles.
Proof.
  unfold loadKnowledgeFiles.
  apply respects_bind; [apply respects_ask | intros w].
  apply respects_bind; [now apply respects_emit | intros _].
  destruct (readdirSync _ _) as [dirFiles | e].
  - apply respects_bind; [apply respects_read_md_files | intros r].
    destruct (snd r); [| apply respects_ret].
    apply respects_bind; [now apply respects_emit | intros _; apply respects_ret].
  - apply respects_bind; [now apply respects_emit | intros _; apply respects_ret].
Qed.

Lemma respects_searchKnowledge (query : jsval) : respects R (searchKnowledge query).
Proof.
  unfold searchKnowledge.
  apply respects_bind; [apply respects_loadKnowledgeFiles | intros kbFiles].
  apply respects_bind; [apply respects_lift | intros relevant; apply respects_ret].
Qed.

Hypothesis R_log :
  forall w type d, R w [EvLog type d] (after (logMessage type d w)).
Hypothesis R_completion : forall w req, R w [EvCompletionRequest req] (tick w).
Hypothesis R_send : forall w req, R w [EvSendRequest req] (tick w).

Lemma respects_logMessage (type : string) (d : jsval) : respects R (logMessage type d).
Proof. intros w. apply R_log. Qed.

Lemma respects_completion_call (req : CompletionRequest) :
  respects R (completion_call req).
Proof.
  intros w.
  destruct (completion_call_run req w) as (aiResult & t & Hrun & _ & Ht).
  rewrite Hrun. unfold trace, after. cbn [fst snd].
  change (EvCompletionRequest req :: t) with ([EvCompletionRequest req] ++ t).
  eapply R_trans; [apply R_completion |].
  clear Hrun. induction Ht as [| ev t Hev _ IH]; [apply R_refl |].
  change (ev :: t) with ([ev] ++ t). eapply R_trans; [now apply R_event | exact IH].
Qed.

Lemma respects_deliver (senderId replyText pageAccessToken : jsval) :
  respects R (deliver senderId replyText pageAccessToken).
Proof.
  unfold deliver. apply respects_try_catch.
  - apply respects_bind; [| intros _; apply respects_logMessage].
    intros w. unfold post_message, bind, emit, ask, update, ret, throw, trace, after.
    destruct (graph_api w (ticks w) _); cbn [fst snd app]; apply R_send.
  - intros e. apply respects_logMessage.
Qed.

End Respects.

Section SingleRespects.
Context (R : world Single.Store -> list event -> world Single.Store -> Prop).
Hypothesis R_refl : forall w, R w [] w.
Hypothesis R_trans :
  forall w t1 w1 t2 w2, R w t1 w1 -> R w1 t2 w2 -> R w (t1 ++ t2) w2.
Hypothesis R_event : forall w ev, internal ev = true -> R w [ev] w.
Hypothesis R_respond : forall w code body, R w [EvRespond code body] w.
Hypothesis R_log :
  forall w type d, R w [EvLog type d] (after (logMessage type d w)).
Hypothesis R_completion : forall w req, R w [EvCompletionRequest req] (tick w).
Hypothesis R_send : forall w req, R w [EvSendRequest req] (tick w).

Lemma respects_single_loadConfig : respects R Single.loadConfig.
Proof.
  intros w. rewrite loadConfig_run. unfold trace, after, loadConfig_trace. cbn [fst snd].
  change (R w ([EvReadStore "config.json"]
               ++ match store w with
                  | Corrupt e => [EvConsoleError "Load config error:" e]
                  | _ => []
                  end) w).
  eapply R_trans; [now apply R_event |].
  destruct (store w); try apply R_refl. now apply R_event.
Qed.

Lemma respects_single_generateAIResponse (userMessage : jsval) (kbContext : string) :
  respects R (Single.generateAIResponse userMessage kbContext).
Proof.
  unfold Single.generateAIResponse.
  apply respects_bind; [assumption | apply respects_single_loadConfig | intros config].
  destruct (negb _); [now apply respects_ret |].
  now apply respects_completion_call.
Qed.

Lemma respects_single_sendAutoReply (senderId replyText pageAccessToken : jsval) :
  respects R (Single.sendAutoReply senderId replyText pageAccessToken).
Proof.
  unfold Single.sendAutoReply. apply respects_bind; [assumption | |].
  - destruct (negb _); [now apply respects_ret |].
    destruct (strict_eq _ _); [now apply respects_ret | now apply respects_lift].
  - intros [|]; [now apply respects_logMessage | now apply respects_deliver].
Qed.

Lemma respects_single_handle_messaging (config : Single.Config) (messaging : jsval) :
  respects R (Single.handle_messaging config messaging).
Proof.
  unfold Single.handle_messaging.
  do 3 (apply respects_bind; [assumption | now apply respects_lift | intros ?]).
  destruct (_ && _); [| now apply respects_ret].
  apply respects_bind; [assumption | now apply respects_logMessage | intros _].
  apply respects_bind; [assumption | now apply respects_searchKnowledge | intros kb].
  apply respects_bind;
    [assumption | apply respects_single_generateAIResponse | intros aiResult].
  destruct (truthy _); [apply respects_single_sendAutoReply |].
  destruct (truthy _); [| now apply respects_ret].
  apply respects_bind; [assumption | apply respects_single_sendAutoReply | intros _].
  now apply respects_logMessage.
Qed.

Lemma respects_single_post_webhook (body : jsval) :
  respects R (Single.post_webhook body).
Proof.
  unfold Single.post_webhook.
  apply respects_bind; [assumption | apply respects_single_loadConfig | intros config].
  apply respects_bind; [assumption | now apply respects_logMessage | intros _].
  apply respects_bind; [assumption | now apply respects_respond | intros _].
  apply respects_bind; [assumption | now apply respects_lift | intros object].
  destruct (strict_eq _ _); [| now apply respects_ret].
  do 2 (apply respects_bind; [assumption | now apply respects_lift | intros ?]).
  apply respects_for_each; [assumption .. |]. intros entry.
  unfold Single.handle_entry.
  do 2 (apply respects_bind; [assumption | now apply respects_lift | intros ?]).
  apply respects_for_each; [assumption .. |]. intros messaging.
  apply respects_single_handle_messaging.
Qed.

Lemma respects_single_get_webhook (mode token challenge : jsval) :
  respects R (Single.get_webhook mode token challenge).
Proof.
  unfold Single.get_webhook.
  apply respects_bind; [assumption | apply respects_single_loadConfig | intros config].
  apply respects_bind; [assumption | now apply respects_logMessage | intros _].
  destruct (_ && _);
    (apply respects_bind; [assumption | now apply respects_emit | intros _]);
    now apply respects_respond.
Qed.

End SingleRespects.

Section MultiRespects.
Context (R : world Multi.Store -> list event -> world Multi.Store -> Prop).
Hypothesis R_refl : forall w, R w [] w.
Hypothesis R_trans :
  forall w t1 w1 t2 w2, R w t1 w1 -> R w1 t2 w2 -> R w (t1 ++ t2) w2.
Hypothesis R_event : forall w ev, internal ev = true -> R w [ev] w.
Hypothesis R_respond : forall w code body, R w [EvRespond code body] w.
Hypothesis R_log :
  forall w type d, R w [EvLog type d] (after (logMessage type d w)).
Hypothesis R_completion : forall w req, R w [EvCompletionRequest req] (tick w).
Hypothesis R_send : forall w req, R w [EvSendRequest req] (tick w).

Lemma respects_multi_loadPages : respects R Multi.loadPages.
Proof.
  intros w. rewrite loadPages_run. unfold trace, after, loadPages_trace. cbn [fst snd].
  change (R w ([EvReadStore "pages.json"]
               ++ match Multi.pages_json (store w) with
                  | Corrupt e => [EvConsoleError "Load pages error:" e]
                  | _ => []
                  end) w).
  eapply R_trans; [now apply R_event |].
  destruct (Multi.pages_json (store w)); try apply R_refl. now apply R_event.
Qed.

Lemma respects_multi_loadGlobalConfig : respects R Multi.loadGlobalConfig.
Proof.
  intros w. rewrite loadGlobalConfig_run.
  unfold trace, after, loadGlobalConfig_trace. cbn [fst snd].
  change (R w ([EvReadStore "config.json"]
               ++ match Multi.config_json (store w) with
                  | Corrupt e => [EvConsoleError "Load config error:" e]
                  | _ => []
                  end) w).
  eapply R_trans; [now apply R_event |].
  destruct (Multi.config_json (store w)); try apply R_refl. now apply R_event.
Qed.

Lemma respects_multi_generateAIResponse (userMessage : jsval) (kbContext : string)
    (pageId : jsval) :
  respects R (Multi.generateAIResponse userMessage kbContext pageId).
Proof.
  unfold Multi.generateAIResponse.
  apply respects_bind; [assumption | apply respects_multi_loadGlobalConfig | intros c].
  apply respects_bind; [assumption | apply respects_multi_loadPages | intros pages].
  destruct (negb _); [now apply respects_ret |].
  now apply respects_completion_call.
Qed.

Lemma respects_multi_sendAutoReply (senderId replyText pageAccessToken : jsval) :
  respects R (Multi.sendAutoReply senderId replyText pageAccessToken).
Proof.
  unfold Multi.sendAutoReply.
  destruct (negb _); [now apply respects_logMessage | now apply respects_deliver].
Qed.

Lemma respects_multi_handle_messaging (pageConfig : Multi.Page) (messaging : jsval) :
  respects R (Multi.handle_messaging pageConfig messaging).
Proof.
  unfold Multi.handle_messaging.
  do 3 (apply respects_bind; [assumption | now apply respects_lift | intros ?]).
  destruct (_ && _); [| now apply respects_ret].
  apply respects_bind; [assumption | now apply respects_logMessage | intros _].
  apply respects_bind; [assumption | now apply respects_searchKnowledge | intros kb].
  apply respects_bind;
    [assumption | apply respects_multi_generateAIResponse | intros aiResult].
  destruct (truthy _); [apply respects_multi_sendAutoReply |].
  destruct (truthy _); [| now apply respects_ret].
  apply respects_bind; [assumption | apply respects_multi_sendAutoReply | intros _].
  now apply respects_logMessage.
Qed.

Lemma respects_multi_handle_entry (entry : jsval) :
  respects R (Multi.handle_entry entry).
Proof.
  unfold Multi.handle_entry.
  apply respects_bind; [assumption | now apply respects_lift | intros pageId].
  apply respects_bind; [assumption | apply respects_multi_loadPages | intros pages].
  apply respects_bind; [assumption | now apply respects_lift | intros [pageConfig |]].
  - destruct (negb _); [now apply respects_logMessage |].
    do 2 (apply respects_bind; [assumption | now apply respects_lift | intros ?]).
    apply respects_for_each; [assumption .. |]. intros messaging.
    apply respects_multi_handle_messaging.
  - now apply respects_logMessage.
Qed.

Lemma respects_multi_post_webhook (body : jsval) :
  respects R (Multi.post_webhook body).
Proof.
  unfold Multi.post_webhook.
  apply respects_bind; [assumption | now apply respects_logMessage | intros _].
  apply respects_bind; [assumption | now apply respects_respond | intros _].
  apply respects_bind; [assumption | now apply respects_lift | intros object].
  destruct (strict_eq _ _); [| now apply respects_ret].
  do 2 (apply respects_bind; [assumption | now apply respects_lift | intros ?]).
  apply respects_for_each; [assumption .. |]. intros entry.
  apply respects_multi_handle_entry.
Qed.

Lemma respects_multi_get_webhook (mode token challenge : jsval) :
  respects R (Multi.get_webhook mode token challenge).
Proof.
  unfold Multi.get_webhook.
  apply respects_bind; [assumption | apply respects_multi_loadPages | intros pages].
  apply respects_bind; [assumption | now apply respects_logMessage | intros _].
  destruct (_ && _);
    (apply respects_bind; [assumption | now apply respects_emit | intros _]);
    now apply respects_respond.
Qed.

End MultiRespects.

(** ** What the webhook handlers leave behind *)

Lemma keeps_storage_refl {St : Type} (w : world St) : keeps_storage w [] w.
Proof. split; reflexivity. Qed.

Lemma keeps_storage_trans {St : Type} (w : world St) t1 w1 t2 w2 :
  keeps_storage w t1 w1 -> keeps_storage w1 t2 w2 -> keeps_storage w (t1 ++ t2) w2.
Proof. intros [Hs1 Hf1] [Hs2 Hf2]. split; congruence. Qed.

(** Neither webhook handler of either server writes to the stored
    configuration or to the files, whatever the request, the stored state
    and the answers of the two remote endpoints. *)
Theorem webhook_handlers_keep_storage :
  forall body mode token challenge : jsval,
    (forall w : world Multi.Store,
        keeps_storage w (trace (Multi.post_webhook body w))
          (after (Multi.post_webhook body w))
        /\ keeps_storage w (trace (Multi.get_webhook mode token challenge w))
             (after (Multi.get_webhook mode token challenge w)))
    /\ (forall w : world Single.Store,
        keeps_storage w (trace (Single.post_webhook body w))
          (after (Single.post_webhook body w))
        /\ keeps_storage w (trace (Single.get_webhook mode token challenge w))
             (after (Single.get_webhook mode token challenge w))).
Proof.
  intros body mode token challenge.
  split; intros w; split;
    first [ apply respects_multi_post_webhook | apply respects_multi_get_webhook
          | apply respects_single_post_webhook | apply respects_single_get_webhook ];
    first [ exact keeps_storage_refl | exact keeps_storage_trans
          | intros; split; reflexivity ].
Qed.

Lemma take_app_take {A : Type} (n : nat) (a b : list A) :
  take n (a ++ take n b) = take n (a ++ b).
Proof.
  rewrite !take_app. f_equal.
  rewrite take_take. f_equal. lia.
Qed.

Lemma log_lines_app (t1 t2 : list event) :
  log_lines (t1 ++ t2) = log_lines t1 ++ log_lines t2.
Proof. apply omap_app. Qed.

Lemma keeps_recent_lines_refl {St : Type} (w : world St) : keeps_recent_lines w [] w.
Proof.
  intros Hlen. simpl. symmetry. apply take_ge. now rewrite length_map.
Qed.

Lemma keeps_recent_lines_trans {St : Type} (w : world St) t1 w1 t2 w2 :
  keeps_recent_lines w t1 w1 -> keeps_recent_lines w1 t2 w2 ->
  keeps_recent_lines w (t1 ++ t2) w2.
Proof.
  intros H1 H2 Hlen. specialize (H1 Hlen).
  assert (Hlen1 : length (messageLog w1) <= 100).
  { rewrite <- (length_map entry_line), H1, length_take. lia. }
  rewrite (H2 Hlen1), H1, take_app_take, log_lines_app, rev_app_distr, app_assoc.
  reflexivity.
Qed.

Lemma keeps_recent_lines_silent {St : Type} (w w' : world St) (t : list event) :
  log_lines t = [] -> messageLog w' = messageLog w -> keeps_recent_lines w t w'.
Proof.
  intros Ht Hlog Hlen. rewrite Ht, Hlog. simpl. symmetry.
  apply take_ge. now rewrite length_map.
Qed.

Lemma keeps_recent_lines_log {St : Type} (w : world St) (type : string) (d : jsval) :
  keeps_recent_lines w [EvLog type d] (after (logMessage type d w)).
Proof.
  intros Hlen. rewrite logMessage_messageLog. unfold push_entry. cbn [log_lines omap rev app].
  destruct (100 <? length (_ :: messageLog w)) eqn:Hfull.
  - apply Nat.ltb_lt in Hfull. cbn [length] in Hfull.
    rewrite removelast_firstn_len. cbn [length Init.Nat.pred].
    replace (length (messageLog w)) with 100 by lia.
    rewrite <- firstn_map. reflexivity.
  - apply Nat.ltb_ge in Hfull. cbn [length] in Hfull.
    symmetry. apply take_ge. cbn. rewrite length_map. lia.
Qed.

(** After a webhook handler of either server has run on a buffer within
    its cap, the buffer holds exactly the most recent log lines: the lines
    the run logged, newest first, followed by the earlier ones, cut at 100
    entries. *)
Theorem webhook_handlers_keep_recent_lines :
  forall body mode token challenge : jsval,
    (forall w : world Multi.Store,
        keeps_recent_lines w (trace (Multi.post_webhook body w))
          (after (Multi.post_webhook body w))
        /\ keeps_recent_lines w (trace (Multi.get_webhook mode token challenge w))
             (after (Multi.get_webhook mode token challenge w)))
    /\ (forall w : world Single.Store,
        keeps_recent_lines w (trace (Single.post_webhook body w))
          (after (Single.post_webhook body w))
        /\ keeps_recent_lines w (trace (Single.get_webhook mode token challenge w))
             (after (Single.get_webhook mode token challenge w))).
Proof.
  intros body mode token challenge.
  split; intros w; split;
    first [ apply respects_multi_post_webhook | apply respects_multi_get_webhook
          | apply respects_single_post_webhook | apply respects_single_get_webhook ];
    first [ exact keeps_recent_lines_refl | exact keeps_recent_lines_trans
          | exact keeps_recent_lines_log
          | intros; apply keeps_recent_lines_silent;
            [ match goal with
              | H : internal ?ev = true |- _ => destruct ev; try discriminate H
              | _ => idtac
              end; reflexivity
            | reflexivity ] ].
Qed.

Lemma webhook_handlers_keep_recent_lines_witness :
  let w := sample_world (Parsed sample_config) [sample_entry] (api_fails "down") in
  let run := Single.get_webhook (JStr "subscribe") (JStr "T1") (JStr "c") w in
  length (messageLog w) <= 100
  /\ map entry_line (messageLog (after run))
     = [("VERIFY", JObj [("mode", JStr "subscribe"); ("tokenMatch", JBool true)]);
        ("SENT", JNull)].
Proof.
  intros w run.
  assert (Hlen : length (messageLog w) <= 100) by (cbn; lia).
  split; [exact Hlen |].
  destruct (webhook_handlers_keep_recent_lines JNull (JStr "subscribe") (JStr "T1")
              (JStr "c")) as [_ Hsingle].
  destruct (Hsingle w) as [_ Hget].
  exact (Hget Hlen).
Defined.

(** ** Pages that are disabled, credentials that are unusable *)

Lemma find_r_In {A : Type} (pred : A -> result bool) (items : list A) (x : A) :
  find_r pred items = Ok (Some x) -> In x items /\ pred x = Ok true.
Proof.
  induction items as [| y rest IH]; simpl; [discriminate |].
  destruct (pred y) as [[|] | e] eqn:Hy; [| | discriminate].
  - intros [= <-]. split; [now left | exact Hy].
  - intros Hfind. destruct (IH Hfind) as [Hin Hx]. split; [now right | exact Hx].
Qed.

Lemma multi_handle_entry_disabled (entry : jsval) (w : world Multi.Store) :
  all_disabled w ->
  Forall idle (trace (Multi.handle_entry entry w))
  /\ store (after (Multi.handle_entry entry w)) = store w.
Proof.
  intros Hdisabled. unfold Multi.handle_entry.
  rewrite bind_lift. destruct (get entry "id") as [pageId | e]; [| split; constructor].
  rewrite (bind_run _ _ _ _ _ _ (loadPages_run w)), bind_lift.
  assert (Hload : Forall idle (loadPages_trace w)).
  { unfold loadPages_trace. destruct (Multi.pages_json (store w)); repeat constructor. }
  destruct (find_r (Multi.owns pageId) (stored_pages w)) as [[pageConfig |] | e] eqn:Hfind.
  - apply find_r_In in Hfind as [Hin _].
    unfold all_disabled in Hdisabled. rewrite Forall_forall in Hdisabled.
    apply list_elem_of_In in Hin.
    rewrite (Hdisabled pageConfig Hin). cbn [negb].
    split; [| reflexivity].
    unfold continued, trace. cbn [snd]. apply Forall_app. split; [exact Hload |].
    repeat constructor.
  - split; [| reflexivity].
    unfold continued, trace. cbn [snd]. apply Forall_app. split; [exact Hload |].
    repeat constructor.
  - split; [| reflexivity].
    unfold continued, trace. cbn [snd]. now rewrite app_nil_r.
Qed.

Lemma multi_entries_disabled (entries : list jsval) :
  forall w : world Multi.Store,
    all_disabled w ->
    Forall idle (trace (for_each entries Multi.handle_entry w)).
Proof.
  induction entries as [| entry rest IH]; intros w Hdisabled; [constructor |].
  cbn [for_each]. rewrite run_bind.
  destruct (multi_handle_entry_disabled entry w Hdisabled) as [Hidle Hstore].
  destruct (value (Multi.handle_entry entry w)); [| exact Hidle].
  unfold continued, trace at 1. cbn [snd]. apply Forall_app. split; [exact Hidle |].
  apply IH. unfold all_disabled, stored_pages in *. now rewrite Hstore.
Qed.

(** When every stored page is disabled, or none is stored, [POST /webhook]
    of the multi-tenant server reads no knowledge file and sends nothing to
    the completion endpoint or to the message-send endpoint, whatever the
    payload. *)
Theorem disabled_pages_are_skipped_entirely :
  forall (body : jsval) (w : world Multi.Store),
    all_disabled w -> Forall idle (trace (Multi.post_webhook body w)).
Proof.
  intros body w Hdisabled. unfold Multi.post_webhook.
  rewrite run_seq_log. unfold continued, trace at 1. cbn [snd app].
  constructor; [exact I |]. rewrite respond_then. constructor; [exact I |].
  set (w1 := after (logMessage "RECEIVED" body w)).
  assert (Hdisabled1 : all_disabled w1) by exact Hdisabled.
  rewrite bind_lift. destruct (get body "object") as [object | e]; [| constructor].
  destruct (strict_eq object (JStr "page")); [| constructor].
  rewrite bind_lift. destruct (get body "entry") as [entries | e]; [| constructor].
  rewrite bind_lift.
  destruct (iterate "body.entry" entries) as [items | e]; [| constructor].
  now apply multi_entries_disabled.
Qed.

Lemma disabled_pages_are_skipped_entirely_witness :
  let w := sample_world (sample_pages_store [sample_disabled_page]) []
             (api_answers (JStr "Hi")) in
  all_disabled w /\ Forall idle (trace (Multi.post_webhook sample_delivery w)).
Proof.
  intros w.
  assert (Hdisabled : all_disabled w) by (repeat constructor).
  split; [exact Hdisabled |].
  exact (disabled_pages_are_skipped_entirely sample_delivery w Hdisabled).
Defined.

Lemma emits_single_sendAutoReply_unusable (P : event -> Prop)
    (senderId replyText pageAccessToken : jsval) :
  (forall type d, P (EvLog type d)) ->
  unusable_credential pageAccessToken ->
  emits P (Single.sendAutoReply senderId replyText pageAccessToken).
Proof.
  intros Hlog Hbad w. rewrite single_sendAutoReply_guard by exact Hbad.
  now apply emits_logMessage.
Qed.

(** With an absent, placeholder or masked page access token in its
    configuration, [POST /webhook] of the single-tenant server never calls
    the message-send endpoint, whatever the payload and whatever the
    completion endpoint answers. *)
Theorem unusable_credential_never_sends :
  forall (body : jsval) (w : world Single.Store),
    unusable_credential (Single.pageAccessToken (stored_config w)) ->
    send_requests (trace (Single.post_webhook body w)) = [].
Proof.
  intros body w Hbad.
  assert (Hquiet : Forall not_send (trace (Single.post_webhook body w))).
  { assert (Hint : forall ev, internal ev = true -> not_send ev)
      by (intros [] H; try exact I; discriminate H).
    assert (Hlog : forall type d, not_send (EvLog type d)) by (intros; exact I).
    unfold Single.post_webhook.
    rewrite (bind_run _ _ _ _ _ _ (loadConfig_run w)).
    unfold continued, trace at 1. cbn [snd]. apply Forall_app. split.
    { unfold loadConfig_trace. destruct (store w); repeat constructor. }
    by_emits.
    apply emits_bind; [now apply emits_logMessage | intros _].
    apply emits_bind; [apply emits_emit; exact I | intros _].
    apply emits_bind; [apply emits_lift | intros object].
    destruct (strict_eq _ _); [| apply emits_ret].
    do 2 (apply emits_bind; [apply emits_lift | intros ?]).
    apply emits_for_each. intros entry. unfold Single.handle_entry.
    do 2 (apply emits_bind; [apply emits_lift | intros ?]).
    apply emits_for_each. intros messaging. unfold Single.handle_messaging.
    do 3 (apply emits_bind; [apply emits_lift | intros ?]).
    destruct (_ && _); [| apply emits_ret].
    apply emits_bind; [now apply emits_logMessage | intros _].
    apply emits_bind; [now apply emits_searchKnowledge | intros kbContext].
    apply emits_bind;
      [apply emits_single_generateAIResponse; intros; first [exact I | now apply Hint]
      | intros aiResult].
    destruct (truthy _); [now apply emits_single_sendAutoReply_unusable |].
    destruct (truthy _); [| apply emits_ret].
    apply emits_bind; [now apply emits_single_sendAutoReply_unusable | intros _].
    now apply emits_logMessage. }
  induction Hquiet as [| ev t Hev _ IH]; [reflexivity |].
  destruct ev; simpl in *; try exact IH. contradiction.
Qed.

Lemma unusable_credential_never_sends_witness :
  let w := sample_world (Parsed sample_masked_config) [] (api_answers (JStr "Hi")) in
  unusable_credential (Single.pageAccessToken (stored_config w))
  /\ send_requests (trace (Single.post_webhook sample_delivery w)) = [].
Proof.
  intros w.
  assert (Hbad : unusable_credential (Single.pageAccessToken (stored_config w)))
    by (right; right; reflexivity).
  split; [exact Hbad |].
  exact (unusable_credential_never_sends sample_delivery w Hbad).
Defined.

(** ** Masked listings and what comes back from them *)

Lemma json_wire_object (fields : list (string * jsval)) :
  json_wire (JObj fields) = JObj (wire_fields fields).
Proof. reflexivity. Qed.

Lemma assoc_cons (k k' : string) (x : jsval) (fields : list (string * jsval)) :
  assoc k ((k', x) :: fields) = if String.eqb k' k then x else assoc k fields.
Proof. unfold assoc. cbn [List.find fst snd]. now destruct (String.eqb k' k). Qed.

Lemma assoc_absent (k : string) (fields : list (string * jsval)) :
  ~ In k (map fst fields) -> assoc k fields = JUndefined.
Proof.
  induction fields as [| [k' x] rest IH]; [reflexivity |].
  intros Hnot. rewrite assoc_cons.
  destruct (String.eqb k' k) eqn:Hk.
  - apply String.eqb_eq in Hk. exfalso. apply Hnot. now left.
  - apply IH. intros Hin. apply Hnot. now right.
Qed.

Lemma wire_fields_keys (k : string) (fields : list (string * jsval)) :
  In k (map fst (wire_fields fields)) -> In k (map fst fields).
Proof.
  induction fields as [| [k' x] rest IH]; [trivial |].
  cbn [wire_fields]. destruct x; cbn [map fst In]; intuition.
Qed.

Lemma json_wire_undefined (v : jsval) : json_wire v = JUndefined -> v = JUndefined.
Proof. destruct v; cbn [json_wire]; try congruence. now destruct (_ <=? _)%Z. Qed.

(** Reading a property of an object that went through JSON. *)
Lemma assoc_wire_fields (k : string) (fields : list (string * jsval)) :
  NoDup (map fst fields) ->
  assoc k (wire_fields fields) = json_wire (assoc k fields).
Proof.
  induction fields as [| [k' x] rest IH]; [reflexivity |].
  intros Hnodup. apply NoDup_cons in Hnodup as [Hfresh Hnodup].
  rewrite assoc_cons. cbn [wire_fields].
  destruct (String.eqb k' k) eqn:Hk.
  - apply String.eqb_eq in Hk. subst k'.
    destruct x; rewrite ?assoc_cons, ?String.eqb_refl; try reflexivity.
    apply assoc_absent. intros Hin. apply Hfresh.
    apply list_elem_of_In. now apply wire_fields_keys.
  - destruct x; rewrite ?assoc_cons, ?Hk; now apply IH.
Qed.

Lemma map_r_lookup {A B : Type} (f : A -> result B) (items : list A) (ys : list B)
    (i : nat) (x : A) :
  map_r f items = Ok ys -> items !! i = Some x ->
  exists y, ys !! i = Some y /\ f x = Ok y.
Proof.
  revert ys i. induction items as [| a rest IH]; intros ys i; [discriminate 2 |].
  cbn [map_r]. unfold bind_r.
  destruct (f a) as [b |] eqn:Hb; [| discriminate].
  destruct (map_r f rest) as [bs |] eqn:Hbs; [| discriminate].
  intros [= <-]. destruct i as [| i]; cbn.
  - intros [= <-]. now exists b.
  - intros Hx. now apply (IH bs i).
Qed.

Lemma mask_secret_text (expr : string) (v r : jsval) :
  mask_secret expr v = Ok r -> exists s, r = JStr s /\ mask_text s.
Proof.
  unfold mask_secret, bind_r. destruct (truthy v).
  - destruct (call_slice_last4 expr v) as [tail |]; [| discriminate].
    intros [= <-]. eexists. split; [reflexivity | right; reflexivity].
  - intros [= <-]. exists "". split; [reflexivity | now left].
Qed.

Lemma assign_secret_mask_text (expr : string) (set : jsval -> Multi.Page -> Multi.Page)
    (s : string) (page : Multi.Page) :
  mask_text s -> Multi.assign_secret expr set (JStr s) page = Ok page.
Proof.
  intros [-> | Hmask]; [reflexivity |].
  unfold Multi.assign_secret, bind_r. cbn [call_startsWith]. rewrite Hmask.
  now destruct (truthy (JStr s)).
Qed.

(** Writing back its own values and masked secrets leaves a page as it is. *)
Lemma update_page_same (page : Multi.Page) (s1 s2 s3 : string) :
  mask_text s1 -> mask_text s2 -> mask_text s3 ->
  Multi.update_page (Multi.name page) (JStr s1) (JStr s2) (JStr s3)
    (Multi.aiModel page) (Multi.knowledgeBase page) (Multi.enabled page) page
  = Ok page.
Proof.
  intros H1 H2 H3. unfold Multi.update_page.
  assert (Hname : (if truthy (Multi.name page)
                   then Multi.with_name (Multi.name page) page else page) = page)
    by (destruct page, (truthy _); reflexivity).
  rewrite Hname, (assign_secret_mask_text _ _ _ _ H1). cbn [bind_r].
  rewrite (assign_secret_mask_text _ _ _ _ H2). cbn [bind_r].
  rewrite (assign_secret_mask_text _ _ _ _ H3). cbn [bind_r].
  f_equal. destruct page as [i n v t k a b e c]; cbn.
  destruct (truthy a), (truthy b), (strict_eq e JUndefined); reflexivity.
Qed.

Lemma put_page_run_found (id_param : string) (fields : list (string * jsval))
    (w : world Multi.Store) (index : nat) (page page' : Multi.Page) :
  Multi.findIndex (fun p => strict_eq (Multi.id p) (JStr id_param)) (stored_pages w)
  = Some index ->
  stored_pages w !! index = Some page ->
  Multi.update_page (assoc "name" fields) (assoc "verifyToken" fields)
    (assoc "pageAccessToken" fields) (assoc "openrouterKey" fields)
    (assoc "aiModel" fields) (assoc "knowledgeBase" fields) (assoc "enabled" fields)
    page = Ok page' ->
  stored_pages (after (Multi.put_page id_param (JObj fields) w))
  = <[index := page']> (stored_pages w)
  /\ responses (trace (Multi.put_page id_param (JObj fields) w))
     = [(200%Z, JObj [("success", JBool true)])].
Proof.
  intros Hidx Hpage Hup. unfold Multi.put_page. cbn [get].
  repeat (rewrite bind_lift; cbv beta iota).
  rewrite (bind_run _ _ _ _ _ _ (loadPages_run w)), Hidx.
  unfold continued. cbv beta iota. rewrite Hpage, bind_lift, Hup.
  split; [reflexivity |].
  cbn [trace snd]. rewrite responses_app, (responses_none (loadPages_trace w)).
  - reflexivity.
  - unfold loadPages_trace. destruct (Multi.pages_json (store w)); repeat constructor.
Qed.

Lemma length_append (a b : string) :
  String.length (a +:+ b) = String.length a + String.length b.
Proof.
  induction a as [| c a IH]; [reflexivity |].
  change (String c a +:+ b) with (String c (a +:+ b)). cbn [String.length]. now rewrite IH.
Qed.

Lemma drop_chars_split (k : nat) (s : string) :
  k <= String.length s ->
  exists hidden, s = hidden +:+ drop_chars k s /\ String.length hidden = k.
Proof.
  revert s. induction k as [| k IH]; intros s Hk.
  - exists "". split; reflexivity.
  - destruct s as [| c s]; cbn [String.length] in Hk; [lia |].
    destruct (IH s ltac:(lia)) as (hidden & Hs & Hlen).
    exists (String c hidden). split; [| cbn [String.length]; now rewrite Hlen].
    cbn [drop_chars]. change (String c hidden +:+ drop_chars k s)
      with (String c (hidden +:+ drop_chars k s)). now rewrite <- Hs.
Qed.

(** [s.slice(-n)] is the suffix of [s] of length [min n (length s)]. *)
Lemma last_chars_suffix (n : nat) (s : string) :
  exists hidden,
    s = hidden +:+ last_chars n s
    /\ String.length (last_chars n s) = Nat.min n (String.length s).
Proof.
  unfold last_chars.
  destruct (drop_chars_split (String.length s - n) s ltac:(lia)) as (hidden & Hs & Hlen).
  exists hidden. split; [exact Hs |].
  pose proof (f_equal String.length Hs) as Hl. rewrite length_append, Hlen in Hl. lia.
Qed.

Lemma get_pages_run (w : world Multi.Store) :
  MultiApi.get_pages w =
    match map_r MultiApi.mask_page (stored_pages w) with
    | Ok masked =>
        (Ok tt, w, loadPages_trace w ++ [EvRespond 200 (json_wire (JArr masked))])
    | Throw e => (Throw e, w, loadPages_trace w ++ [])
    end.
Proof.
  unfold MultiApi.get_pages.
  rewrite (bind_run _ _ _ _ _ _ (loadPages_run w)), bind_lift.
  destruct (map_r _ _); reflexivity.
Qed.

Lemma loadPages_trace_responses (w : world Multi.Store) :
  responses (loadPages_trace w) = [].
Proof.
  unfold loadPages_trace. now destruct (Multi.pages_json (store w)).
Qed.

Lemma map_r_length {A B : Type} (f : A -> result B) (items : list A) (ys : list B) :
  map_r f items = Ok ys -> length ys = length items.
Proof.
  revert ys. induction items as [| a rest IH]; intros ys; [now intros [= <-] |].
  cbn [map_r]. unfold bind_r.
  destruct (f a) as [b |]; [| discriminate].
  destruct (map_r f rest) as [bs |]; [| discriminate].
  intros [= <-]. cbn. now rewrite (IH bs).
Qed.

(** What [GET /api/pages] sent for the page at one position, when it sent
    a list. *)
Lemma get_pages_item (w : world Multi.Store) (items : list jsval) (i : nat)
    (p : Multi.Page) (item : jsval) :
  responses (trace (MultiApi.get_pages w)) = [(200%Z, JArr items)] ->
  stored_pages w !! i = Some p ->
  items !! i = Some item ->
  exists m, MultiApi.mask_page p = Ok m /\ item = json_wire m.
Proof.
  rewrite get_pages_run.
  destruct (map_r MultiApi.mask_page (stored_pages w)) as [masked | e] eqn:Hmap;
    cbn [trace snd]; rewrite responses_app, loadPages_trace_responses;
    [| discriminate].
  cbn [responses omap app]. intros [= <-] Hp Hitem.
  destruct (map_r_lookup _ _ _ _ _ Hmap Hp) as (m & Hm & Hmask).
  exists m. split; [exact Hmask |].
  change (((fun x => match x with
                     | JUndefined => JNull
                     | _ => json_wire x
                     end) <$> masked) !! i = Some item) in Hitem.
  rewrite list_lookup_fmap, Hm in Hitem. cbn in Hitem.
  injection Hitem as <-.
  unfold MultiApi.mask_page, bind_r in Hmask.
  repeat match type of Hmask with
         | context [mask_secret ?e ?v] => destruct (mask_secret e v); [| discriminate]
         end.
  now injection Hmask as <-.
Qed.

Lemma mask_page_fields (p : Multi.Page) (m : jsval) :
  MultiApi.mask_page p = Ok m ->
  exists s1 s2 s3,
    mask_secret "p.verifyToken" (Multi.verifyToken p) = Ok (JStr s1)
    /\ mask_secret "p.pageAccessToken" (Multi.pageAccessToken p) = Ok (JStr s2)
    /\ mask_secret "p.openrouterKey" (Multi.openrouterKey p) = Ok (JStr s3)
    /\ mask_text s1 /\ mask_text s2 /\ mask_text s3
    /\ m = JObj [("id", Multi.id p); ("name", Multi.name p);
                 ("verifyToken", JStr s1); ("pageAccessToken", JStr s2);
                 ("openrouterKey", JStr s3); ("aiModel", Multi.aiModel p);
                 ("knowledgeBase", Multi.knowledgeBase p);
                 ("enabled", Multi.enabled p); ("createdAt", Multi.createdAt p)].
Proof.
  unfold MultiApi.mask_page, bind_r.
  destruct (mask_secret _ (Multi.verifyToken p)) as [r1 |] eqn:H1; [| discriminate].
  destruct (mask_secret _ (Multi.pageAccessToken p)) as [r2 |] eqn:H2; [| discriminate].
  destruct (mask_secret _ (Multi.openrouterKey p)) as [r3 |] eqn:H3; [| discriminate].
  intros [= <-].
  destruct (mask_secret_text _ _ _ H1) as (s1 & -> & T1).
  destruct (mask_secret_text _ _ _ H2) as (s2 & -> & T2).
  destruct (mask_secret_text _ _ _ H3) as (s3 & -> & T3).
  now exists s1, s2, s3.
Qed.

Lemma mask_page_keys_distinct (p : Multi.Page) (s1 s2 s3 : string) :
  NoDup (map fst [("id", Multi.id p); ("name", Multi.name p);
                  ("verifyToken", JStr s1); ("pageAccessToken", JStr s2);
                  ("openrouterKey", JStr s3); ("aiModel", Multi.aiModel p);
                  ("knowledgeBase", Multi.knowledgeBase p);
                  ("enabled", Multi.enabled p); ("createdAt", Multi.createdAt p)]).
Proof.
  cbn [map fst]. apply NoDup_ListNoDup.
  repeat (constructor; [cbn; intuition discriminate |]). constructor.
Qed.

(** [GET /api/pages] shows of each secret at most its last four characters.
    In the list it sends, every secret field of every page is a string
    that is empty or begins with ['***']; for a stored secret that is a
    non-empty string, what follows the marker is its suffix of length
    [min 4 (length secret)], so a secret of up to four characters is shown
    whole.  The route leaves the world as it is. *)
Theorem pages_listing_masks_secrets :
  forall (w : world Multi.Store) (items : list jsval),
    responses (trace (MultiApi.get_pages w)) = [(200%Z, JArr items)] ->
    after (MultiApi.get_pages w) = w
    /\ length items = length (stored_pages w)
    /\ forall (i : nat) (p : Multi.Page) (item : jsval) (f : secret),
         stored_pages w !! i = Some p ->
         items !! i = Some item ->
         exists s,
           get item (secret_key f) = Ok (JStr s)
           /\ mask_text s
           /\ forall secret_text,
                page_secret f p = JStr secret_text ->
                (secret_text = "" -> s = "")
                /\ (secret_text <> "" ->
                    exists hidden shown,
                      secret_text = hidden +:+ shown
                      /\ String.length shown = Nat.min 4 (String.length secret_text)
                      /\ s = "***" +:+ shown).
Proof.
  intros w items Hsent. split; [| split].
  - rewrite get_pages_run. now destruct (map_r _ _).
  - revert Hsent. rewrite get_pages_run.
    destruct (map_r MultiApi.mask_page (stored_pages w)) as [masked | e] eqn:Hmap;
      cbn [trace snd]; rewrite responses_app, loadPages_trace_responses;
      [| discriminate].
    cbn [responses omap app]. intros [= <-].
    rewrite length_map. now apply map_r_length in Hmap.
  - intros i p item f Hp Hitem.
    destruct (get_pages_item w items i p item Hsent Hp Hitem) as (m & Hm & ->).
    destruct (mask_page_fields p m Hm) as (s1 & s2 & s3 & H1 & H2 & H3 & T1 & T2 & T3 & ->).
    rewrite json_wire_object. cbn [get].
    rewrite (assoc_wire_fields _ _ (mask_page_keys_distinct p s1 s2 s3)).
    assert (Hshape : forall expr v s,
               mask_secret expr v = Ok (JStr s) ->
               forall secret_text,
                 v = JStr secret_text ->
                 (secret_text = "" -> s = "")
                 /\ (secret_text <> "" ->
                     exists hidden shown,
                       secret_text = hidden +:+ shown
                       /\ String.length shown = Nat.min 4 (String.length secret_text)
                       /\ s = "***" +:+ shown)).
    { intros expr v s Hmask secret_text ->. unfold mask_secret in Hmask.
      destruct secret_text as [| c rest].
      - injection Hmask as <-. split; [reflexivity | contradiction].
      - cbn in Hmask. injection Hmask as <-. split; [discriminate |].
        intros _. destruct (last_chars_suffix 4 (String c rest)) as (hidden & Hs & Hlen).
        exists hidden, (last_chars 4 (String c rest)). repeat split; assumption. }
    destruct f; cbn [secret_key page_secret].
    + exists s1. split; [reflexivity | split; [exact T1 | exact (Hshape _ _ _ H1)]].
    + exists s2. split; [reflexivity | split; [exact T2 | exact (Hshape _ _ _ H2)]].
    + exists s3. split; [reflexivity | split; [exact T3 | exact (Hshape _ _ _ H3)]].
Qed.

Lemma pages_listing_masks_secrets_witness :
  let w := sample_world (sample_pages_store [sample_page]) [] (api_fails "down") in
  responses (trace (MultiApi.get_pages w)) = [(200%Z, JArr [sample_listed_page])]
  /\ after (MultiApi.get_pages w) = w
  /\ exists s,
       get sample_listed_page "pageAccessToken" = Ok (JStr s)
       /\ mask_text s
       /\ exists hidden shown,
            "EAAB-secret" = hidden +:+ shown
            /\ String.length shown = 4
            /\ s = "***" +:+ shown.
Proof.
  intros w.
  assert (Hsent : responses (trace (MultiApi.get_pages w))
                  = [(200%Z, JArr [sample_listed_page])]) by reflexivity.
  destruct (pages_listing_masks_secrets w [sample_listed_page] Hsent)
    as (Hsame & _ & Hitems).
  split; [exact Hsent | split; [exact Hsame |]].
  destruct (Hitems 0 sample_page sample_listed_page PageAccessToken eq_refl eq_refl)
    as (s & Hget & Hmask & Hshape).
  exists s. split; [exact Hget | split; [exact Hmask |]].
  destruct (Hshape "EAAB-secret" eq_refl) as [_ Hshown].
  apply Hshown. discriminate.
Defined.

(** Sending back to [PUT /api/pages/:id] the very object [GET /api/pages]
    listed for a page changes nothing: the update goes through ([200]) and
    every stored page, secrets included, is as before.  The page is the
    first one with its id, and its values read back unchanged from JSON, as
    those of a stored page do. *)
Theorem page_listing_sent_back_changes_nothing :
  forall (w : world Multi.Store) (items : list jsval) (index : nat)
         (page : Multi.Page) (item : jsval) (id_param : string),
    responses (trace (MultiApi.get_pages w)) = [(200%Z, JArr items)] ->
    Multi.findIndex (fun p => strict_eq (Multi.id p) (JStr id_param)) (stored_pages w)
    = Some index ->
    stored_pages w !! index = Some page ->
    items !! index = Some item ->
    persistable (Multi.name page) -> persistable (Multi.aiModel page) ->
    persistable (Multi.knowledgeBase page) -> persistable (Multi.enabled page) ->
    stored_pages (after (Multi.put_page id_param item w)) = stored_pages w
    /\ responses (trace (Multi.put_page id_param item w))
       = [(200%Z, JObj [("success", JBool true)])].
Proof.
  intros w items index page item id_param Hsent Hidx Hpage Hitem Hn Ha Hk He.
  destruct (get_pages_item w items index page item Hsent Hpage Hitem) as (m & Hm & ->).
  destruct (mask_page_fields page m Hm)
    as (s1 & s2 & s3 & _ & _ & _ & T1 & T2 & T3 & ->).
  rewrite json_wire_object.
  match goal with
  | |- context [Multi.put_page _ (JObj ?fs)] =>
      destruct (put_page_run_found id_param fs w index page page Hidx Hpage)
        as [Hstored Hok]
  end.
  - rewrite !(assoc_wire_fields _ _ (mask_page_keys_distinct page s1 s2 s3)).
    unfold assoc. cbn [List.find fst snd].
    change (Multi.update_page (json_wire (Multi.name page)) (JStr s1) (JStr s2)
              (JStr s3) (json_wire (Multi.aiModel page))
              (json_wire (Multi.knowledgeBase page))
              (json_wire (Multi.enabled page)) page = Ok page).
    unfold persistable in *. rewrite Hn, Ha, Hk, He.
    now apply update_page_same.
  - split; [| exact Hok].
    rewrite Hstored. now apply list_insert_id.
Qed.

Lemma page_listing_sent_back_changes_nothing_witness :
  let w := sample_world (sample_pages_store [sample_page]) [] (api_fails "down") in
  responses (trace (MultiApi.get_pages w)) = [(200%Z, JArr [sample_listed_page])]
  /\ stored_pages (after (Multi.put_page "page_1" sample_listed_page w)) = [sample_page]
  /\ responses (trace (Multi.put_page "page_1" sample_listed_page w))
     = [(200%Z, JObj [("success", JBool true)])].
Proof.
  intros w.
  assert (Hsent : responses (trace (MultiApi.get_pages w))
                  = [(200%Z, JArr [sample_listed_page])]) by reflexivity.
  split; [exact Hsent |].
  exact (page_listing_sent_back_changes_nothing w [sample_listed_page] 0 sample_page
           sample_listed_page "page_1" Hsent eq_refl eq_refl eq_refl
           eq_refl eq_refl eq_refl eq_refl).
Defined.

(** ** Creating, updating and deleting pages *)

Lemma update_page_identity
    (name verifyToken pageAccessToken openrouterKey aiModel knowledgeBase enabled : jsval)
    (page page' : Multi.Page) :
  Multi.update_page name verifyToken pageAccessToken openrouterKey aiModel
    knowledgeBase enabled page = Ok page' ->
  Multi.id page' = Multi.id page /\ Multi.createdAt page' = Multi.createdAt page.
Proof. intros Hup. case_update Hup; split; reflexivity. Qed.

(** [PUT /api/pages/:id] changes at most the first page that has the id.
    It never adds or removes a page, never changes the id or the creation
    time of any page, and leaves every page at another position as it is;
    when no page has the id nothing changes at all. *)
Theorem page_update_touches_one_page :
  forall (id_param : string) (body : jsval) (w : world Multi.Store),
    let pages := stored_pages w in
    let pages' := stored_pages (after (Multi.put_page id_param body w)) in
    let first := Multi.findIndex (fun p => strict_eq (Multi.id p) (JStr id_param)) pages in
    length pages' = length pages
    /\ map Multi.id pages' = map Multi.id pages
    /\ map Multi.createdAt pages' = map Multi.createdAt pages
    /\ (forall j, first <> Some j -> pages' !! j = pages !! j).
Proof.
  intros id_param body w pages pages' first. subst pages pages' first.
  destruct (put_page_outcome id_param body w)
    as [[Hsame _] | (index & page & page' & Hidx & Hpage & Hup & Hstored & _)].
  - assert (Hpages : stored_pages (after (Multi.put_page id_param body w))
                     = stored_pages w)
      by (unfold stored_pages; now rewrite Hsame).
    rewrite Hpages. repeat split; reflexivity.
  - rewrite Hstored. destruct (update_page_identity _ _ _ _ _ _ _ _ _ Hup) as [Hid Hcreated].
    split; [apply length_insert | split; [| split]].
    + now apply (map_insert_same _ _ _ page).
    + now apply (map_insert_same _ _ _ page).
    + intros j Hj. apply list_lookup_insert_ne. rewrite Hidx in Hj. congruence.
Qed.

Lemma page_update_touches_one_page_witness :
  let w := sample_world (sample_pages_store [sample_page; sample_disabled_page]) []
             (api_fails "down") in
  let w' := after (Multi.put_page "page_1" (JObj [("name", JStr "Renamed")]) w) in
  stored_pages w' !! 1 = Some sample_disabled_page
  /\ map Multi.id (stored_pages w') = [JStr "page_1"; JStr "page_0"].
Proof.
  intros w w'.
  destruct (page_update_touches_one_page "page_1" (JObj [("name", JStr "Renamed")]) w)
    as (_ & Hids & _ & Hframe).
  split; [| exact Hids].
  apply (Hframe 1). discriminate.
Defined.

Lemma delete_page_run (id_param : string) (w : world Multi.Store) :
  MultiApi.delete_page id_param w =
    (Ok tt,
     set_store
       {| Multi.pages_json :=
            Parsed (List.filter
                      (fun p => negb (strict_eq (Multi.id p) (JStr id_param)))
                      (stored_pages w));
          Multi.config_json := Multi.config_json (store w) |} w,
     loadPages_trace w
     ++ [EvWriteStore "pages.json"; EvRespond 200 (JObj [("success", JBool true)])]).
Proof.
  unfold MultiApi.delete_page.
  now rewrite (bind_run _ _ _ _ _ _ (loadPages_run w)).
Qed.

Lemma findIndex_none (pred : Multi.Page -> bool) (pages : list Multi.Page) :
  (forall p, In p pages -> pred p = false) -> Multi.findIndex pred pages = None.
Proof.
  induction pages as [| p rest IH]; [reflexivity |].
  intros Hnone. cbn [Multi.findIndex].
  rewrite (Hnone p (or_introl eq_refl)), IH; [reflexivity |].
  intros q Hq. apply Hnone. now right.
Qed.

(** [DELETE /api/pages/:id] removes every page that has the id and keeps
    the others in their order.  Afterwards an update for that id is
    answered [404] and changes nothing, and deleting again changes
    nothing. *)
Theorem deleted_page_is_gone :
  forall (id_param : string) (w : world Multi.Store),
    let w' := after (MultiApi.delete_page id_param w) in
    stored_pages w'
    = List.filter (fun p => negb (strict_eq (Multi.id p) (JStr id_param)))
        (stored_pages w)
    /\ (forall fields,
          responses (trace (Multi.put_page id_param (JObj fields) w'))
          = [(404%Z, JObj [("error", JStr "Page not found")])]
          /\ stored_pages (after (Multi.put_page id_param (JObj fields) w'))
             = stored_pages w')
    /\ stored_pages (after (MultiApi.delete_page id_param w')) = stored_pages w'.
Proof.
  intros id_param w w'. subst w'. rewrite delete_page_run.
  set (kept := List.filter _ (stored_pages w)).
  cbn [after fst snd].
  set (w' := set_store _ w).
  assert (Hstored : stored_pages w' = kept) by reflexivity.
  assert (Hgone : forall p, In p kept -> strict_eq (Multi.id p) (JStr id_param) = false).
  { intros p Hin. apply filter_In in Hin as [_ Hp]. now apply negb_true_iff in Hp. }
  split; [exact Hstored | split].
  - intros fields. unfold Multi.put_page. cbn [get].
    repeat (rewrite bind_lift; cbv beta iota).
    rewrite (bind_run _ _ _ _ _ _ (loadPages_run w')), Hstored.
    rewrite (findIndex_none _ kept Hgone).
    split; [| exact Hstored].
    unfold continued, trace. cbn [snd]. now rewrite responses_app, loadPages_trace_responses.
  - rewrite delete_page_run. cbn [after fst snd].
    change (List.filter (fun p => negb (strict_eq (Multi.id p) (JStr id_param)))
              (stored_pages w') = stored_pages w').
    rewrite Hstored. apply forallb_filter_id.
    apply forallb_forall. intros p Hin. now rewrite (Hgone p Hin).
Qed.

Lemma post_page_run (now : Z) (random36 : string) (fields : list (string * jsval))
    (w : world Multi.Store) :
  let newPage :=
    {| Multi.id := JStr ("page_" +:+ ToString (JNum now));
       Multi.name :=
         js_or (assoc "name" fields)
           (JStr ("New Page "
                  +:+ ToString (JNum (Z.of_nat (length (stored_pages w)) + 1))));
       Multi.verifyToken :=
         js_or (assoc "verifyToken" fields)
           (JStr ("VERIFY_TOKEN_" +:+ toUpperCase (drop_chars 7 random36)));
       Multi.pageAccessToken := js_or (assoc "pageAccessToken" fields) (JStr "");
       Multi.openrouterKey := js_or (assoc "openrouterKey" fields) (JStr "");
       Multi.aiModel := js_or (assoc "aiModel" fields) (JStr "openai/gpt-5.2");
       Multi.knowledgeBase := JArr [];
       Multi.enabled := JBool true;
       Multi.createdAt := JStr (clock w (ticks w)) |} in
  stored_pages (after (MultiApi.post_page now random36 (JObj fields) w))
  = stored_pages w ++ [newPage].
Proof.
  cbv zeta. unfold MultiApi.post_page. cbn [get].
  repeat (rewrite bind_lift; cbv beta iota).
  rewrite (bind_run _ _ _ _ _ _ (loadPages_run w)). reflexivity.
Qed.

(** [POST /api/pages] appends one page and keeps the stored ones.  The new
    page is enabled, has an empty knowledge base, and holds each secret of
    the request as given whenever that is truthy: unlike the update, the
    creation does not look for the mask marker.  A verification handshake
    with the new page's verify token succeeds right away. *)
Theorem created_page_is_appended_and_verifiable :
  forall (now : Z) (random36 : string) (fields : list (string * jsval))
         (w : world Multi.Store),
    let w' := after (MultiApi.post_page now random36 (JObj fields) w) in
    exists newPage,
      stored_pages w' = stored_pages w ++ [newPage]
      /\ Multi.enabled newPage = JBool true
      /\ Multi.knowledgeBase newPage = JArr []
      /\ (forall f : secret,
            truthy (assoc (secret_key f) fields) = true ->
            page_secret f newPage = assoc (secret_key f) fields)
      /\ (forall (token : string) (challenge : jsval),
            Multi.verifyToken newPage = JStr token ->
            responses (trace (Multi.get_webhook (JStr "subscribe") (JStr token)
                                challenge w'))
            = [(200%Z, challenge)]).
Proof.
  intros now random36 fields w w'. subst w'.
  pose proof (post_page_run now random36 fields w) as Hrun. cbv zeta in Hrun.
  eexists. split; [exact Hrun | split; [reflexivity | split; [reflexivity | split]]].
  - intros f Hf. destruct f; cbn [page_secret secret_key] in *;
      unfold js_or; now rewrite Hf.
  - intros token challenge Htoken.
    rewrite multi_get_webhook_responses, Hrun. cbn [strict_eq andb].
    rewrite String.eqb_refl, existsb_app. cbn [existsb].
    rewrite Htoken. cbn [strict_eq]. rewrite String.eqb_refl.
    now rewrite orb_true_r.
Qed.

Lemma created_page_is_appended_and_verifiable_witness :
  let w := sample_world (sample_pages_store [sample_page]) [] (api_fails "down") in
  let w' := after (MultiApi.post_page 1704067200000 "0.4fzyo82mvyr"
                     (JObj [("name", JStr "Second"); ("verifyToken", JStr "***abc")]) w) in
  exists newPage,
    stored_pages w' = [sample_page; newPage]
    /\ Multi.verifyToken newPage = JStr "***abc"
    /\ responses (trace (Multi.get_webhook (JStr "subscribe") (JStr "***abc")
                           (JStr "1158201444") w'))
       = [(200%Z, JStr "1158201444")].
Proof.
  intros w w'.
  destruct (created_page_is_appended_and_verifiable 1704067200000 "0.4fzyo82mvyr"
              [("name", JStr "Second"); ("verifyToken", JStr "***abc")] w)
    as (newPage & Hpages & _ & _ & Hsecrets & Hverify).
  exists newPage.
  assert (Htoken : Multi.verifyToken newPage = JStr "***abc")
    by exact (Hsecrets VerifyToken eq_refl).
  split; [exact Hpages | split; [exact Htoken |]].
  exact (Hverify "***abc" (JStr "1158201444") Htoken).
Defined.

(** ** Configuration read and written back *)

Lemma loadGlobalConfig_trace_responses (w : world Multi.Store) :
  responses (loadGlobalConfig_trace w) = [].
Proof.
  unfold loadGlobalConfig_trace. now destruct (Multi.config_json (store w)).
Qed.

Lemma loadConfig_trace_responses (w : world Single.Store) :
  responses (loadConfig_trace w) = [].
Proof. unfold loadConfig_trace. now destruct (store w). Qed.

Ltac assoc_compute :=
  repeat (rewrite assoc_cons;
          match goal with
          | |- context [String.eqb ?a ?b] =>
              let v := eval vm_compute in (String.eqb a b) in
              change (String.eqb a b) with v
          end; cbv iota).

Lemma multi_post_config_kept (fields : list (string * jsval)) (w : world Multi.Store)
    (s : string) :
  truthy (assoc "defaultAiModel" fields) = false
  \/ assoc "defaultAiModel" fields = Multi.defaultAiModel (stored_global w) ->
  assoc "openrouterKey" fields = JStr s -> mask_text s ->
  stored_global (after (MultiApi.post_config (JObj fields) w)) = stored_global w
  /\ responses (trace (MultiApi.post_config (JObj fields) w))
     = [(200%Z, JObj [("success", JBool true)])].
Proof.
  intros Hmodel Hkey Hs. unfold MultiApi.post_config. cbn [get].
  repeat (rewrite bind_lift; cbv beta iota).
  rewrite (bind_run _ _ _ _ _ _ (loadGlobalConfig_run w)), Hkey.
  assert (Hsame :
            (if truthy (assoc "defaultAiModel" fields)
             then {| Multi.defaultAiModel := assoc "defaultAiModel" fields;
                     Multi.config_openrouterKey :=
                       Multi.config_openrouterKey (stored_global w) |}
             else stored_global w) = stored_global w).
  { destruct Hmodel as [-> | ->]; [reflexivity |].
    destruct (stored_global w), (truthy _); reflexivity. }
  rewrite Hsame.
  assert (Hskip : (if truthy (JStr s)
                   then lift (call_startsWith "openrouterKey" (JStr s) "***")
                   else ret true)
                  = (ret true : M Multi.Store bool)).
  { destruct Hs as [-> | Hs]; [reflexivity |].
    cbn [call_startsWith]. rewrite Hs. destruct (truthy (JStr s)); reflexivity. }
  rewrite Hskip. split; [reflexivity |].
  unfold continued, trace. cbn [snd].
  now rewrite responses_app, loadGlobalConfig_trace_responses.
Qed.

(** Sending back to [POST /api/config] of the multi-tenant server what its
    [GET /api/config] returned keeps the global key and the default model:
    the key comes back masked or empty and is skipped.  The default model
    reads back unchanged from JSON, as a stored value does. *)
Theorem global_config_sent_back_changes_nothing :
  forall (w : world Multi.Store) (body : jsval),
    responses (trace (MultiApi.get_config w)) = [(200%Z, body)] ->
    persistable (Multi.defaultAiModel (stored_global w)) ->
    stored_global (after (MultiApi.post_config body w)) = stored_global w
    /\ responses (trace (MultiApi.post_config body w))
       = [(200%Z, JObj [("success", JBool true)])].
Proof.
  intros w body Hsent Hmodel.
  unfold MultiApi.get_config in Hsent.
  rewrite (bind_run _ _ _ _ _ _ (loadGlobalConfig_run w)), bind_lift in Hsent.
  destruct (mask_secret _ _) as [key |] eqn:Hkey;
    unfold continued, trace in Hsent; cbn [snd] in Hsent;
    rewrite responses_app, loadGlobalConfig_trace_responses in Hsent;
    [| discriminate].
  destruct (mask_secret_text _ _ _ Hkey) as (s & -> & Hs).
  unfold res_json, respond, emit in Hsent. cbn [responses omap app] in Hsent.
  rewrite json_wire_object in Hsent. injection Hsent as <-.
  assert (Hkeys : NoDup (map fst [("defaultAiModel",
                                   Multi.defaultAiModel (stored_global w));
                                  ("openrouterKey", JStr s)])).
  { apply NoDup_ListNoDup.
    repeat (constructor; [cbn; intuition discriminate |]). constructor. }
  apply (multi_post_config_kept _ w s); [| | exact Hs].
  - right. rewrite (assoc_wire_fields _ _ Hkeys). assoc_compute. exact Hmodel.
  - rewrite (assoc_wire_fields _ _ Hkeys). assoc_compute. reflexivity.
Qed.

Lemma global_config_sent_back_changes_nothing_witness :
  let w := sample_world sample_global_store [] (api_fails "down") in
  let listed := JObj [("defaultAiModel", JStr "openai/gpt-5.2");
                      ("openrouterKey", JStr "***obal")] in
  responses (trace (MultiApi.get_config w)) = [(200%Z, listed)]
  /\ stored_global (after (MultiApi.post_config listed w)) = stored_global w
  /\ responses (trace (MultiApi.post_config listed w))
     = [(200%Z, JObj [("success", JBool true)])].
Proof.
  intros w listed.
  assert (Hsent : responses (trace (MultiApi.get_config w)) = [(200%Z, listed)])
    by reflexivity.
  split; [exact Hsent |].
  exact (global_config_sent_back_changes_nothing w listed Hsent eq_refl).
Defined.

Lemma single_post_config_strings (fields : list (string * jsval))
    (w : world Single.Store) (vt pat key : string) :
  assoc "verifyToken" fields = JStr vt ->
  assoc "pageAccessToken" fields = JStr pat ->
  assoc "openrouterKey" fields = JStr key ->
  let current := stored_config w in
  let merged :=
    {| Single.verifyToken :=
         if startsWith "***" vt then Single.verifyToken current else JStr vt;
       Single.pageAccessToken :=
         if startsWith "***" pat then Single.pageAccessToken current else JStr pat;
       Single.openrouterKey :=
         if startsWith "***" key then Single.openrouterKey current else JStr key;
       Single.aiModel := assoc "aiModel" fields |} in
  Single.post_config (JObj fields) w =
    (Ok tt, set_store (Parsed merged) w,
     loadConfig_trace w
     ++ [EvWriteStore "config.json"; EvRespond 200 (JObj [("success", JBool true)])]).
Proof.
  intros Hvt Hpat Hkey current merged. unfold Single.post_config.
  rewrite (bind_run _ _ _ _ _ _ (loadConfig_run w)), bind_lift.
  unfold Single.merge_config, bind_r. cbn [get].
  rewrite Hvt, Hpat, Hkey. cbn [call_startsWith].
  fold current. subst merged.
  destruct current as [cv cp ck ca].
  destruct (startsWith "***" vt), (startsWith "***" pat), (startsWith "***" key);
    reflexivity.
Qed.

(** [POST /api/config] of the single-tenant server takes each secret of
    the request as it is unless it begins with the mask marker: an empty
    string clears the stored secret, and the model is replaced by whatever
    the request holds, nothing included.  A request in which one of the
    three secrets is not a string is not answered by the handler and
    changes nothing. *)
Theorem single_config_update_takes_every_unmasked_string :
  forall (w : world Single.Store),
    (forall (fields : list (string * jsval)) (vt pat key : string),
        assoc "verifyToken" fields = JStr vt ->
        assoc "pageAccessToken" fields = JStr pat ->
        assoc "openrouterKey" fields = JStr key ->
        let run := Single.post_config (JObj fields) w in
        let current := stored_config w in
        let saved := stored_config (after run) in
        responses (trace run) = [(200%Z, JObj [("success", JBool true)])]
        /\ Single.verifyToken saved
           = (if startsWith "***" vt then Single.verifyToken current else JStr vt)
        /\ Single.pageAccessToken saved
           = (if startsWith "***" pat then Single.pageAccessToken current else JStr pat)
        /\ Single.openrouterKey saved
           = (if startsWith "***" key then Single.openrouterKey current else JStr key)
        /\ Single.aiModel saved = assoc "aiModel" fields)
    /\ (forall (body : jsval) (f : secret),
          (forall s, get body (secret_key f) <> Ok (JStr s)) ->
          let run := Single.post_config body w in
          (exists e, value run = Throw e)
          /\ responses (trace run) = []
          /\ store (after run) = store w).
Proof.
  intros w. split.
  - intros fields vt pat key Hvt Hpat Hkey run current saved. subst run current saved.
    rewrite (single_post_config_strings fields w vt pat key Hvt Hpat Hkey).
    cbn [trace after fst snd]. rewrite responses_app, loadConfig_trace_responses.
    repeat split.
  - intros body f Hbad run. subst run. unfold Single.post_config.
    rewrite (bind_run _ _ _ _ _ _ (loadConfig_run w)), bind_lift.
    assert (Hthrow : exists e, Single.merge_config body (stored_config w) = Throw e).
    { unfold Single.merge_config, bind_r.
      destruct (get body "verifyToken") as [vt |] eqn:G1; [| eauto].
      destruct vt as [| | | | vt | |];
        try (destruct f; cbn in Hbad; eauto; fail);
        try (cbn [call_startsWith]; eauto; fail).
      all: cbn [call_startsWith].
      all: destruct (get body "pageAccessToken") as [pat |] eqn:G2; [| eauto].
      all: destruct pat as [| | | | pat | |];
        try (cbn [call_startsWith]; eauto; fail).
      all: cbn [call_startsWith].
      all: destruct (get body "openrouterKey") as [key |] eqn:G3; [| eauto].
      all: destruct key as [| | | | key | |];
        try (cbn [call_startsWith]; eauto; fail).
      all: exfalso; destruct f; cbn [secret_key] in Hbad;
        [apply (Hbad vt) | apply (Hbad pat) | apply (Hbad key)]; assumption. }
    destruct Hthrow as (e & ->).
    split; [now exists e | split; [| reflexivity]].
    unfold continued, trace. cbn [snd].
    now rewrite app_nil_r, loadConfig_trace_responses.
Qed.

Lemma single_config_update_takes_every_unmasked_string_witness :
  let w := sample_world (Parsed sample_config) [] (api_fails "down") in
  let cleared :=
    stored_config
      (after (Single.post_config
                (JObj [("verifyToken", JStr ""); ("pageAccessToken", JStr "***cret");
                       ("openrouterKey", JStr "sk-new")]) w)) in
  Single.verifyToken cleared = JStr ""
  /\ Single.pageAccessToken cleared = JStr "EAAB-secret"
  /\ Single.openrouterKey cleared = JStr "sk-new"
  /\ Single.aiModel cleared = JUndefined
  /\ store (after (Single.post_config (JObj [("verifyToken", JStr "T2")]) w)) = store w.
Proof.
  intros w cleared.
  destruct (single_config_update_takes_every_unmasked_string w) as [Hstrings Hreject].
  destruct (Hstrings [("verifyToken", JStr ""); ("pageAccessToken", JStr "***cret");
                      ("openrouterKey", JStr "sk-new")] "" "***cret" "sk-new"
              eq_refl eq_refl eq_refl)
    as (_ & Hvt & Hpat & Hkey & Hmodel).
  split; [exact Hvt | split; [exact Hpat | split; [exact Hkey | split; [exact Hmodel |]]]].
  apply (Hreject (JObj [("verifyToken", JStr "T2")]) PageAccessToken).
  intros s. discriminate.
Defined.

(** [GET /api/config] of the single-tenant server sends the verify token
    as it is stored and the two other secrets masked.  When the three
    stored secrets are strings and the model reads back unchanged from
    JSON, sending the listing back to [POST /api/config] keeps the stored
    configuration. *)
Theorem single_config_sent_back_changes_nothing :
  forall (w : world Single.Store) (vt pat key : string),
    Single.verifyToken (stored_config w) = JStr vt ->
    Single.pageAccessToken (stored_config w) = JStr pat ->
    Single.openrouterKey (stored_config w) = JStr key ->
    persistable (Single.aiModel (stored_config w)) ->
    exists body,
      responses (trace (SingleApi.get_config w)) = [(200%Z, body)]
      /\ get body "verifyToken" = Ok (JStr vt)
      /\ after (SingleApi.get_config w) = w
      /\ stored_config (after (Single.post_config body w)) = stored_config w
      /\ responses (trace (Single.post_config body w))
         = [(200%Z, JObj [("success", JBool true)])].
Proof.
  intros w vt pat key Hvt Hpat Hkey Hmodel.
  unfold SingleApi.get_config.
  rewrite (bind_run _ _ _ _ _ _ (loadConfig_run w)).
  destruct (stored_config w) as [cv cp ck ca] eqn:Hc.
  cbn [Single.verifyToken Single.pageAccessToken Single.openrouterKey Single.aiModel]
    in Hvt, Hpat, Hkey, Hmodel. subst cv cp ck.
  destruct (mask_secret "config.pageAccessToken" (JStr pat)) as [mp |] eqn:Hmp;
    [| unfold mask_secret in Hmp; destruct (truthy _); discriminate].
  destruct (mask_secret "config.openrouterKey" (JStr key)) as [mk |] eqn:Hmk;
    [| unfold mask_secret in Hmk; destruct (truthy _); discriminate].
  destruct (mask_secret_text _ _ _ Hmp) as (sp & -> & Hsp).
  destruct (mask_secret_text _ _ _ Hmk) as (sk & -> & Hsk).
  cbn [Single.pageAccessToken Single.with_pageAccessToken].
  rewrite Hmp, bind_lift. unfold Single.with_pageAccessToken.
  cbn [Single.openrouterKey Single.verifyToken Single.pageAccessToken Single.aiModel].
  rewrite Hmk, bind_lift. unfold Single.with_openrouterKey.
  cbn [Single.openrouterKey Single.verifyToken Single.pageAccessToken Single.aiModel].
  eexists. unfold res_json, respond, emit, continued, trace, after.
  cbn [fst snd]. rewrite responses_app, loadConfig_trace_responses.
  cbn [responses omap app]. rewrite json_wire_object.
  split; [reflexivity |].
  assert (Hkeys : NoDup (map fst [("verifyToken", JStr vt);
                                  ("pageAccessToken", JStr sp);
                                  ("openrouterKey", JStr sk);
                                  ("aiModel", ca)])).
  { apply NoDup_ListNoDup.
    repeat (constructor; [cbn; intuition discriminate |]). constructor. }
  assert (Gvt : assoc "verifyToken" (wire_fields [("verifyToken", JStr vt);
                  ("pageAccessToken", JStr sp); ("openrouterKey", JStr sk);
                  ("aiModel", ca)]) = JStr vt)
    by (rewrite (assoc_wire_fields _ _ Hkeys); assoc_compute; reflexivity).
  assert (Gpat : assoc "pageAccessToken" (wire_fields [("verifyToken", JStr vt);
                  ("pageAccessToken", JStr sp); ("openrouterKey", JStr sk);
                  ("aiModel", ca)]) = JStr sp)
    by (rewrite (assoc_wire_fields _ _ Hkeys); assoc_compute; reflexivity).
  assert (Gkey : assoc "openrouterKey" (wire_fields [("verifyToken", JStr vt);
                  ("pageAccessToken", JStr sp); ("openrouterKey", JStr sk);
                  ("aiModel", ca)]) = JStr sk)
    by (rewrite (assoc_wire_fields _ _ Hkeys); assoc_compute; reflexivity).
  assert (Gmodel : assoc "aiModel" (wire_fields [("verifyToken", JStr vt);
                  ("pageAccessToken", JStr sp); ("openrouterKey", JStr sk);
                  ("aiModel", ca)]) = ca)
    by (rewrite (assoc_wire_fields _ _ Hkeys); assoc_compute; exact Hmodel).
  split; [cbn [get]; now rewrite Gvt |].
  split; [reflexivity |].
  rewrite (single_post_config_strings _ w vt sp sk Gvt Gpat Gkey).
  cbn [trace after fst snd]. rewrite responses_app, loadConfig_trace_responses.
  split; [| reflexivity].
  unfold stored_config at 1. cbn [store set_store].
  rewrite Hc, Gmodel.
  cbn [Single.verifyToken Single.pageAccessToken Single.openrouterKey].
  f_equal.
  - now destruct (startsWith "***" vt).
  - destruct Hsp as [-> | ->]; [| reflexivity].
    cbn. unfold mask_secret in Hmp. destruct (truthy (JStr pat)) eqn:T.
    + cbn in Hmp. discriminate.
    + destruct pat; [reflexivity | discriminate].
  - destruct Hsk as [-> | ->]; [| reflexivity].
    cbn. unfold mask_secret in Hmk. destruct (truthy (JStr key)) eqn:T.
    + cbn in Hmk. discriminate.
    + destruct key; [reflexivity | discriminate].
Qed.

Lemma single_config_sent_back_changes_nothing_witness :
  let w := sample_world (Parsed sample_config) [] (api_fails "down") in
  exists body,
    responses (trace (SingleApi.get_config w)) = [(200%Z, body)]
    /\ get body "verifyToken" = Ok (JStr "T1")
    /\ after (SingleApi.get_config w) = w
    /\ stored_config (after (Single.post_config body w)) = stored_config w
    /\ responses (trace (Single.post_config body w))
       = [(200%Z, JObj [("success", JBool true)])].
Proof.
  intros w.
  exact (single_config_sent_back_changes_nothing w "T1" "EAAB-secret" "sk-live"
           eq_refl eq_refl eq_refl eq_refl).
Defined.

(** ** The test route *)

Lemma keeps_state_refl {St : Type} (w : world St) : keeps_state w [] w.
Proof. now split. Qed.

Lemma keeps_state_trans {St : Type} (w : world St) t1 w1 t2 w2 :
  keeps_state w t1 w1 -> keeps_state w1 t2 w2 -> keeps_state w (t1 ++ t2) w2.
Proof.
  intros (H1 & H2 & H3) (H4 & H5 & H6). repeat split; congruence.
Qed.

Lemma unlogged_unsent_internal (ev : event) : internal ev = true -> unlogged_unsent ev.
Proof. destruct ev; simpl; intros H; try exact I; discriminate. Qed.

(** [POST /api/test], on either server, asks the model without acting on
    the answer: whatever the request, nothing is sent to a user and
    nothing is logged, and the stored configuration, the files and the log
    buffer are left as they were.  A request whose message is absent or
    empty is answered 400 before anything is read. *)
Theorem test_route_neither_sends_nor_logs :
  (forall (body : jsval) (w : world Single.Store),
      let run := SingleApi.post_test body w in
      Forall unlogged_unsent (trace run)
      /\ keeps_state w (trace run) (after run)
      /\ (forall message, get body "message" = Ok message ->
                          truthy message = false ->
          trace run = [EvRespond 400 (JObj [("error", JStr "Message required")])]))
  /\ (forall (body : jsval) (w : world Multi.Store),
        let run := MultiApi.post_test body w in
        Forall unlogged_unsent (trace run)
        /\ keeps_state w (trace run) (after run)
        /\ (forall message pageId,
              get body "message" = Ok message -> get body "pageId" = Ok pageId ->
              truthy message = false ->
              trace run = [EvRespond 400 (JObj [("error", JStr "Message required")])])).
Proof.
  split; intros body w run; subst run; (split; [| split]).
  - revert w. change (emits unlogged_unsent (SingleApi.post_test body)).
    unfold SingleApi.post_test.
    apply emits_bind; [apply emits_lift | intros message].
    destruct (negb _); [apply emits_emit; exact I |].
    apply emits_bind;
      [apply emits_searchKnowledge, unlogged_unsent_internal | intros kbContext].
    apply emits_bind;
      [apply emits_single_generateAIResponse;
       [apply unlogged_unsent_internal | intros req; exact I]
      | intros result].
    apply emits_emit. exact I.
  - revert w. change (respects keeps_state (SingleApi.post_test body)).
    unfold SingleApi.post_test.
    apply respects_bind; try apply keeps_state_refl; try apply keeps_state_trans;
      [apply respects_lift, keeps_state_refl | intros message].
    destruct (negb _); [intros w; now split |].
    apply respects_bind; try apply keeps_state_refl; try apply keeps_state_trans.
    + apply respects_searchKnowledge;
        [apply keeps_state_refl | apply keeps_state_trans | intros; now split].
    + intros kbContext.
      apply respects_bind; try apply keeps_state_refl; try apply keeps_state_trans.
      * apply respects_single_generateAIResponse;
          [apply keeps_state_refl | apply keeps_state_trans
          | intros; now split | intros; now split].
      * intros result w. now split.
  - intros message Hmessage Hfalsy. unfold SingleApi.post_test.
    rewrite Hmessage, bind_lift, Hfalsy. reflexivity.
  - revert w. change (emits unlogged_unsent (MultiApi.post_test body)).
    unfold MultiApi.post_test.
    apply emits_bind; [apply emits_lift | intros message].
    apply emits_bind; [apply emits_lift | intros pageId].
    destruct (negb _); [apply emits_emit; exact I |].
    apply emits_bind;
      [apply emits_searchKnowledge, unlogged_unsent_internal | intros kbContext].
    apply emits_bind;
      [apply emits_multi_generateAIResponse;
       [apply unlogged_unsent_internal | intros req; exact I]
      | intros result].
    apply emits_emit. exact I.
  - revert w. change (respects keeps_state (MultiApi.post_test body)).
    unfold MultiApi.post_test.
    apply respects_bind; try apply keeps_state_refl; try apply keeps_state_trans;
      [apply respects_lift, keeps_state_refl | intros message].
    apply respects_bind; try apply keeps_state_refl; try apply keeps_state_trans;
      [apply respects_lift, keeps_state_refl | intros pageId].
    destruct (negb _); [intros w; now split |].
    apply respects_bind; try apply keeps_state_refl; try apply keeps_state_trans.
    + apply respects_searchKnowledge;
        [apply keeps_state_refl | apply keeps_state_trans | intros; now split].
    + intros kbContext.
      apply respects_bind; try apply keeps_state_refl; try apply keeps_state_trans.
      * apply respects_multi_generateAIResponse;
          [apply keeps_state_refl | apply keeps_state_trans
          | intros; now split | intros; now split].
      * intros result w. now split.
  - intros message pageId Hmessage HpageId Hfalsy. unfold MultiApi.post_test.
    rewrite Hmessage, bind_lift, HpageId, bind_lift, Hfalsy. reflexivity.
Qed.

Lemma test_route_neither_sends_nor_logs_witness :
  let w := sample_world (Parsed sample_config) [] (api_answers (JStr "Hi")) in
  trace (SingleApi.post_test (JObj [("message", JStr "")]) w)
  = [EvRespond 400 (JObj [("error", JStr "Message required")])]
  /\ Forall unlogged_unsent
       (trace (SingleApi.post_test (JObj [("message", JStr "hello")]) w)).
Proof.
  intros w.
  destruct test_route_neither_sends_nor_logs as [Hsingle _].
  split.
  - destruct (Hsingle (JObj [("message", JStr "")]) w) as (_ & _ & Hempty).
    exact (Hempty (JStr "") eq_refl eq_refl).
  - exact (proj1 (Hsingle (JObj [("message", JStr "hello")]) w)).
Defined.

(** ** The knowledge routes *)

Lemma delete_knowledge_run {St : Type} (name_param : string) (w : world St) :
  let target := path_join (KNOWLEDGE_DIR w) (name_param +:+ ".md") in
  delete_knowledge name_param w =
    match fs w !! target with
    | Some (File _) =>
        (Ok tt, set_fs (delete target (fs w)) w,
         [EvRespond 200 (JObj [("success", JBool true)])])
    | Some Dir => (Throw (EISDIR target), w, [])
    | None => (Ok tt, w, [EvRespond 200 (JObj [("success", JBool true)])])
    end.
Proof.
  cbv zeta. unfold delete_knowledge. rewrite bind_ask.
  unfold existsSync, unlinkSync.
  destruct (fs w !! _) as [[content |] |]; reflexivity.
Qed.

(** [DELETE /api/knowledge/:name] takes the name as it comes, without the
    sanitization of the upsert: it removes the file at the knowledge
    directory joined with the name and [.md], wherever that is, answers
    success also when there is no such file, and touches no other path,
    nor the stored configuration or the log.  When the path is a directory
    the handler throws and nothing changes. *)
Theorem knowledge_delete_removes_one_path :
  forall (St : Type) (w : world St) (name_param : string),
    let target := path_join (KNOWLEDGE_DIR w) (name_param +:+ ".md") in
    let run := delete_knowledge name_param w in
    (forall p, p <> target -> fs (after run) !! p = fs w !! p)
    /\ store (after run) = store w
    /\ messageLog (after run) = messageLog w
    /\ (fs w !! target <> Some Dir ->
        fs (after run) !! target = None
        /\ trace run = [EvRespond 200 (JObj [("success", JBool true)])])
    /\ (fs w !! target = Some Dir ->
        after run = w /\ trace run = [] /\ exists e, value run = Throw e).
Proof.
  intros St w name_param target run. subst run.
  rewrite delete_knowledge_run. fold target.
  destruct (fs w !! target) as [[content |] |] eqn:Hlookup;
    unfold after, trace, value; cbn [fst snd fs store messageLog set_fs].
  - repeat split; try congruence.
    + intros p Hp. now apply lookup_delete_ne.
    + apply lookup_delete_eq.
  - repeat split; try congruence. now exists (EISDIR target).
  - repeat split; congruence.
Qed.

Lemma knowledge_delete_removes_one_path_witness :
  let w := sample_world (Missing : Single.Store) [] (api_fails "down") in
  let run := delete_knowledge "hours" w in
  fs w !! ["srv"; "bot"; "data"; "knowledge"; "hours.md"] = Some (File "Hello World")
  /\ fs (after run) !! ["srv"; "bot"; "data"; "knowledge"; "hours.md"] = None
  /\ trace run = [EvRespond 200 (JObj [("success", JBool true)])]
  /\ fs (after run) !! ["srv"; "bot"; "data"; "knowledge"] = Some Dir.
Proof.
  intros w run.
  destruct (knowledge_delete_removes_one_path _ w "hours")
    as (Hframe & _ & _ & Hfile & _).
  assert (Hthere : fs w !! ["srv"; "bot"; "data"; "knowledge"; "hours.md"]
                   = Some (File "Hello World")) by (vm_compute; reflexivity).
  split; [exact Hthere |].
  destruct Hfile as [Hgone Htrace]; [vm_compute; discriminate |].
  split; [exact Hgone | split; [exact Htrace |]].
  transitivity (fs w !! ["srv"; "bot"; "data"; "knowledge"]).
  - apply (Hframe ["srv"; "bot"; "data"; "knowledge"]). vm_compute. discriminate.
  - vm_compute. reflexivity.
Defined.

Lemma post_knowledge_run_written {St : Type} (body content : jsval) (name text : string)
    (w : world St) :
  get body "name" = Ok (JStr name) -> name <> "" ->
  get body "content" = Ok content -> js_or content (JStr "") = JStr text ->
  fs w !! KNOWLEDGE_DIR w = Some Dir ->
  fs w !! (KNOWLEDGE_DIR w ++ [sanitize name +:+ ".md"]) <> Some Dir ->
  let target := KNOWLEDGE_DIR w ++ [sanitize name +:+ ".md"] in
  post_knowledge body w =
    (Ok tt, set_fs (<[target := File text]> (fs w)) w,
     [EvWriteFile target text; EvRespond 200 (JObj [("success", JBool true)])]).
Proof.
  intros Hname Hne Hcontent Htext Hdir Hfree target. unfold post_knowledge.
  rewrite Hname, bind_lift, Hcontent, bind_lift.
  assert (Htruthy : truthy (JStr name) = true) by (destruct name; [congruence | reflexivity]).
  rewrite Htruthy. cbn [negb call_sanitize].
  rewrite bind_lift, bind_ask, path_join_sanitized, Htext, bind_emit.
  unfold writeFileSync. rewrite dirname_of_child, Hdir. subst target.
  repeat case_match; subst; try reflexivity. now contradiction Hfree.
Qed.

(** A document created by [POST /api/knowledge] is removed again by
    [DELETE /api/knowledge/:name] under its sanitized name: when no file of
    that name existed, the files are then what they were.  The sanitized
    name must not be empty: the route has no request for an empty name, so
    that a document whose name keeps none of its characters, written to
    [.md], cannot be removed this way. *)
Theorem upsert_then_delete_restores_files :
  forall (St : Type) (w : world St) (body content : jsval) (name text : string),
    get body "name" = Ok (JStr name) -> sanitize name <> "" ->
    get body "content" = Ok content -> js_or content (JStr "") = JStr text ->
    fs w !! KNOWLEDGE_DIR w = Some Dir ->
    fs w !! (KNOWLEDGE_DIR w ++ [sanitize name +:+ ".md"]) = None ->
    let created := post_knowledge body w in
    let deleted := delete_knowledge (sanitize name) (after created) in
    fs (after created) !! (KNOWLEDGE_DIR w ++ [sanitize name +:+ ".md"])
    = Some (File text)
    /\ fs (after deleted) = fs w
    /\ responses (trace deleted) = [(200%Z, JObj [("success", JBool true)])].
Proof.
  intros St w body content name text Hname Hsafe Hcontent Htext Hdir Hnone created deleted.
  subst created deleted.
  assert (Hne : name <> "") by (intros ->; now apply Hsafe).
  assert (Hcreated :
            after (post_knowledge body w)
            = set_fs (<[KNOWLEDGE_DIR w ++ [sanitize name +:+ ".md"] := File text]> (fs w)) w).
  { rewrite (post_knowledge_run_written body content name text w
               Hname Hne Hcontent Htext Hdir) by congruence.
    reflexivity. }
  rewrite Hcreated, delete_knowledge_run, path_join_sanitized.
  change (KNOWLEDGE_DIR (set_fs _ w)) with (KNOWLEDGE_DIR w). cbn [fs set_fs].
  rewrite !lookup_insert_eq.
  unfold after, trace. cbn [fst snd fs set_fs].
  repeat split. now apply delete_insert_id.
Qed.

Lemma upsert_then_delete_restores_files_witness :
  let w := sample_world (Missing : Single.Store) [] (api_fails "down") in
  let body := JObj [("name", JStr "a/b.md"); ("content", JStr "x")] in
  let created := post_knowledge body w in
  let deleted := delete_knowledge "abmd" (after created) in
  fs (after created) !! ["srv"; "bot"; "data"; "knowledge"; "abmd.md"] = Some (File "x")
  /\ fs (after deleted) = fs w
  /\ responses (trace deleted) = [(200%Z, JObj [("success", JBool true)])].
Proof.
  intros w body created deleted.
  apply (upsert_then_delete_restores_files _ w body (JStr "x") "a/b.md" "x").
  - reflexivity.
  - vm_compute. discriminate.
  - reflexivity.
  - reflexivity.
  - vm_compute. reflexivity.
  - vm_compute. reflexivity.
Defined.

Lemma child_name_spec (dir p : path) (seg : string) :
  child_name dir p = Some seg <-> p = dir ++ [seg].
Proof.
  revert p. induction dir as [| d dir IH]; intros p.
  - destruct p as [| s [| s' p]]; simpl; split; intros H; try discriminate; congruence.
  - destruct p as [| s p]; simpl; [split; intros H; discriminate |].
    destruct (String.eqb d s) eqn:Heq.
    + apply String.eqb_eq in Heq. subst s. rewrite IH.
      split; intros H; congruence.
    + apply String.eqb_neq in Heq. split; intros H; [discriminate | congruence].
Qed.

Lemma insert_name_In (name x : string) (sorted : list string) :
  In x (insert_name name sorted) <-> x = name \/ In x sorted.
Proof.
  induction sorted as [| first rest IH]; simpl.
  - intuition.
  - destruct (name_leb name first); simpl; [intuition |].
    rewrite IH. intuition.
Qed.

(** Sorting the names of a directory keeps them all and adds none. *)
Lemma sort_names_In (x : string) (names : list string) :
  In x (sort_names names) <-> In x names.
Proof.
  induction names as [| name rest IH]; simpl; [reflexivity |].
  rewrite insert_name_In, IH. intuition.
Qed.

Lemma readdirSync_In (files : gmap path node) (dir : path) (seg : string) :
  files !! dir = Some Dir ->
  exists entries,
    readdirSync files dir = Ok entries
    /\ (In seg entries <-> exists n, files !! (dir ++ [seg]) = Some n).
Proof.
  intros Hdir. unfold readdirSync. rewrite Hdir. eexists. split; [reflexivity |].
  rewrite sort_names_In, <- list_elem_of_In, list_elem_of_omap. split.
  - intros ([p n] & Hin & Hchild). apply elem_of_map_to_list in Hin.
    apply child_name_spec in Hchild. cbn [fst] in Hchild. subst p. now exists n.
  - intros (n & Hlookup). exists (dir ++ [seg], n). split.
    + now apply elem_of_map_to_list.
    + now apply child_name_spec.
Qed.

Lemma read_md_files_In {St : Type} (dir : path) (dirFiles : list string) (w : world St)
    (file content : string) :
  (forall f, In f dirFiles -> endsWith ".md" f = true ->
             exists c, readFileSync (fs w) (path_join dir f) = Ok c) ->
  In file dirFiles -> endsWith ".md" file = true ->
  readFileSync (fs w) (path_join dir file) = Ok content ->
  forall files, exists r,
    value (read_md_files dir dirFiles files w) = Ok (r, None)
    /\ In {| name := remove_first ".md" file; content := content |} r.
Proof.
  intros Hreadable Hin Hmd Hread.
  assert (Hkept : forall dirFiles files (x : KbFile),
             (forall f, In f dirFiles -> endsWith ".md" f = true ->
                        exists c, readFileSync (fs w) (path_join dir f) = Ok c) ->
             In x files ->
             exists r, value (read_md_files dir dirFiles files w) = Ok (r, None)
                       /\ In x r).
  { clear. intros dirFiles. induction dirFiles as [| f rest IH]; intros files x Hreadable Hx; simpl.
    - now exists files.
    - destruct (endsWith ".md" f) eqn:Hf.
      + rewrite bind_ask, bind_emit.
        destruct (Hreadable f (or_introl eq_refl) Hf) as (c & ->).
        destruct (IH (files ++ [{| name := remove_first ".md" f; content := c |}]) x)
          as (r & Hr & Hxr).
        * intros g Hg. apply Hreadable. now right.
        * apply in_or_app. now left.
        * exists r. split; [| exact Hxr].
          unfold continued, value. cbn [fst]. exact Hr.
      + apply IH; [| exact Hx]. intros g Hg. apply Hreadable. now right. }
  induction dirFiles as [| f rest IH]; intros files; [destruct Hin |]. simpl.
  destruct Hin as [-> | Hin].
  - rewrite Hmd, bind_ask, bind_emit, Hread.
    destruct (Hkept rest (files ++ [{| name := remove_first ".md" file; content := content |}])
                {| name := remove_first ".md" file; content := content |})
      as (r & Hr & Hxr).
    + intros g Hg. apply Hreadable. now right.
    + apply in_or_app. right. now left.
    + exists r. split; [| exact Hxr]. unfold continued, value. cbn [fst]. exact Hr.
  - destruct (endsWith ".md" f) eqn:Hf.
    + rewrite bind_ask, bind_emit.
      destruct (Hreadable f (or_introl eq_refl) Hf) as (c & ->).
      destruct (IH (fun g Hg => Hreadable g (or_intror Hg)) Hin
                  (files ++ [{| name := remove_first ".md" f; content := c |}]))
        as (r & Hr & Hxr).
      exists r. split; [| exact Hxr]. unfold continued, value. cbn [fst]. exact Hr.
    + apply IH; [| exact Hin]. intros g Hg. apply Hreadable. now right.
Qed.

Lemma endsWith_append (stem suffix : string) : endsWith suffix (stem +:+ suffix) = true.
Proof.
  induction stem as [| c stem IH].
  - change ("" +:+ suffix) with suffix.
    destruct suffix; cbn [endsWith]; now rewrite String.eqb_refl.
  - change (String c stem +:+ suffix) with (String c (stem +:+ suffix)).
    cbn [endsWith]. rewrite IH. apply orb_true_r.
Qed.

Lemma safe_char_not_dot (c : ascii) : safe_char c = true -> Ascii.eqb "." c = false.
Proof.
  destruct c as [[] [] [] [] [] [] [] []]; vm_compute; intros H;
    first [reflexivity | discriminate H].
Qed.

(** A sanitized name holds no dot, so that dropping the first [.md] of its
    file name gives the name back. *)
Lemma remove_first_md (stem : string) :
  string_forallb safe_char stem = true -> remove_first ".md" (stem +:+ ".md") = stem.
Proof.
  induction stem as [| c stem IH]; [reflexivity |].
  cbn [string_forallb]. intros [Hc Hs]%andb_true_iff.
  change (String c stem +:+ ".md") with (String c (stem +:+ ".md")).
  cbn [remove_first startsWith]. rewrite (safe_char_not_dot c Hc). cbn [andb].
  now rewrite (IH Hs).
Qed.

Lemma json_wire_listing (files : list KbFile) :
  json_wire (JArr (List.map (fun file => JObj [("name", JStr (name file));
                                               ("content", JStr (content file))]) files))
  = JArr (List.map (fun file => JObj [("name", JStr (name file));
                                      ("content", JStr (content file))]) files).
Proof.
  cbn [json_wire]. f_equal. rewrite map_map. reflexivity.
Qed.

(** A document sent to [POST /api/knowledge] is then listed by
    [GET /api/knowledge], under its sanitized name and with the content
    sent (the empty text for a content that is absent or empty), provided
    the knowledge directory exists and each of its [.md] entries can be
    read; the listing changes nothing. *)
Theorem upserted_document_is_listed :
  forall (St : Type) (w : world St) (body sent : jsval) (title text : string),
    get body "name" = Ok (JStr title) -> title <> "" ->
    get body "content" = Ok sent -> js_or sent (JStr "") = JStr text ->
    fs w !! KNOWLEDGE_DIR w = Some Dir ->
    kb_readable w ->
    let saved := after (post_knowledge body w) in
    exists items,
      responses (trace (get_knowledge saved)) = [(200%Z, JArr items)]
      /\ In (JObj [("name", JStr (sanitize title)); ("content", JStr text)]) items
      /\ after (get_knowledge saved) = saved.
Proof.
  intros St w body sent title text Hname Hne Hcontent Htext Hdir Hreadable saved.
  set (dir := KNOWLEDGE_DIR w) in *.
  set (target := dir ++ [sanitize title +:+ ".md"]).
  assert (Hfree : fs w !! target <> Some Dir).
  { intros Hisdir.
    destruct (readdirSync_In (fs w) dir (sanitize title +:+ ".md") Hdir)
      as (entries & Hentries & Hin).
    destruct (Hreadable entries (sanitize title +:+ ".md") Hentries) as (c & Hc).
    - apply Hin. now exists Dir.
    - apply endsWith_append.
    - fold dir in Hc. rewrite path_join_sanitized in Hc. unfold readFileSync in Hc.
      subst target. unfold path in *. now rewrite Hisdir in Hc. }
  assert (Hsaved : saved = set_fs (<[target := File text]> (fs w)) w).
  { subst saved.
    now rewrite (post_knowledge_run_written body sent title text w
                   Hname Hne Hcontent Htext Hdir Hfree). }
  assert (Hdir' : fs saved !! KNOWLEDGE_DIR saved = Some Dir).
  { rewrite Hsaved. change (KNOWLEDGE_DIR (set_fs _ w)) with dir. cbn [fs set_fs].
    rewrite lookup_insert_ne; [exact Hdir |].
    intros Heq. apply (f_equal (@length string)) in Heq.
    subst target. rewrite length_app in Heq. cbn in Heq. lia. }
  destruct (readdirSync_In (fs saved) (KNOWLEDGE_DIR saved) (sanitize title +:+ ".md") Hdir')
    as (entries & Hentries & Hin).
  assert (Hmine : readFileSync (fs saved)
                    (path_join (KNOWLEDGE_DIR saved) (sanitize title +:+ ".md")) = Ok text).
  { rewrite path_join_sanitized, Hsaved.
    change (KNOWLEDGE_DIR (set_fs _ w)) with dir. cbn [fs set_fs].
    unfold readFileSync. fold target. now rewrite lookup_insert_eq. }
  assert (Hall : forall f, In f entries -> endsWith ".md" f = true ->
                   exists c, readFileSync (fs saved) (path_join (KNOWLEDGE_DIR saved) f) = Ok c).
  { intros f Hf Hmd.
    destruct (readdirSync_In (fs saved) (KNOWLEDGE_DIR saved) f Hdir')
      as (entries' & Hentries' & Hin').
    rewrite Hentries in Hentries'. injection Hentries' as <-.
    apply Hin' in Hf. destruct Hf as (n & Hn).
    revert Hn. rewrite Hsaved. change (KNOWLEDGE_DIR (set_fs _ w)) with dir.
    cbn [fs set_fs]. intros Hn. unfold readFileSync.
    destruct (decide (path_join dir f = target)) as [-> | Hother].
    - rewrite lookup_insert_eq. now exists text.
    - rewrite lookup_insert_ne by congruence.
      destruct (decide (dir ++ [f] = target)) as [Hsame | Hdiff].
      + apply app_inv_head in Hsame. injection Hsame as ->.
        contradiction Hother. apply path_join_sanitized.
      + rewrite lookup_insert_ne in Hn by congruence.
        destruct (readdirSync_In (fs w) dir f Hdir) as (old & Hold & Hino).
        destruct (Hreadable old f Hold) as (c & Hc);
          [apply Hino; now exists n | exact Hmd |].
        exists c. exact Hc. }
  destruct (read_md_files_In (KNOWLEDGE_DIR saved) entries saved
              (sanitize title +:+ ".md") text Hall) with (files := @nil KbFile)
    as (r & Hr & Hlisted);
    [apply Hin; rewrite Hsaved; change (KNOWLEDGE_DIR (set_fs _ w)) with dir;
     cbn [fs set_fs]; fold target; rewrite lookup_insert_eq; eauto
    | apply endsWith_append | exact Hmine |].
  rewrite remove_first_md in Hlisted by apply sanitize_safe.
  destruct (loadKnowledgeFiles_run saved) as (t & Hload & Ht).
  assert (Hfiles : kb_files saved = r).
  { unfold kb_files, loadKnowledgeFiles. rewrite bind_ask, bind_emit, Hentries.
    destruct (read_md_files_run (KNOWLEDGE_DIR saved) entries saved [])
      as (r' & t' & Hrun & _).
    rewrite Hrun in Hr. unfold value in Hr. cbn [fst] in Hr. injection Hr as ->.
    rewrite (bind_run _ _ _ _ _ _ Hrun). reflexivity. }
  exists (List.map (fun file => JObj [("name", JStr (name file));
                                      ("content", JStr (content file))])
            (kb_files saved)).
  unfold get_knowledge. rewrite (bind_run _ _ _ _ _ _ Hload).
  unfold res_json. rewrite json_wire_listing.
  unfold respond, emit, continued, trace, after. cbn [fst snd].
  rewrite responses_app, (responses_none t).
  - split; [reflexivity | split; [| reflexivity]].
    rewrite Hfiles. apply in_map_iff.
    exists {| name := sanitize title; content := text |}. split; [reflexivity | exact Hlisted].
  - eapply List.Forall_impl; [| exact Ht]. intros ev. apply not_response_internal.
Qed.

Lemma upserted_document_is_listed_witness :
  let w := sample_world (Missing : Single.Store) [] (api_fails "down") in
  let saved := after (post_knowledge (JObj [("name", JStr "a/b.md")]) w) in
  exists items,
    responses (trace (get_knowledge saved)) = [(200%Z, JArr items)]
    /\ In (JObj [("name", JStr "abmd"); ("content", JStr "")]) items
    /\ after (get_knowledge saved) = saved.
Proof.
  intros w saved.
  apply (upserted_document_is_listed _ w (JObj [("name", JStr "a/b.md")])
           JUndefined "a/b.md" "").
  - reflexivity.
  - discriminate.
  - reflexivity.
  - reflexivity.
  - vm_compute. reflexivity.
  - intros dirFiles file Hentries. vm_compute in Hentries.
    injection Hentries as <-. intros [<- | []] _.
    exists "Hello World". vm_compute. reflexivity.
Defined.

(** ** The log routes *)

Lemma entry_wire_fields (entry : LogEntry) :
  get (json_wire (entry_json entry)) "type" = Ok (JStr (type entry))
  /\ get (json_wire (entry_json entry)) "timestamp" = Ok (JStr (timestamp entry))
  /\ get (json_wire (entry_json entry)) "data" = Ok (json_wire (data entry)).
Proof.
  unfold entry_json. rewrite json_wire_object. cbn [get].
  assert (Hkeys : NoDup (map fst [("timestamp", JStr (timestamp entry));
                                  ("type", JStr (type entry));
                                  ("data", data entry)])).
  { apply NoDup_ListNoDup.
    repeat (constructor; [cbn; intuition discriminate |]). constructor. }
  rewrite !(assoc_wire_fields _ _ Hkeys). repeat split.
Qed.

Lemma get_logs_run {St : Type} (w : world St) :
  get_logs w
  = (Ok tt, w,
     [EvRespond 200 (JArr (map (fun entry => json_wire (entry_json entry)) (messageLog w)))]).
Proof.
  unfold get_logs. rewrite bind_ask. unfold res_json, respond, emit.
  cbn [json_wire]. rewrite map_map. reflexivity.
Qed.

Ltac recent_lines :=
  first [ exact keeps_recent_lines_refl | exact keeps_recent_lines_trans
        | exact keeps_recent_lines_log
        | intros; apply keeps_recent_lines_silent;
          [ match goal with
            | H : internal ?ev = true |- _ => destruct ev; try discriminate H
            | _ => idtac
            end; reflexivity
          | reflexivity ] ].

(** After [DELETE /api/logs], [GET /api/logs] lists nothing; and after a
    webhook delivery that follows the deletion it lists exactly the lines
    that delivery logged, newest first, at most the 100 most recent.  The
    same holds on both servers. *)
Theorem cleared_log_lists_the_lines_logged_since :
  forall body : jsval,
    (forall w : world Single.Store,
        let cleared := after (delete_logs w) in
        let run := Single.post_webhook body cleared in
        responses (trace (get_logs cleared)) = [(200%Z, JArr [])]
        /\ exists items,
             responses (trace (get_logs (after run))) = [(200%Z, JArr items)]
             /\ map (fun item => (get item "type", get item "data")) items
                = map line_read (take 100 (rev (log_lines (trace run)))))
    /\ (forall w : world Multi.Store,
        let cleared := after (delete_logs w) in
        let run := Multi.post_webhook body cleared in
        responses (trace (get_logs cleared)) = [(200%Z, JArr [])]
        /\ exists items,
             responses (trace (get_logs (after run))) = [(200%Z, JArr items)]
             /\ map (fun item => (get item "type", get item "data")) items
                = map line_read (take 100 (rev (log_lines (trace run))))).
Proof.
  intros body.
  assert (Hlisting : forall (St : Type) (cleared after_run : world St) (t : list event),
             messageLog cleared = [] ->
             keeps_recent_lines cleared t after_run ->
             exists items,
               responses (trace (get_logs after_run)) = [(200%Z, JArr items)]
               /\ map (fun item => (get item "type", get item "data")) items
                  = map line_read (take 100 (rev (log_lines t)))).
  { intros St cleared after_run t Hempty Hrecent.
    eexists. rewrite get_logs_run. split; [reflexivity |].
    unfold keeps_recent_lines in Hrecent. rewrite Hempty in Hrecent.
    cbn [length map] in Hrecent. rewrite app_nil_r in Hrecent.
    rewrite <- Hrecent by lia. rewrite !map_map.
    apply map_ext. intros entry.
    destruct (entry_wire_fields entry) as (-> & _ & ->). reflexivity. }
  split; intros w cleared run; subst run cleared.
  - split; [reflexivity |].
    apply (Hlisting _ (after (delete_logs w))); [reflexivity |].
    apply respects_single_post_webhook; recent_lines.
  - split; [reflexivity |].
    apply (Hlisting _ (after (delete_logs w))); [reflexivity |].
    apply respects_multi_post_webhook; recent_lines.
Qed.

(** ** Deliveries and their replies *)









Section Delivering.
Context {St A : Type} (generate : A -> jsval -> string -> M St jsval) (token : A -> jsval).










End Delivering.























(** ** Which page serves an entry *)



(** ** Start-up *)

Lemma DATA_DIR_child {St : Type} (w : world St) : DATA_DIR w = dirname w ++ ["data"].
Proof. reflexivity. Qed.

Lemma KNOWLEDGE_DIR_child {St : Type} (w : world St) :
  KNOWLEDGE_DIR w = DATA_DIR w ++ ["knowledge"].
Proof. reflexivity. Qed.

Lemma ensure_directory_run {St : Type} (dir : world St -> path) (w : world St) :
  fs w !! dirname_of (dir w) = Some Dir ->
  free_or_directory (fs w !! dir w) ->
  ensure_directory dir w = (Ok tt, set_fs (<[dir w := Dir]> (fs w)) w, []).
Proof.
  intros Hparent Hfree. unfold ensure_directory. rewrite bind_ask.
  unfold existsSync, mkdirSync.
  destruct Hfree as [Hnone | Hdir].
  - rewrite Hnone. cbn [negb]. rewrite Hparent. reflexivity.
  - rewrite Hdir. cbn [negb]. unfold ret. do 2 f_equal.
    destruct w. unfold set_fs. cbn [fs] in *. f_equal.
    symmetry. now apply insert_id.
Qed.

(** The start-up of either server leaves the data directory and, inside
    it, the knowledge directory in place, whenever the application
    directory exists and neither path is taken by a file; it creates what
    is missing, touches no other path, and changes nothing when run
    again. *)
Theorem startup_provides_the_directories :
  forall (St : Type) (w : world St),
    fs w !! dirname w = Some Dir ->
    free_or_directory (fs w !! DATA_DIR w) ->
    free_or_directory (fs w !! KNOWLEDGE_DIR w) ->
    let run := ensure_directories w in
    value run = Ok tt
    /\ fs (after run) !! DATA_DIR w = Some Dir
    /\ fs (after run) !! KNOWLEDGE_DIR w = Some Dir
    /\ (forall p, p <> DATA_DIR w -> p <> KNOWLEDGE_DIR w ->
                  fs (after run) !! p = fs w !! p)
    /\ store (after run) = store w
    /\ fs (after (ensure_directories (after run))) = fs (after run).
Proof.
  intros St w Happ Hdata Hknowledge run.
  assert (Hdistinct : DATA_DIR w <> KNOWLEDGE_DIR w).
  { rewrite KNOWLEDGE_DIR_child. intros Heq.
    apply (f_equal (@length string)) in Heq. rewrite length_app in Heq.
    cbn in Heq. lia. }
  assert (Hrun : forall (v : world St),
             dirname v = dirname w ->
             fs v !! dirname v = Some Dir ->
             free_or_directory (fs v !! DATA_DIR v) ->
             free_or_directory (fs v !! KNOWLEDGE_DIR v) ->
             ensure_directories v
             = (Ok tt,
                set_fs (<[KNOWLEDGE_DIR w := Dir]> (<[DATA_DIR w := Dir]> (fs v))) v, [])).
  { intros v Hsame Hvapp Hvdata Hvknowledge. unfold ensure_directories.
    assert (Hd : DATA_DIR v = DATA_DIR w) by (unfold DATA_DIR; now rewrite Hsame).
    assert (Hk : KNOWLEDGE_DIR v = KNOWLEDGE_DIR w)
      by (unfold KNOWLEDGE_DIR; now rewrite Hd).
    rewrite (bind_run _ _ _ _ _ _
               (ensure_directory_run DATA_DIR v
                  ltac:(rewrite DATA_DIR_child, dirname_of_child; exact Hvapp) Hvdata)).
    unfold continued. cbn [app].
    set (v1 := set_fs (<[DATA_DIR v := Dir]> (fs v)) v).
    rewrite (ensure_directory_run KNOWLEDGE_DIR v1).
    - unfold value, after, trace. cbn [fst snd].
      change (KNOWLEDGE_DIR v1) with (KNOWLEDGE_DIR v). rewrite Hk, <- Hd.
      reflexivity.
    - change (KNOWLEDGE_DIR v1) with (KNOWLEDGE_DIR v).
      rewrite KNOWLEDGE_DIR_child, dirname_of_child. cbn [fs v1 set_fs].
      apply lookup_insert_eq.
    - change (KNOWLEDGE_DIR v1) with (KNOWLEDGE_DIR v). cbn [fs v1 set_fs].
      rewrite lookup_insert_ne by (rewrite Hd, Hk; exact Hdistinct).
      exact Hvknowledge. }
  subst run. rewrite (Hrun w eq_refl Happ Hdata Hknowledge).
  unfold value, after. cbn [fst snd fs store set_fs].
  split; [reflexivity | split; [| split; [| split; [| split]]]].
  - rewrite lookup_insert_ne by congruence. apply lookup_insert_eq.
  - apply lookup_insert_eq.
  - intros p Hp1 Hp2. now rewrite !lookup_insert_ne by congruence.
  - reflexivity.
  - rewrite Hrun.
    + cbn [fst snd fs set_fs]. apply map_eq. intros p.
      destruct (decide (p = KNOWLEDGE_DIR w)) as [-> | Hk];
        [now rewrite !lookup_insert_eq |].
      destruct (decide (p = DATA_DIR w)) as [-> | Hd];
        repeat first [ rewrite lookup_insert_eq
                     | rewrite lookup_insert_ne by congruence ];
        reflexivity.
    + reflexivity.
    + cbn [fs set_fs dirname].
      rewrite !lookup_insert_ne; [exact Happ | |].
      * rewrite DATA_DIR_child. intros Heq.
        apply (f_equal (@length string)) in Heq. rewrite length_app in Heq.
        cbn in Heq. lia.
      * rewrite KNOWLEDGE_DIR_child, DATA_DIR_child. intros Heq.
        apply (f_equal (@length string)) in Heq. rewrite !length_app in Heq.
        cbn in Heq. lia.
    + right. change (DATA_DIR (set_fs _ w)) with (DATA_DIR w). cbn [fs set_fs].
      rewrite lookup_insert_ne by congruence. apply lookup_insert_eq.
    + right. change (KNOWLEDGE_DIR (set_fs _ w)) with (KNOWLEDGE_DIR w).
      cbn [fs set_fs]. apply lookup_insert_eq.
Qed.

Lemma startup_provides_the_directories_witness :
  let run := ensure_directories fresh_world in
  fs fresh_world !! ["srv"; "bot"; "data"] = None
  /\ value run = Ok tt
  /\ fs (after run) !! ["srv"; "bot"; "data"] = Some Dir
  /\ fs (after run) !! ["srv"; "bot"; "data"; "knowledge"] = Some Dir.
Proof.
  intros run.
  assert (Hdata : fs fresh_world !! ["srv"; "bot"; "data"] = None)
    by (vm_compute; reflexivity).
  destruct (startup_provides_the_directories _ fresh_world)
    as (Hok & Hd & Hk & _).
  - vm_compute. reflexivity.
  - left. exact Hdata.
  - left. vm_compute. reflexivity.
  - split; [exact Hdata | split; [exact Hok | split; [exact Hd | exact Hk]]].
Defined.
